(** * Lead / order lifecycle of the jeevan-ayurvedic dashboard

    A shallow embedding of the request handlers and helpers behind the
    lead-to-order workflow: the in-memory rate limiter, the permission
    checker, the audit recorder, the notification dispatcher and the
    lead and order route handlers. *)

From Stdlib Require Import ZArith List Ascii String Lia Bool.
From Stdlib Require Import Floats.SpecFloat.
From stdpp Require Import base option list gmap strings fin_maps pretty sorting.

Open Scope Z_scope.

(** ** JavaScript numbers

    A number is an IEEE 754 double (binary64), written as in the
    Standard Library's specification of floating-point arithmetic: a
    signed zero, a signed infinity, NaN, or [m * 2^e] with a sign. *)

Module Num.

Definition number : Type := spec_float.

Definition prec : Z := 53.
Definition emax : Z := 1024.

Definition zero : number := S754_zero false.
Definition NaN : number := S754_nan.

(** The number an integer literal denotes (the nearest double). *)
Definition of_Z (n : Z) : number := binary_normalize prec emax n 0 false.

(** [a - b] and [a / b], rounded to nearest, ties to even. *)
Definition sub (a b : number) : number := SFsub prec emax a b.
Definition div (a b : number) : number := SFdiv prec emax a b.

(** The number a decimal literal with [places] digits after the point
    denotes: [decimal 150030 2] is [1500.30]. *)
Definition decimal (digits : Z) (places : nat) : number :=
  div (of_Z digits) (of_Z (10 ^ Z.of_nat places)).

(** [a < b] and [a <= b]; both are false as soon as one side is NaN. *)
Definition ltb (a b : number) : bool := SFltb a b.
Definition leb (a b : number) : bool := SFleb a b.

Definition lt (a b : number) : Prop := ltb a b = true.
Definition le (a b : number) : Prop := leb a b = true.

(** [+0] or [-0]. *)
Definition isZero (a : number) : bool :=
  match a with
  | S754_zero _ => true
  | _ => false
  end.

(** [+0], [-0] and NaN are the falsy numbers. *)
Definition falsy (a : number) : bool :=
  match a with
  | S754_zero _ => true
  | S754_nan => true
  | _ => false
  end.

(** [Number.isInteger(a)] *)
Definition isInteger (a : number) : bool :=
  match a with
  | S754_zero _ => true
  | S754_finite _ m e =>
      if bool_decide (0 <= e) then true
      else bool_decide (Z.pos m mod 2 ^ (- e) = 0)
  | _ => false
  end.

(** *** Number::toString

    The digits are the shortest decimal [s * 10^(n-k)], with [k] digits
    in [s], that reads back as the same double; of several, the one
    nearest to the double. *)

(** A positive rational as a pair of positive integers. *)
Definition scaled (m e : Z) : Z * Z :=
  if bool_decide (0 <= e) then (m * 2 ^ e, 1) else (m, 2 ^ (- e)).

(** [10^(n-1) <= num/den < 10^n], searched from [n = 1] downwards or
    upwards. *)
Fixpoint magnitude_up (fuel : nat) (num den n : Z) : Z :=
  match fuel with
  | O => n
  | S fuel => if bool_decide (num < den * 10 ^ n) then n
              else magnitude_up fuel num den (n + 1)
  end.

Fixpoint magnitude_down (fuel : nat) (num den n : Z) : Z :=
  match fuel with
  | O => n
  | S fuel => if bool_decide (den <= num * 10 ^ (1 - n)) then n
              else magnitude_down fuel num den (n - 1)
  end.

Definition magnitude (num den : Z) : Z :=
  if bool_decide (den <= num) then magnitude_up 400 num den 1
  else magnitude_down 400 num den 0.

(** [s * 10^p] against [num / den]. *)
Definition decimal_compare (s p num den : Z) : comparison :=
  if bool_decide (0 <= p) then (s * 10 ^ p * den ?= num)
  else (s * den ?= num * 10 ^ (- p)).

(** Twice the distance of [s * 10^p] from [num / den], over a common
    denominator. *)
Definition distance (s p num den : Z) : Z :=
  if bool_decide (0 <= p) then Z.abs (s * 10 ^ p * den - num)
  else Z.abs (s * den - num * 10 ^ (- p)).

(** Does [s * 10^p] read back as the double whose neighbours' midpoints
    are [lo / den] and [hi / den]?  The midpoints themselves read back
    as the double when its mantissa is even. *)
Definition reads_back (even : bool) (s p lo hi den : Z) : bool :=
  match decimal_compare s p lo den, decimal_compare s p hi den with
  | Gt, Lt => true
  | Eq, _ => even
  | _, Eq => even
  | _, _ => false
  end.

(** The candidates with [k] digits next to [num / den], whose magnitude
    is [n0]: the decimal below, the decimal above. *)
Definition candidates (k n0 num den : Z) : list (Z * Z) :=
  let p := n0 - k in
  let below :=
    if bool_decide (0 <= p) then num / (den * 10 ^ p)
    else (num * 10 ^ (- p)) / den in
  let above := below + 1 in
  (if bool_decide (10 ^ (k - 1) <= below) then [(below, n0)] else [])
  ++ (if bool_decide (above < 10 ^ k) then [(above, n0)]
      else [(10 ^ (k - 1), n0 + 1)]).

Definition nearer (k num den : Z) (a b : Z * Z) : Z * Z :=
  let da := distance a.1 (a.2 - k) num den in
  let db := distance b.1 (b.2 - k) num den in
  if bool_decide (da < db) then a
  else if bool_decide (db < da) then b
  else if Z.even a.1 then a else b.

Fixpoint shortest (fuel : nat) (k n0 : Z) (even : bool) (v lo hi den : Z)
  : Z * Z * Z :=
  match fuel with
  | O => (v, k, n0)
  | S fuel =>
      match List.filter (fun c => reads_back even c.1 (c.2 - k) lo hi den)
              (candidates k n0 v den) with
      | [] => shortest fuel (k + 1) n0 even v lo hi den
      | [a] => (a.1, k, a.2)
      | a :: b :: _ => let c := nearer k v den a b in (c.1, k, c.2)
      end
  end.

(** [s], [k] and [n] of a positive finite double [m * 2^e]. *)
Definition digits_of (m : positive) (e : Z) : Z * Z * Z :=
  let power_of_two :=
    bool_decide (Z.pos m = 2 ^ (prec - 1)) && bool_decide (emin prec emax < e) in
  let '(v, den) := scaled (4 * Z.pos m) (e - 2) in
  let '(lo, _) := scaled (4 * Z.pos m - (if power_of_two then 1 else 2)) (e - 2) in
  let '(hi, _) := scaled (4 * Z.pos m + 2) (e - 2) in
  shortest 25 1 (magnitude v den) (Z.even (Z.pos m)) v lo hi den.

Fixpoint zeros (n : nat) : string :=
  match n with
  | O => EmptyString
  | S k => String "0" (zeros k)
  end.

Definition format (s k n : Z) : string :=
  let digits := pretty s in
  if bool_decide (k <= n <= 21) then
    digits +:+ zeros (Z.to_nat (n - k))
  else if bool_decide (0 < n <= 21) then
    String.substring 0 (Z.to_nat n) digits +:+ "."
    +:+ String.substring (Z.to_nat n) (Z.to_nat (k - n)) digits
  else if bool_decide (-6 < n <= 0) then
    "0." +:+ zeros (Z.to_nat (- n)) +:+ digits
  else
    let exponent :=
      (if bool_decide (0 <= n - 1) then "+" else "-") +:+ pretty (Z.abs (n - 1)) in
    if bool_decide (k = 1) then digits +:+ "e" +:+ exponent
    else String.substring 0 1 digits +:+ "."
         +:+ String.substring 1 (Z.to_nat (k - 1)) digits +:+ "e" +:+ exponent.

Definition toString (a : number) : string :=
  match a with
  | S754_nan => "NaN"
  | S754_zero _ => "0"
  | S754_infinity s => if s then "-Infinity" else "Infinity"
  | S754_finite s m e =>
      let '(d, k, n) := digits_of m e in
      (if s then "-" else EmptyString) +:+ format d k n
  end.

End Num.

#[global] Instance number_eq_dec : EqDecision Num.number.
Proof. unfold Num.number. solve_decision. Defined.

(** ** JavaScript values that cross the handlers

    Request bodies and database rows are JavaScript objects whose fields
    hold scalars.  A number field holds a double, so an amount such as
    1500.30 is the double nearest to it and arithmetic on amounts rounds
    as the engine does.  [JDate None] is an Invalid Date; [JStrings] is
    an array of strings and [JOther] any other nested array or object. *)

Inductive jval : Type :=
  | JNull
  | JBool (b : bool)
  | JNum (n : Num.number)
  | JStr (s : string)
  | JDate (t : option Z)
  | JStrings (items : list string)
  | JOther.

#[global] Instance jval_eq_dec : EqDecision jval.
Proof. solve_decision. Defined.

(** A JavaScript object used as a map, and a database row. *)
Abbreviation Row := (gmap string jval).

(** [row.key] on a row the database returned: an empty column reads as
    [null]. *)
Definition col (r : Row) (k : string) : jval := default JNull (r !! k).

(** JavaScript truthiness, as used by [if (x)], [x || y] and [x && y]. *)
Definition truthy (v : jval) : bool :=
  match v with
  | JNull => false
  | JBool b => b
  | JNum n => negb (Num.falsy n)
  | JStr s => negb (String.eqb s EmptyString)
  | JDate _ => true
  | JStrings _ => true
  | JOther => true
  end.

(** [Number(x)] for the values an amount column or a validated amount
    field can hold (numbers, or [null] for an empty column); [None] is
    the NaN of a value that is no number. *)
Definition Number (v : jval) : option Num.number :=
  match v with
  | JNum n => Some n
  | JNull => Some Num.zero
  | JBool b => Some (Num.of_Z (if b then 1 else 0))
  | _ => None
  end.

(** [a > b] on numbers: false as soon as one side is NaN. *)
Definition num_gt (a b : option Num.number) : bool :=
  match a, b with
  | Some x, Some y => Num.ltb y x
  | _, _ => false
  end.

(** The double-quote character, as a one-character string. *)
Definition dquote : string := String "034"%char EmptyString.

(** A value spliced into a template literal. *)
Definition template (v : jval) : string :=
  match v with
  | JNull => "null"
  | JBool b => if b then "true" else "false"
  | JNum n => Num.toString n
  | JStr s => s
  | JDate _ => "[Date]"
  | JStrings items => fold_right (fun a b => a +:+ "," +:+ b) EmptyString items
  | JOther => "[object Object]"
  end.

(** ** lib/rate-limit.ts *)

Module RateLimit.

Record record : Type := { count : Z; resetTime : Z }.

(** [rateLimitMap], the module-level [Map]. *)
Abbreviation rateLimitMap := (gmap string record).

Definition default_limit : Z := 100.
Definition default_windowMs : Z := 15 * 60 * 1000.

(** [rateLimit(ip, limit, windowMs)] run at clock value [now]: the
    answer and the map it leaves behind. *)
Definition rateLimit (now : Z) (ip : string) (limit windowMs : Z)
  (m : rateLimitMap) : bool * rateLimitMap :=
  match m !! ip with
  | None =>
      (true, <[ip := {| count := 1; resetTime := now + windowMs |}]> m)
  | Some r =>
      if bool_decide (now > resetTime r) then
        (true, <[ip := {| count := 1; resetTime := now + windowMs |}]> m)
      else if bool_decide (count r >= limit) then
        (false, m)
      else
        (true, <[ip := {| count := count r + 1; resetTime := resetTime r |}]> m)
  end.

(** The sweep installed with [setInterval]: drop every expired window. *)
Definition cleanup (now : Z) (m : rateLimitMap) : rateLimitMap :=
  filter (fun kv => ¬ (now > resetTime kv.2)) m.

(** A burst of requests of one client, one clock value per request. *)
Fixpoint burst (ip : string) (limit windowMs : Z) (times : list Z)
  (m : rateLimitMap) : list bool * rateLimitMap :=
  match times with
  | [] => ([], m)
  | t :: ts =>
      let '(b, m1) := rateLimit t ip limit windowMs m in
      let '(bs, m2) := burst ip limit windowMs ts m1 in
      (b :: bs, m2)
  end.

End RateLimit.

(** ** The data model (Prisma client types) *)

Inductive UserRole : Type := ADMIN | EMPLOYEE.

#[global] Instance UserRole_eq_dec : EqDecision UserRole.
Proof. solve_decision. Defined.

(** [rp.permission] of a role: a (module, action) pair. *)
Record Permission : Type := { perm_module : string; perm_action : string }.

(** [ra.role] of a role assignment, with its permissions joined in. *)
Record Role : Type := { role_name : string; permissions : list Permission }.

Record User : Type := {
  user_id : string;
  user_name : string;
  user_role : UserRole;
  isActive : bool;
  roleAssignments : list Role
}.

(** [session.user] as next-auth hands it to a handler. *)
Record SessionUser : Type := {
  su_id : string;
  su_name : string;
  su_role : UserRole
}.

Inductive AuditAction : Type := CREATE | UPDATE | DELETE | ASSIGN.

(** The [changes] argument of [createAuditLog] at its call sites. *)
Inductive Changes : Type :=
  | ChangesData (data : Row)
  | ChangesOldNew (old new : Row)
  | ChangesOldNewFields (old new updatedFields : Row).

Record AuditLog : Type := {
  al_userId : string;
  al_action : AuditAction;
  al_entityType : string;
  al_entityId : string;
  al_changes : option Changes;
  al_description : option string;
  al_ipAddress : option string;
  al_userAgent : option string
}.

Inductive NotificationType : Type :=
  | LEAD_ASSIGNED
  | LEAD_STATUS_CHANGED
  | ORDER_CREATED
  | ORDER_STATUS_CHANGED
  | ORDER_DISPATCHED
  | PAYMENT_RECEIVED
  | SYSTEM_ALERT.

Record Notification : Type := {
  n_userId : jval;
  n_type : NotificationType;
  n_title : string;
  n_message : string;
  n_entityType : option string;
  n_entityId : option string
}.

(** The [where] object the lead listing builds. *)
Inductive StatusFilter : Type :=
  | StatusIs (s : string)
  | StatusNot (s : string).

Record LeadWhere : Type := {
  w_assignedTo : option string;
  w_status : option StatusFilter;
  w_priority : option string;
  w_source : option string;
  w_createdAt : option (option (option Z) * option (option Z));
  w_OR : option string
}.

(** Database contents and the process-wide rate-limit map. *)
Record Store : Type := {
  users : list User;
  leads : list Row;
  orders : list Row;
  payments : list Row;
  auditLogs : list AuditLog;
  notifications : list Notification;
  rateLimitMap : gmap string RateLimit.record
}.

(** Calls on the Prisma client that write, or that the client validates
    before it reads. *)
Inductive PrismaCall : Type :=
  | LeadFindMany (w : LeadWhere) (skip take : option Z)
  | LeadUpdate (id : string) (data : Row)
  | LeadUpdateMany (ids : list string) (data : Row)
  | OrderCreate (data : Row)
  | OrderUpdate (id : string) (data : Row)
  | PaymentCreate (data : Row)
  | AuditLogCreate (data : AuditLog)
  | NotificationCreate (data : Notification).

(** What a handler observes from outside the source during one request:
    the clock, the draws of the order-number generator, what the database
    rejects and which id it gives a created row, and the library
    functions the source calls. *)
Record Env : Type := {
  now : Z;
  later : Z;
  draws : list (Z * Z);
  rejects : PrismaCall -> bool;
  newId : PrismaCall -> string;
  isEmail : string -> bool;
  parseDate : string -> option Z;
  parseInt : string -> option Z;
  contains : string -> string -> bool
}.

(** ** Handlers as state-and-exception computations

    An [await]ed call either returns, throws, or (for the order-number
    loop) has not returned when the draws run out.  Writes made before
    a [throw] stay in the store: the handlers open no transaction. *)

Inductive Error : Type :=
  | ZodError
  | SyntaxError
  | PrismaError
  | JsError (message : string).

Inductive outcome (A : Type) : Type :=
  | Ok (a : A)
  | Throw (e : Error)
  | Hang.

Arguments Ok {A} a.
Arguments Throw {A} e.
Arguments Hang {A}.

Definition M (A : Type) : Type := Store -> outcome A * Store.

Definition ret {A} (a : A) : M A := fun s => (Ok a, s).

Definition bind {A B} (m : M A) (k : A -> M B) : M B :=
  fun s =>
    match m s with
    | (Ok a, s1) => k a s1
    | (Throw e, s1) => (Throw e, s1)
    | (Hang, s1) => (Hang, s1)
    end.

Definition throw {A} (e : Error) : M A := fun s => (Throw e, s).

(** [try { m } catch (error) { h error }] *)
Definition try_catch {A} (m : M A) (h : Error -> M A) : M A :=
  fun s =>
    match m s with
    | (Throw e, s1) => h e s1
    | r => r
    end.

Definition gets {A} (f : Store -> A) : M A := fun s => (Ok (f s), s).
Definition modify (f : Store -> Store) : M unit := fun s => (Ok tt, f s).

Notation "'let*' x ':=' m 'in' k" := (bind m (fun x => k))
  (at level 10, x name, m at level 100, k at level 200).
Notation "'run' m 'then' k" := (bind m (fun _ => k))
  (at level 10, m at level 100, k at level 200).

(** [for (const x of xs) { await f(x) }] *)
Fixpoint for_each {A} (xs : list A) (f : A -> M unit) : M unit :=
  match xs with
  | [] => ret tt
  | x :: rest => run f x then for_each rest f
  end.

(** Field-wise updates of the store. *)
Definition set_leads (f : list Row -> list Row) (s : Store) : Store :=
  {| users := users s; leads := f (leads s); orders := orders s;
     payments := payments s; auditLogs := auditLogs s;
     notifications := notifications s; rateLimitMap := rateLimitMap s |}.

Definition set_orders (f : list Row -> list Row) (s : Store) : Store :=
  {| users := users s; leads := leads s; orders := f (orders s);
     payments := payments s; auditLogs := auditLogs s;
     notifications := notifications s; rateLimitMap := rateLimitMap s |}.

Definition set_payments (f : list Row -> list Row) (s : Store) : Store :=
  {| users := users s; leads := leads s; orders := orders s;
     payments := f (payments s); auditLogs := auditLogs s;
     notifications := notifications s; rateLimitMap := rateLimitMap s |}.

Definition set_auditLogs (f : list AuditLog -> list AuditLog) (s : Store) : Store :=
  {| users := users s; leads := leads s; orders := orders s;
     payments := payments s; auditLogs := f (auditLogs s);
     notifications := notifications s; rateLimitMap := rateLimitMap s |}.

Definition set_notifications (f : list Notification -> list Notification)
  (s : Store) : Store :=
  {| users := users s; leads := leads s; orders := orders s;
     payments := payments s; auditLogs := auditLogs s;
     notifications := f (notifications s); rateLimitMap := rateLimitMap s |}.

Definition set_rateLimitMap
  (f : gmap string RateLimit.record -> gmap string RateLimit.record)
  (s : Store) : Store :=
  {| users := users s; leads := leads s; orders := orders s;
     payments := payments s; auditLogs := auditLogs s;
     notifications := notifications s; rateLimitMap := f (rateLimitMap s) |}.

(** ** The Prisma client *)

Module Prisma.

Definition has_id (id : string) (r : Row) : bool :=
  bool_decide (r !! "id" = Some (JStr id)).

(** [prisma.user.findUnique({ where: { id } })] *)
Definition user_findUnique (id : string) : M (option User) :=
  gets (fun s => find (fun u => String.eqb (user_id u) id) (users s)).

(** [prisma.user.findMany({ where: { role: 'ADMIN', isActive: true } })] *)
Definition user_findMany_admins : M (list User) :=
  gets (fun s =>
    List.filter (fun u => bool_decide (user_role u = ADMIN) && isActive u) (users s)).

(** [prisma.lead.findUnique({ where: { id } })] *)
Definition lead_findUnique (id : string) : M (option Row) :=
  gets (fun s => find (has_id id) (leads s)).

(** [prisma.order.findUnique({ where: { id } })] *)
Definition order_findUnique (id : string) : M (option Row) :=
  gets (fun s => find (has_id id) (orders s)).

(** [prisma.order.findUnique({ where: { orderNumber } })] *)
Definition order_findUnique_orderNumber (orderNumber : string) : M (option Row) :=
  gets (fun s =>
    find (fun o => bool_decide (o !! "orderNumber" = Some (JStr orderNumber)))
         (orders s)).

(** A write the database may reject: nothing is stored then and the call
    throws. *)
Definition guarded {A} (e : Env) (c : PrismaCall) (m : M A) : M A :=
  if rejects e c then throw PrismaError else m.

(** [update]: the row with this id takes the new values of [data]. *)
Definition update_row (id : string) (data : Row) (r : Row) : Row :=
  if has_id id r then data ∪ r else r.

(** [prisma.lead.update({ where: { id }, data })] *)
Definition lead_update (e : Env) (id : string) (data : Row) : M Row :=
  guarded e (LeadUpdate id data)
    (let* found := lead_findUnique id in
     match found with
     | None => throw PrismaError
     | Some r =>
         run modify (set_leads (map (update_row id data))) then
         ret (data ∪ r)
     end).

(** [prisma.lead.updateMany({ where: { id: { in: ids } }, data })] *)
Definition in_ids (ids : list string) (r : Row) : bool :=
  match r !! "id" with
  | Some (JStr i) => bool_decide (i ∈ ids)
  | _ => false
  end.

Definition lead_updateMany (e : Env) (ids : list string) (data : Row) : M nat :=
  guarded e (LeadUpdateMany ids data)
    (let* n := gets (fun s => length (List.filter (in_ids ids) (leads s))) in
     run modify (set_leads (map (fun r => if in_ids ids r then data ∪ r else r))) then
     ret n).

(** [prisma.order.create({ data })]: the database adds the row id. *)
Definition order_create (e : Env) (data : Row) : M Row :=
  guarded e (OrderCreate data)
    (let row := <["id" := JStr (newId e (OrderCreate data))]> data in
     run modify (set_orders (fun l => l ++ [row])) then
     ret row).

(** [prisma.order.update({ where: { id }, data })] *)
Definition order_update (e : Env) (id : string) (data : Row) : M Row :=
  guarded e (OrderUpdate id data)
    (let* found := order_findUnique id in
     match found with
     | None => throw PrismaError
     | Some r =>
         run modify (set_orders (map (update_row id data))) then
         ret (data ∪ r)
     end).

(** [prisma.payment.create({ data })] *)
Definition payment_create (e : Env) (data : Row) : M Row :=
  guarded e (PaymentCreate data)
    (let row := <["id" := JStr (newId e (PaymentCreate data))]> data in
     run modify (set_payments (fun l => l ++ [row])) then
     ret row).

(** [prisma.auditLog.create({ data })] *)
Definition auditLog_create (e : Env) (data : AuditLog) : M unit :=
  guarded e (AuditLogCreate data)
    (modify (set_auditLogs (fun l => l ++ [data]))).

(** [prisma.notification.create({ data })] *)
Definition notification_create (e : Env) (data : Notification) : M Notification :=
  guarded e (NotificationCreate data)
    (run modify (set_notifications (fun l => l ++ [data])) then ret data).

End Prisma.

(** ** lib/audit.ts *)

Definition createAuditLog (e : Env) (userId : string) (action : AuditAction)
  (entityType entityId : string) (changes : option Changes)
  (description ipAddress userAgent : option string) : M unit :=
  try_catch
    (Prisma.auditLog_create e
       {| al_userId := userId; al_action := action;
          al_entityType := entityType; al_entityId := entityId;
          al_changes := changes; al_description := description;
          al_ipAddress := ipAddress; al_userAgent := userAgent |})
    (fun _ => ret tt).

(** ** lib/notifications.ts *)

Definition createNotification (e : Env) (n : Notification) : M (option Notification) :=
  try_catch
    (let* created := Prisma.notification_create e n in ret (Some created))
    (fun _ => ret None).

(** ** lib/permissions.ts *)

Definition hasPermission (userId module action : string) : M bool :=
  let* user := Prisma.user_findUnique userId in
  match user with
  | None => ret false
  | Some u =>
      if bool_decide (user_role u = ADMIN) then ret true
      else
        ret (existsb (fun ra =>
               existsb (fun rp =>
                  String.eqb (perm_module rp) module
                  && String.eqb (perm_action rp) action)
                 (permissions ra))
               (roleAssignments u))
  end.

Definition requirePermission (userId module action : string) : M unit :=
  let* hasAccess := hasPermission userId module action in
  if negb hasAccess then throw (JsError "Insufficient permissions")
  else ret tt.

(** ** Requests and responses *)

(** What [await req.json()] yields: it throws on text that is not JSON;
    JSON that is not an object reaches the schema and fails there. *)
Inductive Body : Type :=
  | BadJson
  | NotObject
  | Obj (fields : Row).

Record Request : Type := {
  session : option SessionUser;
  forwardedFor : option string;
  userAgent : option string;
  query : list (string * string);
  body : Body
}.

Inductive Payload : Type :=
  | ErrorMessage (error : string)
  | ZodIssues
  | RowJson (r : Row)
  | Listing (data : list Row) (page limit : option Z) (total : nat)
      (totalPages : option Z)
  | SuccessCount (n : nat).

Record Response : Type := { status : Z; payload : Payload }.

Definition json (p : Payload) (st : Z) : M Response :=
  ret {| status := st; payload := p |}.

(** [session?.user?.id], falsy when there is no session or the id is
    empty. *)
Definition authenticated (req : Request) : option SessionUser :=
  match session req with
  | Some u => if String.eqb (su_id u) EmptyString then None else Some u
  | None => None
  end.

(** [s || fallback] on a header value. *)
Definition or_else (h : option string) (fallback : string) : string :=
  match h with
  | Some s => if String.eqb s EmptyString then fallback else s
  | None => fallback
  end.

(** [req.headers.get('user-agent') || undefined] *)
Definition or_undefined (h : option string) : option string :=
  match h with
  | Some s => if String.eqb s EmptyString then None else Some s
  | None => None
  end.

(** [req.headers.get('x-forwarded-for') || 'unknown'] *)
Definition client_ip (req : Request) : string :=
  or_else (forwardedFor req) "unknown".

(** [rateLimit(ip)] with its default limit and window, on the map of the
    store. *)
Definition rateLimit (e : Env) (ip : string) : M bool :=
  fun s =>
    let '(allowed, m) :=
      RateLimit.rateLimit (now e) ip RateLimit.default_limit
        RateLimit.default_windowMs (rateLimitMap s) in
    (Ok allowed, set_rateLimitMap (fun _ => m) s).

(** [await req.json()] *)
Definition req_json (req : Request) : M Body :=
  match body req with
  | BadJson => throw SyntaxError
  | b => ret b
  end.

(** ** Zod object schemas

    [z.object({...})] checks each listed key and drops every other key
    of the input.  A key may be absent only when its schema is
    [.optional()]. *)

Module Zod.

Record field : Type := {
  key : string;
  optional : bool;
  accepts : jval -> bool;
  transform : jval -> jval
}.

Definition required (k : string) (p : jval -> bool) : field :=
  {| key := k; optional := false; accepts := p; transform := fun v => v |}.

Definition opt (k : string) (p : jval -> bool) : field :=
  {| key := k; optional := true; accepts := p; transform := fun v => v |}.

Definition opt_with (k : string) (p : jval -> bool) (f : jval -> jval) : field :=
  {| key := k; optional := true; accepts := p; transform := f |}.

(** [z.string()] *)
Definition string_ (v : jval) : bool :=
  match v with JStr _ => true | _ => false end.

(** [z.string().min(1)] *)
Definition string_min1 (v : jval) : bool :=
  match v with JStr s => negb (String.eqb s EmptyString) | _ => false end.

(** [z.number().min(0)] *)
Definition number_min0 (v : jval) : bool :=
  match v with JNum n => Num.leb Num.zero n | _ => false end.

(** [z.number().int().positive()] *)
Definition number_int_positive (v : jval) : bool :=
  match v with
  | JNum n => Num.isInteger n && Num.ltb Num.zero n
  | _ => false
  end.

(** [z.enum([...])] *)
Definition enum (values : list string) (v : jval) : bool :=
  match v with JStr s => bool_decide (s ∈ values) | _ => false end.

(** [z.literal('')] *)
Definition literal_empty (v : jval) : bool :=
  bool_decide (v = JStr EmptyString).

(** [z.null()] *)
Definition null (v : jval) : bool := bool_decide (v = JNull).

(** [z.string().email()] *)
Definition email (e : Env) (v : jval) : bool :=
  match v with JStr s => isEmail e s | _ => false end.

Definition union (ps : list (jval -> bool)) (v : jval) : bool :=
  existsb (fun p => p v) ps.

Fixpoint parse_fields (schema : list field) (input : Row) : option Row :=
  match schema with
  | [] => Some ∅
  | f :: rest =>
      match input !! key f with
      | None =>
          if optional f then parse_fields rest input else None
      | Some v =>
          if accepts f v then
            match parse_fields rest input with
            | Some d => Some (<[key f := transform f v]> d)
            | None => None
            end
          else None
      end
  end.

(** [schema.safeParse(body)] *)
Definition safeParse (schema : list field) (b : Body) : option Row :=
  match b with
  | Obj input => parse_fields schema input
  | _ => None
  end.

(** [schema.parse(body)] *)
Definition parse (schema : list field) (b : Body) : M Row :=
  match safeParse schema b with
  | Some d => ret d
  | None => throw ZodError
  end.

End Zod.

(** [{ ...r, k: v }] where [v] may be [undefined]: Prisma ignores an
    undefined field. *)
Definition with_field (k : string) (v : option jval) (r : Row) : Row :=
  match v with
  | Some x => <[k := x]> r
  | None => r
  end.

(** [a || b] on values; an absent field is [undefined], which is falsy. *)
Definition js_or (a : option jval) (b : jval) : jval :=
  match a with
  | Some v => if truthy v then v else b
  | None => b
  end.

(** ** app/api/orders/route.ts *)

Module OrdersRoute.

Definition address_fields : list string :=
  ["addressLine1"; "addressLine2"; "addressLine3"; "addressLine4";
   "addressLine5"; "addressLine6"; "pincodeId"; "cityId"; "state";
   "country"; "station"; "notes"].

Definition orderSchema : list Zod.field :=
  [ Zod.required "leadId" Zod.string_min1;
    Zod.required "receivedAmount" Zod.number_min0;
    Zod.required "paymentStatus"
      (Zod.enum ["PENDING"; "PARTIAL"; "FULL"; "CUSTOM"]);
    Zod.opt "paymentMethod" Zod.string_;
    Zod.opt "moneyOrderNumber" Zod.string_;
    Zod.required "totalAmount" Zod.number_min0;
    Zod.required "vppAmount" Zod.number_min0 ]
  ++ map (fun k => Zod.opt k Zod.string_) address_fields.

(** [s.slice(-n)] *)
Definition slice_last (n : nat) (s : string) : string :=
  String.substring (String.length s - n)%nat n s.

Fixpoint zeros (n : nat) : string :=
  match n with
  | O => EmptyString
  | S k => String "0" (zeros k)
  end.

(** [s.padStart(n, '0')] *)
Definition padStart (n : nat) (s : string) : string :=
  zeros (n - String.length s)%nat +:+ s.

(** [generateOrderNumber()] when [Date.now()] is [t] and
    [Math.floor(Math.random() * 1000)] is [r]. *)
Definition generateOrderNumber (t r : Z) : string :=
  let prefix := "G" in
  let timestamp := slice_last 6 (pretty t) in
  let random := padStart 3 (pretty r) in
  prefix +:+ timestamp +:+ random.

(** The collision loop: one draw per call of [generateOrderNumber]. *)
Fixpoint fresh_orderNumber (ds : list (Z * Z)) : M string :=
  match ds with
  | [] => fun s => (Hang, s)
  | (t, r) :: rest =>
      let orderNumber := generateOrderNumber t r in
      let* exists_ := Prisma.order_findUnique_orderNumber orderNumber in
      match exists_ with
      | Some _ => fresh_orderNumber rest
      | None => ret orderNumber
      end
  end.

(** The [data] object handed to [prisma.order.create]. *)
Definition order_data (data : Row) (orderNumber : string) (lead : Row)
  (assignedTo : jval) (u : SessionUser) : Row :=
  <["bookedBy" := JStr (su_id u)]>
  (<["status" := JStr "PENDING"]>
  (<["assignedTo" := assignedTo]>
  (<["patientId" := JStr orderNumber]>
  (<["patientName" := col lead "name"]>
  (<["orderNumber" := JStr orderNumber]>
  (<["leadId" := col data "leadId"]> data)))))).

(** The [data] object of the initial payment. *)
Definition initial_payment (order data : Row) (u : SessionUser) : Row :=
  with_field "referenceNumber" (data !! "moneyOrderNumber")
  (<["receivedBy" := JStr (su_id u)]>
  (<["paymentMethod" := js_or (data !! "paymentMethod") (JStr "MONEY_ORDER")]>
  (<["paymentType" := JStr "INITIAL"]>
  (<["amount" := col data "receivedAmount"]>
  (<["orderId" := col order "id"]> ∅))))).

(** The notifications sent once the order is stored. *)
Definition create_notifications (e : Env) (u : SessionUser) (assignedTo : jval)
  (orderNumber : string) (lead order : Row) : M unit :=
  let* _ :=
    if bool_decide (assignedTo ≠ JStr (su_id u)) then
      let* _ := createNotification e
        {| n_userId := assignedTo; n_type := ORDER_CREATED;
           n_title := "New Order Created";
           n_message := "A new order " +:+ orderNumber
             +:+ " has been created from lead: " +:+ template (col lead "name");
           n_entityType := Some "Order";
           n_entityId := Some (template (col order "id")) |} in ret tt
    else ret tt in
  if bool_decide (su_role u = EMPLOYEE) then
    let* admins := Prisma.user_findMany_admins in
    for_each admins (fun admin =>
      let* _ := createNotification e
        {| n_userId := JStr (user_id admin); n_type := ORDER_CREATED;
           n_title := "New Order Created";
           n_message := "Employee " +:+ su_name u +:+ " created order "
             +:+ orderNumber +:+ " from lead: " +:+ template (col lead "name");
           n_entityType := Some "Order";
           n_entityId := Some (template (col order "id")) |} in ret tt)
  else ret tt.

Definition POST_body (e : Env) (req : Request) : M Response :=
  match authenticated req with
  | None => json (ErrorMessage "Unauthorized") 401
  | Some u =>
  let ip := client_ip req in
  let* allowed := rateLimit e ip in
  if negb allowed then json (ErrorMessage "Too many requests") 429 else
  let* body := req_json req in
  let* data := Zod.parse orderSchema body in
  let* lead := Prisma.lead_findUnique (template (col data "leadId")) in
  match lead with
  | None => json (ErrorMessage "Lead not found") 404
  | Some lead =>
  let raw := match body with Obj r => r | _ => ∅ end in
  let assignedTo :=
    if bool_decide (su_role u = ADMIN)
    then js_or (raw !! "assignedTo") (JStr (su_id u))
    else JStr (su_id u) in
  let* orderNumber := fresh_orderNumber (draws e) in
  let* order :=
    Prisma.order_create e (order_data data orderNumber lead assignedTo u) in
  let* _ :=
    if num_gt (Number (col data "receivedAmount")) (Some Num.zero)
    then let* _ := Prisma.payment_create e (initial_payment order data u) in ret tt
    else ret tt in
  let* _ :=
    Prisma.lead_update e (template (col data "leadId"))
      {["status" := JStr "CONVERTED"]} in
  let* _ :=
    createAuditLog e (su_id u) CREATE "Order" (template (col order "id"))
      (Some (ChangesData (<["orderNumber" := JStr orderNumber]> data)))
      (Some ("Created order from lead: " +:+ template (col lead "name")))
      (Some ip) (or_undefined (userAgent req)) in
  let* _ := create_notifications e u assignedTo orderNumber lead order in
  json (RowJson order) 201
  end
  end.

Definition POST (e : Env) (req : Request) : M Response :=
  try_catch (POST_body e req)
    (fun error =>
       match error with
       | ZodError => json ZodIssues 400
       | _ => json (ErrorMessage "Internal server error") 500
       end).

End OrdersRoute.

(** ** app/api/orders/[id]/route.ts *)

Module OrderIdRoute.

(** [z.string().transform((str) => new Date(str))] *)
Definition to_Date (e : Env) (v : jval) : jval :=
  match v with
  | JStr s => JDate (parseDate e s)
  | _ => v
  end.

Definition orderUpdateSchema (e : Env) : list Zod.field :=
  [ Zod.opt "status"
      (Zod.enum ["PENDING"; "PAYMENT_RECEIVED"; "DISPATCHED"; "IN_TRANSIT";
                 "DELIVERED"; "PAID"; "RETURNED"; "CANCELLED"]);
    Zod.opt_with "dispatchDate" Zod.string_ (to_Date e);
    Zod.opt "trackingId" Zod.string_;
    Zod.opt "courierService" Zod.string_;
    Zod.opt "weight" Zod.number_min0;
    Zod.opt "receivedAmount" Zod.number_min0;
    Zod.opt "paymentStatus"
      (Zod.enum ["PENDING"; "PARTIAL"; "FULL"; "CUSTOM"; "COMPLETED"]);
    Zod.opt "paymentMethod" Zod.string_;
    Zod.opt "moneyOrderNumber" Zod.string_;
    Zod.opt_with "deliveredDate" Zod.string_ (to_Date e);
    Zod.opt_with "returnDate" Zod.string_ (to_Date e);
    Zod.opt "returnReason" Zod.string_;
    Zod.opt "notes" Zod.string_ ].

(** Truthiness of a field that may be absent ([undefined]). *)
Definition truthy_field (o : option jval) : bool :=
  match o with
  | Some v => truthy v
  | None => false
  end.

(** [data.receivedAmount &&
     Number(data.receivedAmount) > Number(existingOrder.receivedAmount)] *)
Definition payment_increase (data existingOrder : Row) : bool :=
  truthy_field (data !! "receivedAmount")
  && num_gt (Number (col data "receivedAmount"))
            (Number (col existingOrder "receivedAmount")).

(** [Number(data.receivedAmount) - Number(existingOrder.receivedAmount)] *)
Definition additionalAmount (data existingOrder : Row) : jval :=
  JNum (Num.sub (default Num.NaN (Number (col data "receivedAmount")))
                (default Num.NaN (Number (col existingOrder "receivedAmount")))).

(** The dispatch stamp added to [updateData]. *)
Definition handle_dispatch (e : Env) (u : SessionUser)
  (data existingOrder : Row) : Row :=
  if bool_decide (data !! "status" = Some (JStr "DISPATCHED"))
     && negb (truthy (col existingOrder "dispatchedBy"))
  then
    let updateData := <["dispatchedBy" := JStr (su_id u)]> data in
    if negb (truthy_field (updateData !! "dispatchDate"))
    then <["dispatchDate" := JDate (Some (later e))]> updateData
    else updateData
  else data.

(** The [data] object of the payment recorded for an increase. *)
Definition payment_data (id : string) (u : SessionUser)
  (data existingOrder : Row) : Row :=
  <["receivedBy" := JStr (su_id u)]>
  (<["referenceNumber" :=
       js_or (data !! "moneyOrderNumber") (col existingOrder "moneyOrderNumber")]>
  (<["paymentMethod" :=
       js_or (data !! "paymentMethod")
         (js_or (existingOrder !! "paymentMethod") (JStr "MONEY_ORDER"))]>
  (<["paymentType" :=
       if num_gt (Number (col existingOrder "receivedAmount")) (Some Num.zero)
       then JStr "PARTIAL" else JStr "INITIAL"]>
  (<["amount" := additionalAmount data existingOrder]>
  (<["orderId" := JStr id]> ∅))))).

Definition notify (e : Env) (userId : jval) (ty : NotificationType)
  (title message : string) (order : Row) : M unit :=
  let* _ := createNotification e
    {| n_userId := userId; n_type := ty; n_title := title;
       n_message := message; n_entityType := Some "Order";
       n_entityId := Some (template (col order "id")) |} in
  ret tt.

Definition when (b : bool) (m : M unit) : M unit :=
  if b then m else ret tt.

(** The notifications sent after the update is stored. *)
Definition create_notifications (e : Env) (u : SessionUser)
  (data existingOrder order : Row) : M unit :=
  let orderNumber := template (col order "orderNumber") in
  let* _ :=
    when (truthy_field (data !! "status")
          && bool_decide (col data "status" ≠ col existingOrder "status"))
      (let* _ :=
         when (bool_decide (col order "assignedTo" ≠ JStr (su_id u)))
           (notify e (col order "assignedTo") ORDER_STATUS_CHANGED
              "Order Status Updated"
              ("Order " +:+ orderNumber +:+ " status changed to "
               +:+ template (col data "status") +:+ " by "
               +:+ or_else (Some (su_name u)) "Admin") order) in
       let* _ :=
         when (bool_decide (su_role u = EMPLOYEE))
           (let* admins := Prisma.user_findMany_admins in
            for_each admins (fun admin =>
              notify e (JStr (user_id admin)) ORDER_STATUS_CHANGED
                "Order Status Updated"
                ("Employee " +:+ su_name u +:+ " changed order "
                 +:+ orderNumber +:+ " status to "
                 +:+ template (col data "status")) order)) in
       when (bool_decide (data !! "status" = Some (JStr "DISPATCHED")))
         (notify e (col order "assignedTo") ORDER_DISPATCHED
            "Order Dispatched"
            ("Order " +:+ orderNumber
             +:+ " has been dispatched. Tracking ID: "
             +:+ template (js_or (data !! "trackingId") (JStr "N/A"))) order)) in
  when (payment_increase data existingOrder
        && bool_decide (col order "assignedTo" ≠ JStr (su_id u)))
    (notify e (col order "assignedTo") PAYMENT_RECEIVED
       "Payment Received"
       ("Payment of ₹" +:+ template (additionalAmount data existingOrder)
        +:+ " received for order " +:+ orderNumber) order).

Definition PATCH_body (e : Env) (req : Request) (id : string) : M Response :=
  match authenticated req with
  | None => json (ErrorMessage "Unauthorized") 401
  | Some u =>
  let ip := client_ip req in
  let* allowed := rateLimit e ip in
  if negb allowed then json (ErrorMessage "Too many requests") 429 else
  let* existingOrder := Prisma.order_findUnique id in
  match existingOrder with
  | None => json (ErrorMessage "Order not found") 404
  | Some existingOrder =>
  if bool_decide (su_role u = EMPLOYEE)
     && bool_decide (col existingOrder "assignedTo" ≠ JStr (su_id u))
  then json (ErrorMessage "Forbidden") 403 else
  let* body := req_json req in
  let* data := Zod.parse (orderUpdateSchema e) body in
  let updateData := handle_dispatch e u data existingOrder in
  let* _ :=
    when (payment_increase data existingOrder)
      (let* _ := Prisma.payment_create e (payment_data id u data existingOrder) in
       ret tt) in
  let* order := Prisma.order_update e id updateData in
  let orderNumber := template (col order "orderNumber") in
  let* _ :=
    createAuditLog e (su_id u) UPDATE "Order" (template (col order "id"))
      (Some (ChangesOldNew existingOrder order))
      (Some ("Updated order: " +:+ orderNumber))
      (Some ip) (or_undefined (userAgent req)) in
  let* _ := create_notifications e u data existingOrder order in
  json (RowJson order) 200
  end
  end.

Definition PATCH (e : Env) (req : Request) (id : string) : M Response :=
  try_catch (PATCH_body e req id)
    (fun error =>
       match error with
       | ZodError => json ZodIssues 400
       | _ => json (ErrorMessage "Internal server error") 500
       end).

End OrderIdRoute.

(** ** app/api/leads/route.ts: the lead listing *)

(** [searchParams.get(k)]: the first value of the key, if any. *)
Fixpoint searchParams_get (q : list (string * string)) (k : string) : option string :=
  match q with
  | [] => None
  | (k', v) :: rest => if String.eqb k' k then Some v else searchParams_get rest k
  end.

(** [if (s)] on what [searchParams.get] returned: some non-empty text. *)
Definition present (o : option string) : option string :=
  match o with
  | Some s => if String.eqb s EmptyString then None else Some s
  | None => None
  end.

Module LeadListing.

Definition created (r : Row) : Z :=
  match col r "createdAt" with
  | JDate (Some t) => t
  | _ => 0
  end.

(** [{ k: { contains: search } }] *)
Definition column_contains (e : Env) (search : string) (r : Row) (k : string) : bool :=
  match r !! k with
  | Some (JStr s) => contains e s search
  | _ => false
  end.

Definition status_matches (f : StatusFilter) (r : Row) : bool :=
  match f with
  | StatusIs s => bool_decide (r !! "status" = Some (JStr s))
  | StatusNot s => bool_decide (r !! "status" ≠ Some (JStr s))
  end.

Definition on_filter {A} (o : option A) (p : A -> bool) : bool :=
  match o with
  | Some a => p a
  | None => true
  end.

Definition in_range (range : option (option Z) * option (option Z)) (r : Row) : bool :=
  on_filter range.1 (fun gte =>
    match gte with Some g => bool_decide (g <= created r) | None => false end)
  && on_filter range.2 (fun lte =>
    match lte with Some l => bool_decide (created r <= l) | None => false end).

(** Does a lead satisfy the [where] object? *)
Definition satisfies (e : Env) (w : LeadWhere) (r : Row) : bool :=
  on_filter (w_assignedTo w)
    (fun a => bool_decide (r !! "assignedTo" = Some (JStr a)))
  && on_filter (w_status w) (fun f => status_matches f r)
  && on_filter (w_priority w)
       (fun p => bool_decide (r !! "priority" = Some (JStr p)))
  && on_filter (w_source w)
       (fun p => bool_decide (r !! "source" = Some (JStr p)))
  && on_filter (w_createdAt w) (fun range => in_range range r)
  && on_filter (w_OR w) (fun search =>
       existsb (column_contains e search r) ["name"; "phone"; "email"; "disease"]).

(** [orderBy: { createdAt: 'desc' }] *)
Definition newer_or_same (a b : Row) : Prop := created b <= created a.

#[global] Instance newer_or_same_dec : RelDecision newer_or_same.
Proof. intros a b. unfold newer_or_same. apply _. Defined.

Definition newest_first (l : list Row) : list Row :=
  merge_sort newer_or_same l.

(** [skip] and [take]; a negative [take] counts from the end. *)
Definition window (skip take : Z) (l : list Row) : list Row :=
  if bool_decide (take >= 0)
  then firstn (Z.to_nat take) (skipn (Z.to_nat skip) l)
  else rev (firstn (Z.to_nat (- take)) (skipn (Z.to_nat skip) (rev l))).

(** [prisma.lead.findMany({ where, orderBy, skip, take })]: the client
    refuses a [NaN] or negative [skip] and a [NaN] [take]. *)
Definition findMany (e : Env) (w : LeadWhere) (skip take : option Z) : M (list Row) :=
  Prisma.guarded e (LeadFindMany w skip take)
    match skip, take with
    | Some sk, Some tk =>
        if bool_decide (sk < 0) then throw PrismaError
        else gets (fun s =>
               window sk tk (newest_first (List.filter (satisfies e w) (leads s))))
    | _, _ => throw PrismaError
    end.

(** [prisma.lead.count({ where })] *)
Definition count (e : Env) (w : LeadWhere) : M nat :=
  gets (fun s => length (List.filter (satisfies e w) (leads s))).

(** [Math.ceil(total / limit)]; [None] when the quotient is not finite. *)
Definition totalPages (total : nat) (limit : option Z) : option Z :=
  match limit with
  | Some l => if bool_decide (l = 0) then None else Some (- ((- Z.of_nat total) / l))
  | None => None
  end.

Definition date_range (e : Env) (startDate endDate : option string)
  : option (option (option Z) * option (option Z)) :=
  match startDate, endDate with
  | None, None => None
  | _, _ => Some (parseDate e <$> startDate, parseDate e <$> endDate)
  end.

(** The handler, with the status clause chosen when the request names no
    status left open: the two revisions of the route differ only there. *)
Definition GET_body (unfiltered : option StatusFilter) (e : Env) (req : Request)
  : M Response :=
  match authenticated req with
  | None => json (ErrorMessage "Unauthorized") 401
  | Some u =>
  let ip := client_ip req in
  let* allowed := rateLimit e ip in
  if negb allowed then json (ErrorMessage "Too many requests") 429 else
  let get := searchParams_get (query req) in
  let status := present (get "status") in
  let page := parseInt e (or_else (get "page") "1") in
  let limit := parseInt e (or_else (get "limit") "20") in
  let skip :=
    match page, limit with
    | Some p, Some l => Some ((p - 1) * l)
    | _, _ => None
    end in
  let where_ :=
    {| w_assignedTo :=
         if bool_decide (su_role u = EMPLOYEE) then Some (su_id u) else None;
       w_status :=
         match status with
         | Some s => Some (StatusIs s)
         | None => unfiltered
         end;
       w_priority := present (get "priority");
       w_source := present (get "source");
       w_createdAt :=
         date_range e (present (get "startDate")) (present (get "endDate"));
       w_OR := present (get "search") |} in
  let* leads := findMany e where_ skip limit in
  let* total := count e where_ in
  json (Listing leads page limit total (totalPages total limit)) 200
  end.

Definition GET_with (unfiltered : option StatusFilter) (e : Env) (req : Request)
  : M Response :=
  try_catch (GET_body unfiltered e req)
    (fun _ => json (ErrorMessage "Internal server error") 500).

End LeadListing.

(** [app/api/leads/route.ts] in its current revision, the one the lead
    pages are written against (src/unnamed/part_007): a request without
    [status] gets [where.status = { not: 'CONVERTED' }]. *)
Module LeadsRoute.

Definition GET : Env -> Request -> M Response :=
  LeadListing.GET_with (Some (StatusNot "CONVERTED")).

End LeadsRoute.

(** The earlier revision of the same file (src/app/api/leads/route.ts),
    which the current one extends: a request without [status] puts no
    status clause into [where]. *)
Module LeadsRouteEarlier.

Definition GET : Env -> Request -> M Response := LeadListing.GET_with None.

End LeadsRouteEarlier.

(** ** app/api/leads/[id]/route.ts *)

Module LeadIdRoute.

(** [z.union([z.string(), z.literal(''), z.null()])] *)
Definition string_or_null : jval -> bool :=
  Zod.union [Zod.string_; Zod.literal_empty; Zod.null].

Definition text_fields : list string :=
  ["alternatePhone"; "disease"; "duration"; "patientHistory"].

Definition place_fields : list string :=
  ["addressLine1"; "addressLine2"; "addressLine3"; "addressLine4";
   "addressLine5"; "addressLine6"; "pincodeId"; "cityId"; "state";
   "country"; "preferredLanguage"; "preferredCommunication"].

(** The schema only gates the request: the handler builds [updateData]
    from the raw body, and the parsed data is logged and dropped. *)
Definition leadSchema (e : Env) : list Zod.field :=
  [ Zod.opt "name" string_or_null;
    Zod.opt "fatherName" string_or_null;
    Zod.opt "gender"
      (Zod.union [Zod.enum ["MALE"; "FEMALE"; "OTHER"]; Zod.literal_empty; Zod.null]);
    Zod.opt "age" Zod.number_int_positive;
    Zod.opt "phone" Zod.string_;
    Zod.opt "email" (Zod.union [Zod.email e; Zod.literal_empty]) ]
  ++ map (fun k => Zod.opt k Zod.string_) text_fields
  ++ [ Zod.opt "vppAmount" Zod.number_min0 ]
  ++ map (fun k => Zod.opt k Zod.string_) place_fields
  ++ [ Zod.opt "source"
         (Zod.enum ["WHATSAPP"; "SOCIAL_MEDIA"; "WEBSITE"; "REFERRAL";
                    "PHONE_CALL"; "OTHER"]);
       Zod.opt "status"
         (Zod.enum ["NEW"; "CONTACTED"; "QUALIFIED"; "CONVERTED"; "LOST"]);
       Zod.opt "priority" (Zod.enum ["LOW"; "MEDIUM"; "HIGH"; "URGENT"]);
       Zod.opt "notes" Zod.string_;
       Zod.opt "assignedTo" Zod.string_ ].

(** [addField(key, body[key], transform)]; a transform answers [None]
    for [undefined]. *)
Definition addField (body : Row) (key : string)
  (transform : jval -> option jval) (updateData : Row) : Row :=
  match body !! key with
  | None => updateData
  | Some value =>
      match transform value with
      | None => updateData
      | Some transformedValue =>
          if bool_decide (transformedValue = JStr EmptyString ∨ transformedValue = JNull)
          then <[key := JNull]> updateData
          else <[key := transformedValue]> updateData
      end
  end.

Definition as_is (v : jval) : option jval := Some v.

(** [(val) => val !== undefined && val !== null ? Number(val) : undefined] *)
Definition as_number (v : jval) : option jval :=
  match v with
  | JNull => None
  | _ => Some (JNum (default Num.NaN (Number v)))
  end.

(** The [pincodeId] and [cityId] blocks. *)
Definition addId (e : Env) (body : Row) (key : string) (updateData : Row) : Row :=
  match body !! key with
  | None => updateData
  | Some v =>
      if bool_decide (v = JStr EmptyString ∨ v = JNull ∨ v = JStr "null")
      then <[key := JNull]> updateData
      else
        match parseInt e (template v) with
        | Some parsed => <[key := JNum (Num.of_Z parsed)]> updateData
        | None => <[key := JNull]> updateData
        end
  end.

(** [if (key in body) updateData[key] = body[key]] *)
Definition copyField (body : Row) (key : string) (updateData : Row) : Row :=
  match body !! key with
  | None => updateData
  | Some v => <[key := v]> updateData
  end.

Definition addFields (body : Row) (keys : list string) (updateData : Row) : Row :=
  fold_left (fun acc k => addField body k as_is acc) keys updateData.

(** [updateData], built key by key in the order of the source. *)
Definition build_updateData (e : Env) (body : Row) : Row :=
  let d := addFields body ["name"; "fatherName"; "gender"] ∅ in
  let d := addField body "age" as_number d in
  let d := addFields body
    ["phone"; "email"; "alternatePhone"; "disease"; "duration"; "patientHistory"] d in
  let d := addField body "vppAmount" as_number d in
  let d := addFields body
    ["addressLine1"; "addressLine2"; "addressLine3"; "addressLine4";
     "addressLine5"; "addressLine6"] d in
  let d := addId e body "pincodeId" d in
  let d := addId e body "cityId" d in
  let d := addFields body
    ["state"; "country"; "preferredLanguage"; "preferredCommunication"] d in
  let d := copyField body "source" d in
  let d := copyField body "status" d in
  let d := copyField body "priority" d in
  let d := addField body "notes" as_is d in
  copyField body "assignedTo" d.

(** [lead.name || lead.phone || fallback] *)
Definition lead_label (lead : Row) (fallback : string) : string :=
  template (js_or (Some (col lead "name"))
              (js_or (Some (col lead "phone")) (JStr fallback))).

Definition notify (e : Env) (userId : jval) (ty : NotificationType)
  (title message : string) (lead : Row) : M unit :=
  let* _ := createNotification e
    {| n_userId := userId; n_type := ty; n_title := title;
       n_message := message; n_entityType := Some "Lead";
       n_entityId := Some (template (col lead "id")) |} in
  ret tt.

Definition when (b : bool) (m : M unit) : M unit :=
  if b then m else ret tt.

(** The notifications sent after the update is stored. *)
Definition create_notifications (e : Env) (u : SessionUser)
  (currentUser : option User) (updateData existingLead lead : Row) : M unit :=
  let* _ :=
    when (truthy (col updateData "assignedTo")
          && bool_decide (col updateData "assignedTo" ≠ col existingLead "assignedTo"))
      (notify e (col updateData "assignedTo") LEAD_ASSIGNED "New Lead Assigned"
         ("You have been assigned a new lead: " +:+ lead_label lead "New Lead")
         lead) in
  when (truthy (col updateData "status")
        && bool_decide (col updateData "status" ≠ col existingLead "status"))
    (let userName :=
       or_else (user_name <$> currentUser) "Admin" in
     let* _ :=
       when (bool_decide (user_role <$> currentUser = Some ADMIN)
             && bool_decide (col lead "assignedTo" ≠ JStr (su_id u)))
         (notify e (col lead "assignedTo") LEAD_STATUS_CHANGED
            "Lead Status Updated"
            ("Admin " +:+ userName +:+ " changed lead " +:+ dquote +:+ lead_label lead "Lead"
             +:+ dquote +:+ " status to " +:+ template (col updateData "status")) lead) in
     when (bool_decide (user_role <$> currentUser = Some EMPLOYEE))
       (let* admins := Prisma.user_findMany_admins in
        for_each admins (fun admin =>
          notify e (JStr (user_id admin)) LEAD_STATUS_CHANGED
            "Lead Status Updated"
            ("Employee " +:+ userName +:+ " changed lead " +:+ dquote
             +:+ lead_label lead "Lead"
             +:+ dquote +:+ " status to " +:+ template (col updateData "status")) lead))).

Definition PATCH_body (e : Env) (req : Request) (id : string) : M Response :=
  match authenticated req with
  | None => json (ErrorMessage "Unauthorized") 401
  | Some u =>
  let ip := client_ip req in
  let* allowed := rateLimit e ip in
  if negb allowed then json (ErrorMessage "Too many requests") 429 else
  let* existingLead := Prisma.lead_findUnique id in
  match existingLead with
  | None => json (ErrorMessage "Lead not found") 404
  | Some existingLead =>
  if bool_decide (su_role u = EMPLOYEE)
     && bool_decide (col existingLead "assignedTo" ≠ JStr (su_id u))
  then json (ErrorMessage "Forbidden") 403 else
  let* body := req_json req in
  match Zod.safeParse (leadSchema e) body, body with
  | Some _, Obj body =>
  (* Employees cannot reassign leads *)
  let body :=
    if bool_decide (su_role u = EMPLOYEE) && bool_decide (is_Some (body !! "assignedTo"))
    then delete "assignedTo" body
    else body in
  let* currentUser := Prisma.user_findUnique (su_id u) in
  let updateData := build_updateData e body in
  let* lead := Prisma.lead_update e id updateData in
  let* _ :=
    createAuditLog e (su_id u) UPDATE "Lead" (template (col lead "id"))
      (Some (ChangesOldNewFields existingLead lead updateData))
      (Some ("Updated lead: " +:+ lead_label lead "Lead"))
      (Some ip) (or_undefined (userAgent req)) in
  let* _ := create_notifications e u currentUser updateData existingLead lead in
  json (RowJson lead) 200
  | _, _ => json ZodIssues 400
  end
  end
  end.

Definition PATCH (e : Env) (req : Request) (id : string) : M Response :=
  try_catch (PATCH_body e req id)
    (fun error =>
       match error with
       | ZodError => json ZodIssues 400
       | _ => json (ErrorMessage "Internal server error") 500
       end).

End LeadIdRoute.

(** ** app/api/leads/bulk-assign/route.ts *)

Module BulkAssignRoute.

(** [z.array(z.string())] *)
Definition array_of_strings (v : jval) : bool :=
  match v with JStrings _ => true | _ => false end.

Definition bulkAssignSchema : list Zod.field :=
  [ Zod.required "leadIds" array_of_strings;
    Zod.required "assignedTo" Zod.string_min1 ].

Definition leadIds_of (data : Row) : list string :=
  match col data "leadIds" with
  | JStrings ids => ids
  | _ => []
  end.

Definition POST_body (e : Env) (req : Request) : M Response :=
  match authenticated req with
  | None => json (ErrorMessage "Unauthorized") 401
  | Some u =>
  let ip := client_ip req in
  let* allowed := rateLimit e ip in
  if negb allowed then json (ErrorMessage "Too many requests") 429 else
  let* _ := requirePermission (su_id u) "leads" "update" in
  let* body := req_json req in
  let* data := Zod.parse bulkAssignSchema body in
  let leadIds := leadIds_of data in
  let assignedTo := template (col data "assignedTo") in
  let* user := Prisma.user_findUnique assignedTo in
  match user with
  | None => json (ErrorMessage "User not found") 404
  | Some user =>
  let* result :=
    Prisma.lead_updateMany e leadIds {["assignedTo" := JStr assignedTo]} in
  let* _ :=
    for_each leadIds (fun leadId =>
      createAuditLog e (su_id u) ASSIGN "Lead" leadId
        (Some (ChangesData {["assignedTo" := JStr assignedTo]}))
        (Some ("Bulk assigned lead to " +:+ user_name user))
        (Some ip) (or_undefined (userAgent req))) in
  json (SuccessCount result) 200
  end
  end.

Definition POST (e : Env) (req : Request) : M Response :=
  try_catch (POST_body e req)
    (fun error =>
       match error with
       | JsError "Insufficient permissions" => json (ErrorMessage "Forbidden") 403
       | ZodError => json ZodIssues 400
       | _ => json (ErrorMessage "Internal server error") 500
       end).

End BulkAssignRoute.

(** * Comparing runs

    Two runs are compared: one against an environment whose audit store
    rejects every write, one against the environment as it is.  The
    relation below says that the runs return the same thing and leave
    stores that differ in the audit log at most. *)

Definition forget_audit (s : Store) : Store := set_auditLogs (fun _ => []) s.

Definition audit_blind {A} (m1 m2 : M A) : Prop :=
  forall s1 s2, forget_audit s1 = forget_audit s2 ->
    (m1 s1).1 = (m2 s2).1 /\ forget_audit (m1 s1).2 = forget_audit (m2 s2).2.

(** The environment with the audit store down: every audit write is
    rejected, everything else is as in [e]. *)
Definition audit_down (e : Env) : Env :=
  {| now := now e; later := later e; draws := draws e;
     rejects := fun c =>
       match c with
       | AuditLogCreate _ => true
       | _ => rejects e c
       end;
     newId := newId e; isEmail := isEmail e; parseDate := parseDate e;
     parseInt := parseInt e; contains := contains e |}.

(** The business tables: the store with the audit log and the inboxes
    erased.  A computation is [quiet] when it always returns and changes
    those two at most. *)
Definition forget_logs (s : Store) : Store :=
  set_notifications (fun _ => []) (set_auditLogs (fun _ => []) s).

Definition quiet {A} (m : M A) : Prop :=
  forall s, exists a s', m s = (Ok a, s') /\ forget_logs s' = forget_logs s.

(** * A small deployment used in the examples *)

Module Scenario.

Definition admin : User :=
  {| user_id := "a1"; user_name := "Admin User"; user_role := ADMIN;
     isActive := true; roleAssignments := [] |}.

Definition employeeE : User :=
  {| user_id := "e1"; user_name := "Employee E"; user_role := EMPLOYEE;
     isActive := true; roleAssignments := [] |}.

Definition employeeF : User :=
  {| user_id := "e2"; user_name := "Employee F"; user_role := EMPLOYEE;
     isActive := true; roleAssignments := [] |}.

(** An employee whose assigned role grants (leads, update). *)
Definition coordinator : User :=
  {| user_id := "e3"; user_name := "Coordinator"; user_role := EMPLOYEE;
     isActive := true;
     roleAssignments :=
       [ {| role_name := "Lead coordinator";
            permissions :=
              [ {| perm_module := "leads"; perm_action := "read" |};
                {| perm_module := "leads"; perm_action := "update" |} ] |} ] |}.

Definition as_session (u : User) : SessionUser :=
  {| su_id := user_id u; su_name := user_name u; su_role := user_role u |}.

Definition leadA : Row :=
  {[ "id" := JStr "lead-1"; "name" := JStr "A"; "phone" := JStr "9990001111";
     "status" := JStr "NEW"; "priority" := JStr "MEDIUM";
     "source" := JStr "OTHER"; "assignedTo" := JStr "e1";
     "createdAt" := JDate (Some 1000) ]}.

Definition leadB : Row :=
  {[ "id" := JStr "lead-2"; "name" := JStr "B"; "phone" := JStr "9990002222";
     "status" := JStr "CONVERTED"; "priority" := JStr "HIGH";
     "source" := JStr "WEBSITE"; "assignedTo" := JStr "e1";
     "createdAt" := JDate (Some 2000) ]}.

Definition orderB : Row :=
  {[ "id" := JStr "order-1"; "leadId" := JStr "lead-2";
     "orderNumber" := JStr "G000001001"; "patientName" := JStr "B";
     "status" := JStr "PENDING"; "paymentStatus" := JStr "PARTIAL";
     "totalAmount" := JNum (Num.of_Z 5000);
     "vppAmount" := JNum (Num.of_Z 5000);
     "receivedAmount" := JNum (Num.of_Z 2000); "assignedTo" := JStr "e1";
     "bookedBy" := JStr "e1" ]}.

Definition paymentB : Row :=
  {[ "id" := JStr "payment-1"; "orderId" := JStr "order-1";
     "amount" := JNum (Num.of_Z 2000); "paymentType" := JStr "INITIAL";
     "paymentMethod" := JStr "MONEY_ORDER"; "receivedBy" := JStr "e1" ]}.

Definition store0 : Store :=
  {| users := [admin; employeeE; employeeF; coordinator];
     leads := [leadA; leadB];
     orders := [orderB];
     payments := [paymentB];
     auditLogs := [];
     notifications := [];
     rateLimitMap := ∅ |}.

Definition digit (c : ascii) : option Z :=
  let n := Z.of_nat (nat_of_ascii c) in
  if bool_decide (48 <= n <= 57) then Some (n - 48) else None.

Fixpoint decimal (acc : Z) (s : string) : option Z :=
  match s with
  | EmptyString => Some acc
  | String c rest =>
      match digit c with
      | Some d => decimal (10 * acc + d) rest
      | None => None
      end
  end.

(** One request's surroundings: the database accepts every write, and
    the order-number generator draws the same candidate twice before a
    new one. *)
Definition env0 : Env :=
  {| now := 1700000000000;
     later := 1700000000005;
     draws := [(1700000123456, 7); (1700000123456, 7); (1700000123457, 42)];
     rejects := fun _ => false;
     newId := fun c =>
       match c with
       | OrderCreate d => "order-" +:+ template (col d "orderNumber")
       | PaymentCreate d => "payment-" +:+ template (col d "orderId")
       | _ => "row"
       end;
     isEmail := fun s =>
       match String.index 0 "@" s with Some _ => true | None => false end;
     parseDate := fun _ => None;
     parseInt := fun s =>
       match s with EmptyString => None | _ => decimal 0 s end;
     contains := fun s search =>
       match String.index 0 search s with Some _ => true | None => false end |}.

Definition request (u : User) (b : Body) : Request :=
  {| session := Some (as_session u); forwardedFor := Some "10.0.0.1";
     userAgent := None; query := []; body := b |}.

(** The conversion form: lead, amounts, payment status. *)
Definition conversion (leadId : string) (received : Z) : Body :=
  Obj {[ "leadId" := JStr leadId;
         "receivedAmount" := JNum (Num.of_Z received);
         "paymentStatus" := JStr "PARTIAL";
         "totalAmount" := JNum (Num.of_Z 5000);
         "vppAmount" := JNum (Num.of_Z 5000) ]}.

(** What comes back from a handler: the response and the tables. *)
Definition answer (r : outcome Response * Store) : option Response :=
  match r.1 with
  | Ok resp => Some resp
  | _ => None
  end.

End Scenario.

(** The response of a run that returned one (a placeholder otherwise). *)
Definition response_of (r : outcome Response * Store) : Response :=
  match r.1 with
  | Ok resp => resp
  | _ => {| status := 0; payload := ZodIssues |}
  end.

(** The assignee column of the lead table, row by row, and the
    computations that leave it as it is. *)
Definition assignees (l : list Row) : list (option jval) :=
  (fun r : Row => r !! "assignedTo") <$> l.

Definition keeps_assignees {A} (m : M A) : Prop :=
  forall s, assignees (leads (m s).2) = assignees (leads s).

(** The database part of the store: everything but the in-memory
    rate-limit map. *)
Definition database (s : Store) : Store := set_rateLimitMap (fun _ => ∅) s.

(** * Environments with a failing database *)

Module Faults.



(** Neither the audit log nor the inboxes accept a write. *)
Definition logs_down (e : Env) : Env :=
  {| now := now e; later := later e; draws := draws e;
     rejects := fun c =>
       match c with
       | AuditLogCreate _ => true
       | NotificationCreate _ => true
       | _ => rejects e c
       end;
     newId := newId e; isEmail := isEmail e; parseDate := parseDate e;
     parseInt := parseInt e; contains := contains e |}.

End Faults.

(** Two runs that return the same thing and leave the same business
    tables, whatever they did to the audit log and the inboxes. *)
Definition logs_blind {A} (m1 m2 : M A) : Prop :=
  forall s1 s2, forget_logs s1 = forget_logs s2 ->
    (m1 s1).1 = (m2 s2).1 /\ forget_logs (m1 s1).2 = forget_logs (m2 s2).2.

(** A computation that leaves one aspect [f] of the store as it was,
    whatever it returns. *)
Definition keeps {B A} (f : Store -> B) (m : M A) : Prop :=
  forall s, f (m s).2 = f s.

(** Did the run return a response? *)
Definition returned (r : outcome Response * Store) : bool :=
  match r.1 with
  | Ok _ => true
  | _ => false
  end.

(** * Properties *)

(** ** Numbers *)

Lemma returned_eq (r : outcome Response * Store) :
  returned r = true -> r = (Ok (response_of r), r.2).
Proof.
  destruct r as [[resp| |] s]; unfold returned, response_of; simpl;
    (reflexivity || discriminate).
Qed.

(** Comparing the other way round gives the opposite answer. *)
Lemma compare_antisym (a b : Num.number) :
  SFcompare b a = CompOpp <$> SFcompare a b.
Proof.
  destruct a as [sa|sa| |sa ma ea], b as [sb|sb| |sb mb eb]; simpl;
    try reflexivity; try (by destruct sa); try (by destruct sb);
    try (by destruct sa, sb).
  rewrite (Z.compare_antisym ea eb).
  pose proof (Pos.compare_cont_antisym ma mb Eq) as Hm. simpl in Hm.
  change (PosDef.Pos.compare_cont Eq mb ma) with (Pos.compare_cont Eq mb ma).
  change (PosDef.Pos.compare_cont Eq ma mb) with (Pos.compare_cont Eq ma mb).
  rewrite <- Hm.
  destruct sa, sb; simpl; try reflexivity;
    destruct (ea ?= eb); simpl; reflexivity.
Qed.

Lemma ltb_irrefl (a : Num.number) : Num.ltb a a = false.
Proof.
  unfold Num.ltb, SFltb. pose proof (compare_antisym a a) as H.
  destruct (SFcompare a a) as [[]|]; simpl in H; congruence.
Qed.

Lemma leb_not_ltb (a b : Num.number) :
  Num.leb a b = true -> Num.ltb b a = false.
Proof.
  unfold Num.leb, Num.ltb, SFleb, SFltb. rewrite (compare_antisym a b).
  by destruct (SFcompare a b) as [[]|].
Qed.

(** A number that is at least zero is positive or a zero. *)
Lemma nonneg_positive (a : Num.number) :
  Num.leb Num.zero a = true -> Num.ltb Num.zero a = negb (Num.isZero a).
Proof. by destruct a as [s|[]| |[] m e]. Qed.

Lemma nonneg_not_positive (a : Num.number) :
  Num.leb Num.zero a = true -> Num.ltb Num.zero a = false ->
  Num.leb a Num.zero = true.
Proof. by destruct a as [s|[]| |[] m e]. Qed.

(** Whatever exceeds a number that is at least zero is truthy. *)
Lemma above_nonneg_truthy (a b : Num.number) :
  Num.leb Num.zero b = true -> Num.ltb b a = true -> Num.falsy a = false.
Proof. by destruct a as [sa|sa| |sa ma ea], b as [sb|[]| |[] mb eb]. Qed.

Lemma above_nonneg_nonneg (a b : Num.number) :
  Num.leb Num.zero b = true -> Num.ltb b a = true -> Num.leb Num.zero a = true.
Proof.
  destruct a as [sa|[]| |[] ma ea], b as [sb|[]| |[] mb eb]; try done.
Qed.

(** The subtraction is the one of the engine: on whole amounts it gives
    the whole difference, on amounts with cents the nearest double to
    the difference of the two doubles. *)
Example whole_amounts_subtract_exactly :
  Num.sub (Num.of_Z 3500) (Num.of_Z 2000) = Num.of_Z 1500.
Proof. vm_compute. reflexivity. Qed.

Example amounts_with_cents_subtract_as_doubles :
  Num.toString (Num.sub (Num.decimal 150030 2) (Num.decimal 100010 2))
  = "500.19999999999993"
  /\ Num.toString (Num.sub (Num.decimal 3 1) (Num.decimal 1 1))
     = "0.19999999999999998"
  /\ Num.sub (Num.decimal 150030 2) (Num.decimal 100010 2)
     <> Num.decimal 50020 2.
Proof. vm_compute. repeat split; (reflexivity || discriminate). Qed.

(** Number-to-string conversion on some well-known values. *)
Example toString_samples :
  Num.toString <$>
    [Num.of_Z 2000; Num.of_Z (-15); Num.decimal 5 1; Num.decimal 150030 2;
     Num.of_Z (10 ^ 21); Num.decimal 1 7; Num.decimal 1 6;
     Num.of_Z (2 ^ 53 + 1); Num.div (Num.of_Z 1) (Num.of_Z 3)]
  = ["2000"; "-15"; "0.5"; "1500.3"; "1e+21"; "1e-7"; "0.000001";
     "9007199254740992"; "0.3333333333333333"].
Proof. vm_compute. reflexivity. Qed.

(** ** The rate limiter *)

Section RateLimitFacts.

Import RateLimit.

Variables (ip : string) (limit windowMs : Z).

Lemma rateLimit_first now (m : rateLimitMap) :
  m !! ip = None ->
  rateLimit now ip limit windowMs m
  = (true, <[ip := {| count := 1; resetTime := now + windowMs |}]> m).
Proof. intros H. unfold rateLimit. by rewrite H. Qed.

Lemma rateLimit_expired now (m : rateLimitMap) r :
  m !! ip = Some r -> now > resetTime r ->
  rateLimit now ip limit windowMs m
  = (true, <[ip := {| count := 1; resetTime := now + windowMs |}]> m).
Proof.
  intros H Hlate. unfold rateLimit. rewrite H.
  by rewrite bool_decide_eq_true_2.
Qed.

Lemma rateLimit_below now (m : rateLimitMap) r :
  m !! ip = Some r -> now <= resetTime r -> count r < limit ->
  rateLimit now ip limit windowMs m
  = (true, <[ip := {| count := count r + 1; resetTime := resetTime r |}]> m).
Proof.
  intros H Hin Hlt. unfold rateLimit. rewrite H.
  rewrite bool_decide_eq_false_2 by lia.
  by rewrite bool_decide_eq_false_2 by lia.
Qed.

Lemma rateLimit_reached now (m : rateLimitMap) r :
  m !! ip = Some r -> now <= resetTime r -> limit <= count r ->
  rateLimit now ip limit windowMs m = (false, m).
Proof.
  intros H Hin Hge. unfold rateLimit. rewrite H.
  rewrite bool_decide_eq_false_2 by lia.
  by rewrite bool_decide_eq_true_2 by lia.
Qed.

(** Inside a window whose counter stands at [c], request number [i]
    (from 0) passes iff [c + i < limit]; the counter climbs to the limit
    and stays there. *)
Lemma burst_in_window (ts : list Z) :
  forall (m : rateLimitMap) (c R : Z),
    m !! ip = Some {| count := c; resetTime := R |} ->
    (forall t, t ∈ ts -> t <= R) ->
    (forall i : nat, (i < length ts)%nat ->
       (burst ip limit windowMs ts m).1 !! i
       = Some (bool_decide (c + Z.of_nat i < limit)))
    /\ (burst ip limit windowMs ts m).2 !! ip
       = Some {| count := Z.max c (Z.min (c + Z.of_nat (length ts)) limit);
                 resetTime := R |}.
Proof.
  induction ts as [|t ts IH]; intros m c R Hm Hts.
  - split; [intros i Hi; simpl in Hi; lia|].
    simpl. rewrite Hm. do 2 f_equal. lia.
  - assert (Ht : t <= R) by (apply Hts; left).
    assert (Hrest : forall t', t' ∈ ts -> t' <= R) by (intros; apply Hts; by right).
    cbn [burst].
    destruct (decide (c < limit)) as [Hlt|Hge].
    + rewrite (rateLimit_below t m _ Hm) by (simpl; lia). simpl count; simpl resetTime.
      specialize (IH (<[ip := {| count := c + 1; resetTime := R |}]> m) (c + 1) R
                     (lookup_insert_eq _ _ _) Hrest) as [IH1 IH2].
      destruct (burst ip limit windowMs ts _) as [bs m2]. simpl in *.
      split.
      * intros [|i] Hi; simpl.
        -- f_equal. symmetry. apply bool_decide_eq_true_2. lia.
        -- rewrite IH1 by lia. do 2 f_equal. apply bool_decide_ext. lia.
      * rewrite IH2. do 2 f_equal. lia.
    + rewrite (rateLimit_reached t m _ Hm) by (simpl; lia).
      specialize (IH m c R Hm Hrest) as [IH1 IH2].
      destruct (burst ip limit windowMs ts m) as [bs m2]. simpl in *.
      split.
      * intros [|i] Hi; simpl.
        -- f_equal. symmetry. apply bool_decide_eq_false_2. lia.
        -- rewrite IH1 by lia. do 2 f_equal. apply bool_decide_ext. lia.
      * rewrite IH2. do 2 f_equal. lia.
Qed.

(** The request that opens a window, then the rest of the burst. *)
Lemma burst_from_start (t0 : Z) (ts : list Z) (m : rateLimitMap) :
  (m !! ip = None \/ exists r, m !! ip = Some r /\ t0 > resetTime r) ->
  (forall t, t ∈ ts -> t <= t0 + windowMs) ->
  (forall i : nat, (i < length (t0 :: ts))%nat ->
     (burst ip limit windowMs (t0 :: ts) m).1 !! i
     = Some (bool_decide (i = 0%nat \/ Z.of_nat i < limit)))
  /\ (burst ip limit windowMs (t0 :: ts) m).2 !! ip
     = Some {| count := Z.max 1 (Z.min (Z.of_nat (length (t0 :: ts))) limit);
               resetTime := t0 + windowMs |}.
Proof.
  intros Hstart Hts. cbn [burst].
  assert (Hfirst : rateLimit t0 ip limit windowMs m
    = (true, <[ip := {| count := 1; resetTime := t0 + windowMs |}]> m)).
  { destruct Hstart as [Hnone|(r & Hr & Hlate)];
      [by apply rateLimit_first | by eapply rateLimit_expired]. }
  rewrite Hfirst.
  destruct (burst_in_window ts _ 1 (t0 + windowMs)
              (lookup_insert_eq m ip _) Hts) as [H1 H2].
  destruct (burst ip limit windowMs ts _) as [bs m2]. simpl in *.
  split.
  - intros [|i] Hi; simpl.
    + done.
    + rewrite H1 by lia. do 2 f_equal. apply bool_decide_ext. lia.
  - rewrite H2. do 2 f_equal. lia.
Qed.

End RateLimitFacts.

(** C7. A client's first request of a window is let through and stores
    count 1 with reset time [now + windowMs]; inside the window a request
    is let through, and counted, while the stored count is below the
    limit, and turned away once the count has reached it, so that with a
    positive limit the first N requests pass and request N+1 is turned
    away exactly when N is the limit; a request after the reset time is
    let through and puts the counter back to 1. *)
Theorem rateLimit_fixed_window
  (ip : string) (limit windowMs : Z) (m : gmap string RateLimit.record)
  (t0 : Z) (ts : list Z) (t_after : Z) :
  (m !! ip = None \/ exists r, m !! ip = Some r /\ t0 > RateLimit.resetTime r) ->
  Forall (fun t => t <= t0 + windowMs) ts ->
  t_after > t0 + windowMs ->
  let seen := RateLimit.burst ip limit windowMs (t0 :: ts) m in
  RateLimit.rateLimit t0 ip limit windowMs m
  = (true, <[ip := {| RateLimit.count := 1;
                      RateLimit.resetTime := t0 + windowMs |}]> m)
  /\ (forall now (m0 : gmap string RateLimit.record) r,
        m0 !! ip = Some r -> now <= RateLimit.resetTime r ->
        RateLimit.rateLimit now ip limit windowMs m0
        = if bool_decide (RateLimit.count r < limit)
          then (true, <[ip := {| RateLimit.count := RateLimit.count r + 1;
                                 RateLimit.resetTime := RateLimit.resetTime r |}]> m0)
          else (false, m0))
  /\ (forall i : nat, (i < length (t0 :: ts))%nat ->
        seen.1 !! i = Some (bool_decide (i = 0%nat \/ Z.of_nat i < limit)))
  /\ (1 <= limit -> forall N : nat, (N < length (t0 :: ts))%nat ->
        ((forall i : nat, (i < N)%nat -> seen.1 !! i = Some true)
         /\ seen.1 !! N = Some false)
        <-> Z.of_nat N = limit)
  /\ RateLimit.rateLimit t_after ip limit windowMs seen.2
     = (true, <[ip := {| RateLimit.count := 1;
                         RateLimit.resetTime := t_after + windowMs |}]> seen.2).
Proof.
  intros Hstart Hts Hafter seen.
  assert (Hts' : forall t, t ∈ ts -> t <= t0 + windowMs)
    by (by apply Forall_forall).
  destruct (burst_from_start ip limit windowMs t0 ts m Hstart Hts') as [Hres Hfin].
  fold seen in Hres, Hfin.
  split; [|split; [|split; [|split]]].
  - destruct Hstart as [Hnone|(r & Hr & Hlate)];
      [by apply rateLimit_first | by eapply rateLimit_expired].
  - intros now0 m0 r Hr Hin. case_bool_decide.
    + by apply rateLimit_below.
    + apply (rateLimit_reached _ _ _ _ _ r); [done|done|lia].
  - exact Hres.
  - intros Hpos N HN. split.
    + intros [Hall Hden]. rewrite Hres in Hden by done.
      injection Hden as Hden. apply bool_decide_eq_false in Hden.
      destruct N as [|N]; [exfalso; apply Hden; by left|].
      specialize (Hall N (Nat.lt_succ_diag_r N)).
      rewrite Hres in Hall by lia. injection Hall as Hall.
      apply bool_decide_eq_true in Hall. lia.
    + intros HNl. split.
      * intros i Hi. rewrite Hres by lia. f_equal.
        apply bool_decide_eq_true_2. right. lia.
      * rewrite Hres by done. f_equal. apply bool_decide_eq_false_2. lia.
  - eapply rateLimit_expired; [exact Hfin|]. simpl. lia.
Qed.

Lemma rateLimit_fixed_window_witness :
  let seen := RateLimit.burst "10.0.0.1" 2 1000 [0; 10; 20] ∅ in
  RateLimit.rateLimit 0 "10.0.0.1" 2 1000 ∅
  = (true, <["10.0.0.1" := {| RateLimit.count := 1;
                               RateLimit.resetTime := 0 + 1000 |}]> ∅)
  /\ (forall now (m0 : gmap string RateLimit.record) r,
        m0 !! "10.0.0.1" = Some r -> now <= RateLimit.resetTime r ->
        RateLimit.rateLimit now "10.0.0.1" 2 1000 m0
        = if bool_decide (RateLimit.count r < 2)
          then (true, <["10.0.0.1" := {| RateLimit.count := RateLimit.count r + 1;
                                 RateLimit.resetTime := RateLimit.resetTime r |}]> m0)
          else (false, m0))
  /\ (forall i : nat, (i < length [0; 10; 20])%nat ->
        seen.1 !! i = Some (bool_decide (i = 0%nat \/ Z.of_nat i < 2)))
  /\ (1 <= 2 -> forall N : nat, (N < length [0; 10; 20])%nat ->
        ((forall i : nat, (i < N)%nat -> seen.1 !! i = Some true)
         /\ seen.1 !! N = Some false)
        <-> Z.of_nat N = 2)
  /\ RateLimit.rateLimit 2000 "10.0.0.1" 2 1000 seen.2
     = (true, <["10.0.0.1" := {| RateLimit.count := 1;
                         RateLimit.resetTime := 2000 + 1000 |}]> seen.2).
Proof.
  apply (rateLimit_fixed_window "10.0.0.1" 2 1000 ∅ 0 [10; 20] 2000).
  - left. reflexivity.
  - repeat constructor; lia.
  - lia.
Defined.

(** The same burst, seen: two requests pass, the third is turned away. *)
Example rateLimit_burst_of_three :
  (RateLimit.burst "10.0.0.1" 2 1000 [0; 10; 20; 2000] ∅).1
  = [true; true; false; true].
Proof. vm_compute. reflexivity. Qed.

(** With a limit of 0 the opening request still passes: the limit is
    only consulted once a window is open. *)
Example rateLimit_zero_limit :
  (RateLimit.burst "10.0.0.1" 0 1000 [0; 10] ∅).1 = [true; false].
Proof. vm_compute. reflexivity. Qed.

(** ** The permission checker *)

Lemma find_user_absent (userId : string) (l : list User) :
  Forall (fun u => user_id u <> userId) l ->
  find (fun u => String.eqb (user_id u) userId) l = None.
Proof.
  induction 1 as [|u l Hu _ IH]; [done|]. simpl.
  destruct (String.eqb_spec (user_id u) userId); [done|exact IH].
Qed.

(** C10. When no user carries the given id, [hasPermission] answers
    false for every module and action, and [requirePermission] throws
    exactly the 'Insufficient permissions' error, leaving the store as it
    was. *)
Theorem hasPermission_unknown_user (userId module action : string) (s : Store) :
  Forall (fun u => user_id u <> userId) (users s) ->
  hasPermission userId module action s = (Ok false, s)
  /\ requirePermission userId module action s
     = (Throw (JsError "Insufficient permissions"), s).
Proof.
  intros Habsent.
  assert (H : hasPermission userId module action s = (Ok false, s)).
  { unfold hasPermission, bind, Prisma.user_findUnique, gets.
    by rewrite (find_user_absent _ _ Habsent). }
  split; [exact H|].
  unfold requirePermission, bind. by rewrite H.
Qed.

(** ** Audit failures do not reach the caller *)

Lemma forget_audit_fields s1 s2 :
  forget_audit s1 = forget_audit s2 ->
  users s1 = users s2 /\ leads s1 = leads s2 /\ orders s1 = orders s2
  /\ payments s1 = payments s2 /\ notifications s1 = notifications s2
  /\ rateLimitMap s1 = rateLimitMap s2.
Proof.
  intros H. unfold forget_audit, set_auditLogs in H.
  by injection H as -> -> -> -> -> ->.
Qed.

Lemma forget_audit_intro s1 s2 :
  users s1 = users s2 -> leads s1 = leads s2 -> orders s1 = orders s2 ->
  payments s1 = payments s2 -> notifications s1 = notifications s2 ->
  rateLimitMap s1 = rateLimitMap s2 ->
  forget_audit s1 = forget_audit s2.
Proof.
  intros. unfold forget_audit, set_auditLogs. by f_equal.
Qed.

Ltac store_fields H :=
  apply forget_audit_fields in H;
  destruct H as (?Hu & ?Hl & ?Ho & ?Hp & ?Hn & ?Hr).

Lemma blind_ret {A} (a : A) : audit_blind (ret a) (ret a).
Proof. intros s1 s2 H. by split. Qed.

Lemma blind_throw {A} (err : Error) : audit_blind (@throw A err) (throw err).
Proof. intros s1 s2 H. by split. Qed.

Lemma blind_bind {A B} (m1 m2 : M A) (k1 k2 : A -> M B) :
  audit_blind m1 m2 -> (forall a, audit_blind (k1 a) (k2 a)) ->
  audit_blind (bind m1 k1) (bind m2 k2).
Proof.
  intros Hm Hk s1 s2 H. unfold bind.
  destruct (Hm s1 s2 H) as [Hout Hst].
  destruct (m1 s1) as [o1 t1], (m2 s2) as [o2 t2]. simpl in *. subst o2.
  destruct o1; [by apply Hk | by split | by split].
Qed.

Lemma blind_try_catch {A} (m1 m2 : M A) (h1 h2 : Error -> M A) :
  audit_blind m1 m2 -> (forall err, audit_blind (h1 err) (h2 err)) ->
  audit_blind (try_catch m1 h1) (try_catch m2 h2).
Proof.
  intros Hm Hh s1 s2 H. unfold try_catch.
  destruct (Hm s1 s2 H) as [Hout Hst].
  destruct (m1 s1) as [o1 t1], (m2 s2) as [o2 t2]. simpl in *. subst o2.
  destruct o1; [by split | by apply Hh | by split].
Qed.

Lemma blind_gets {A} (f : Store -> A) :
  (forall s1 s2, forget_audit s1 = forget_audit s2 -> f s1 = f s2) ->
  audit_blind (gets f) (gets f).
Proof. intros Hf s1 s2 H. unfold gets. simpl. split; [f_equal; by apply Hf|done]. Qed.

Lemma blind_modify (f : Store -> Store) :
  (forall s1 s2, forget_audit s1 = forget_audit s2 ->
     forget_audit (f s1) = forget_audit (f s2)) ->
  audit_blind (modify f) (modify f).
Proof. intros Hf s1 s2 H. unfold modify. simpl. split; [done|by apply Hf]. Qed.

Lemma blind_for_each {A} (xs : list A) (f1 f2 : A -> M unit) :
  (forall x, audit_blind (f1 x) (f2 x)) ->
  audit_blind (for_each xs f1) (for_each xs f2).
Proof.
  intros Hf. induction xs as [|x xs IH]; simpl.
  - apply blind_ret.
  - apply blind_bind; [apply Hf | intros _; exact IH].
Qed.

Lemma blind_guarded {A} e1 e2 c (m1 m2 : M A) :
  rejects e1 c = rejects e2 c -> audit_blind m1 m2 ->
  audit_blind (Prisma.guarded e1 c m1) (Prisma.guarded e2 c m2).
Proof.
  intros Hc Hm. unfold Prisma.guarded. rewrite Hc.
  destruct (rejects e2 c); [apply blind_throw | exact Hm].
Qed.

Ltac blind_store :=
  let s1 := fresh "s" in let s2 := fresh "s" in let H := fresh "H" in
  intros s1 s2 H; store_fields H;
  try (apply forget_audit_intro); simpl; congruence.

Lemma blind_user_findUnique id :
  audit_blind (Prisma.user_findUnique id) (Prisma.user_findUnique id).
Proof. apply blind_gets. blind_store. Qed.

Lemma blind_user_findMany_admins :
  audit_blind Prisma.user_findMany_admins Prisma.user_findMany_admins.
Proof. apply blind_gets. blind_store. Qed.

Lemma blind_lead_findUnique id :
  audit_blind (Prisma.lead_findUnique id) (Prisma.lead_findUnique id).
Proof. apply blind_gets. blind_store. Qed.

Lemma blind_order_findUnique id :
  audit_blind (Prisma.order_findUnique id) (Prisma.order_findUnique id).
Proof. apply blind_gets. blind_store. Qed.

Lemma blind_order_findUnique_orderNumber n :
  audit_blind (Prisma.order_findUnique_orderNumber n)
              (Prisma.order_findUnique_orderNumber n).
Proof. apply blind_gets. blind_store. Qed.

Lemma blind_lead_update e1 e2 id data :
  rejects e1 (LeadUpdate id data) = rejects e2 (LeadUpdate id data) ->
  audit_blind (Prisma.lead_update e1 id data) (Prisma.lead_update e2 id data).
Proof.
  intros Hc. apply blind_guarded; [done|].
  apply blind_bind; [apply blind_lead_findUnique|]. intros [r|]; [|apply blind_throw].
  apply blind_bind; [|intros _; apply blind_ret].
  apply blind_modify. blind_store.
Qed.

Lemma blind_lead_updateMany e1 e2 ids data :
  rejects e1 (LeadUpdateMany ids data) = rejects e2 (LeadUpdateMany ids data) ->
  audit_blind (Prisma.lead_updateMany e1 ids data) (Prisma.lead_updateMany e2 ids data).
Proof.
  intros Hc. apply blind_guarded; [done|].
  apply blind_bind; [apply blind_gets; blind_store|]. intros n.
  apply blind_bind; [|intros _; apply blind_ret].
  apply blind_modify. blind_store.
Qed.

Lemma blind_order_create e1 e2 data :
  rejects e1 (OrderCreate data) = rejects e2 (OrderCreate data) ->
  newId e1 (OrderCreate data) = newId e2 (OrderCreate data) ->
  audit_blind (Prisma.order_create e1 data) (Prisma.order_create e2 data).
Proof.
  intros Hc Hid. unfold Prisma.order_create. rewrite Hid.
  apply blind_guarded; [done|].
  apply blind_bind; [|intros _; apply blind_ret].
  apply blind_modify. blind_store.
Qed.

Lemma blind_order_update e1 e2 id data :
  rejects e1 (OrderUpdate id data) = rejects e2 (OrderUpdate id data) ->
  audit_blind (Prisma.order_update e1 id data) (Prisma.order_update e2 id data).
Proof.
  intros Hc. apply blind_guarded; [done|].
  apply blind_bind; [apply blind_order_findUnique|]. intros [r|]; [|apply blind_throw].
  apply blind_bind; [|intros _; apply blind_ret].
  apply blind_modify. blind_store.
Qed.

Lemma blind_payment_create e1 e2 data :
  rejects e1 (PaymentCreate data) = rejects e2 (PaymentCreate data) ->
  newId e1 (PaymentCreate data) = newId e2 (PaymentCreate data) ->
  audit_blind (Prisma.payment_create e1 data) (Prisma.payment_create e2 data).
Proof.
  intros Hc Hid. unfold Prisma.payment_create. rewrite Hid.
  apply blind_guarded; [done|].
  apply blind_bind; [|intros _; apply blind_ret].
  apply blind_modify. blind_store.
Qed.

Lemma blind_createNotification e1 e2 n :
  rejects e1 (NotificationCreate n) = rejects e2 (NotificationCreate n) ->
  audit_blind (createNotification e1 n) (createNotification e2 n).
Proof.
  intros Hc. apply blind_try_catch; [|intros _; apply blind_ret].
  apply blind_bind; [|intros ?; apply blind_ret].
  apply blind_guarded; [done|].
  apply blind_bind; [|intros _; apply blind_ret].
  apply blind_modify. blind_store.
Qed.

(** The audit recorder returns normally whatever the audit store does,
    and touches nothing but the audit log. *)
Lemma createAuditLog_returns e userId action entityType entityId changes
  description ipAddress userAgent s :
  let entry :=
    {| al_userId := userId; al_action := action; al_entityType := entityType;
       al_entityId := entityId; al_changes := changes;
       al_description := description; al_ipAddress := ipAddress;
       al_userAgent := userAgent |} in
  createAuditLog e userId action entityType entityId changes description
    ipAddress userAgent s
  = (Ok tt, if rejects e (AuditLogCreate entry) then s
            else set_auditLogs (fun l => l ++ [entry]) s).
Proof.
  intros entry. unfold createAuditLog, try_catch, Prisma.auditLog_create,
    Prisma.guarded. fold entry.
  by destruct (rejects e (AuditLogCreate entry)).
Qed.

Lemma blind_createAuditLog e1 e2 userId action entityType entityId changes
  description ipAddress userAgent :
  audit_blind
    (createAuditLog e1 userId action entityType entityId changes description
       ipAddress userAgent)
    (createAuditLog e2 userId action entityType entityId changes description
       ipAddress userAgent).
Proof.
  intros s1 s2 H. rewrite !createAuditLog_returns. simpl. split; [done|].
  store_fields H.
  destruct (rejects e1 _), (rejects e2 _); apply forget_audit_intro; simpl; congruence.
Qed.

Lemma blind_rateLimit e1 e2 ip :
  now e1 = now e2 -> audit_blind (rateLimit e1 ip) (rateLimit e2 ip).
Proof.
  intros Hnow s1 s2 H. unfold rateLimit. rewrite Hnow.
  store_fields H. rewrite Hr.
  destruct (RateLimit.rateLimit _ _ _ _ _) as [b m]. simpl.
  split; [done|]. apply forget_audit_intro; simpl; congruence.
Qed.

Lemma blind_json p st : audit_blind (json p st) (json p st).
Proof. apply blind_ret. Qed.

Lemma blind_req_json req : audit_blind (req_json req) (req_json req).
Proof. unfold req_json. destruct (body req); (apply blind_throw || apply blind_ret). Qed.

Lemma blind_parse schema b : audit_blind (Zod.parse schema b) (Zod.parse schema b).
Proof. unfold Zod.parse. destruct (Zod.safeParse schema b); (apply blind_throw || apply blind_ret). Qed.

Lemma blind_fresh_orderNumber ds :
  audit_blind (OrdersRoute.fresh_orderNumber ds) (OrdersRoute.fresh_orderNumber ds).
Proof.
  induction ds as [|[t r] ds IH]; simpl.
  - intros s1 s2 H. by split.
  - apply blind_bind; [apply blind_order_findUnique_orderNumber|].
    intros [o|]; [exact IH | apply blind_ret].
Qed.

Lemma blind_requirePermission u m a :
  audit_blind (requirePermission u m a) (requirePermission u m a).
Proof.
  unfold requirePermission, hasPermission.
  apply blind_bind.
  - apply blind_bind; [apply blind_user_findUnique|].
    intros [usr|]; [|apply blind_ret].
    destruct (bool_decide _); apply blind_ret.
  - intros b. destruct (negb b); (apply blind_throw || apply blind_ret).
Qed.


(** One step of a handler body, on both runs at once. *)
Ltac blind_step :=
  first
    [ apply blind_json
    | apply blind_ret
    | apply blind_throw
    | apply blind_req_json
    | apply blind_parse
    | apply blind_requirePermission
    | apply blind_createAuditLog
    | apply blind_fresh_orderNumber
    | apply blind_user_findUnique
    | apply blind_user_findMany_admins
    | apply blind_lead_findUnique
    | apply blind_order_findUnique
    | apply blind_rateLimit; reflexivity
    | apply blind_createNotification; reflexivity
    | apply blind_order_create; reflexivity
    | apply blind_order_update; reflexivity
    | apply blind_payment_create; reflexivity
    | apply blind_lead_update; reflexivity
    | apply blind_lead_updateMany; reflexivity
    | apply blind_for_each; intros ?
    | apply blind_try_catch; [|intros ?]
    | apply blind_bind; [|intros ?]
    | match goal with
      | |- audit_blind (match ?x with _ => _ end) _ => destruct x
      end ].

Ltac blind := repeat blind_step.

Lemma blind_orders_POST e req :
  audit_blind (OrdersRoute.POST (audit_down e) req) (OrdersRoute.POST e req).
Proof.
  unfold OrdersRoute.POST, OrdersRoute.POST_body, OrdersRoute.create_notifications.
  blind.
Qed.

Lemma blind_order_PATCH e req id :
  audit_blind (OrderIdRoute.PATCH (audit_down e) req id) (OrderIdRoute.PATCH e req id).
Proof.
  unfold OrderIdRoute.PATCH, OrderIdRoute.PATCH_body,
    OrderIdRoute.create_notifications, OrderIdRoute.when, OrderIdRoute.notify.
  blind.
Qed.

Lemma blind_lead_PATCH e req id :
  audit_blind (LeadIdRoute.PATCH (audit_down e) req id) (LeadIdRoute.PATCH e req id).
Proof.
  unfold LeadIdRoute.PATCH, LeadIdRoute.PATCH_body,
    LeadIdRoute.create_notifications, LeadIdRoute.when, LeadIdRoute.notify.
  change (LeadIdRoute.build_updateData (audit_down e))
    with (LeadIdRoute.build_updateData e).
  change (LeadIdRoute.leadSchema (audit_down e)) with (LeadIdRoute.leadSchema e).
  blind.
Qed.

Lemma blind_bulk_POST e req :
  audit_blind (BulkAssignRoute.POST (audit_down e) req) (BulkAssignRoute.POST e req).
Proof. unfold BulkAssignRoute.POST, BulkAssignRoute.POST_body. blind. Qed.

(** ** Stepping through a handler *)

Lemma bind_Ok {A B} (m : M A) (k : A -> M B) s b s' :
  bind m k s = (Ok b, s') ->
  exists a s1, m s = (Ok a, s1) /\ k a s1 = (Ok b, s').
Proof.
  unfold bind. destruct (m s) as [[a|err|] s1]; [eauto | discriminate | discriminate].
Qed.

Lemma forget_logs_fields s1 s2 :
  forget_logs s1 = forget_logs s2 ->
  users s1 = users s2 /\ leads s1 = leads s2 /\ orders s1 = orders s2
  /\ payments s1 = payments s2 /\ rateLimitMap s1 = rateLimitMap s2.
Proof.
  intros H. unfold forget_logs, set_notifications, set_auditLogs in H. simpl in H.
  by injection H as -> -> -> -> ->.
Qed.

Lemma quiet_ret {A} (a : A) : quiet (ret a).
Proof. intros s. by exists a, s. Qed.

Lemma quiet_bind {A B} (m : M A) (k : A -> M B) :
  quiet m -> (forall a, quiet (k a)) -> quiet (bind m k).
Proof.
  intros Hm Hk s. destruct (Hm s) as (a & s1 & E1 & F1).
  destruct (Hk a s1) as (b & s2 & E2 & F2).
  exists b, s2. unfold bind. rewrite E1. split; [done|congruence].
Qed.

Lemma quiet_for_each {A} (xs : list A) (f : A -> M unit) :
  (forall x, quiet (f x)) -> quiet (for_each xs f).
Proof.
  intros Hf. induction xs as [|x xs IH]; simpl.
  - apply quiet_ret.
  - apply quiet_bind; [apply Hf | intros _; exact IH].
Qed.

Lemma quiet_createAuditLog e userId action entityType entityId changes
  description ipAddress userAgent :
  quiet (createAuditLog e userId action entityType entityId changes
           description ipAddress userAgent).
Proof.
  intros s. eexists tt, _. rewrite createAuditLog_returns. split; [done|].
  by destruct (rejects e _).
Qed.

Lemma quiet_createNotification e n : quiet (createNotification e n).
Proof.
  intros s. unfold createNotification, try_catch, bind, Prisma.notification_create,
    Prisma.guarded, modify, ret, throw.
  destruct (rejects e _); simpl; eauto.
Qed.

Lemma quiet_user_findMany_admins : quiet Prisma.user_findMany_admins.
Proof. intros s. unfold Prisma.user_findMany_admins, gets. eauto. Qed.

Ltac quiet_step :=
  first
    [ apply quiet_ret
    | apply quiet_createAuditLog
    | apply quiet_createNotification
    | apply quiet_user_findMany_admins
    | apply quiet_for_each; intros ?
    | apply quiet_bind; [|intros ?]
    | match goal with
      | |- quiet (if ?b then _ else _) => destruct b
      end ].

Ltac be_quiet := repeat quiet_step.

Lemma quiet_order_created e u assignedTo orderNumber lead order :
  quiet (OrdersRoute.create_notifications e u assignedTo orderNumber lead order).
Proof. unfold OrdersRoute.create_notifications. be_quiet. Qed.

Lemma quiet_order_updated e u data existingOrder order :
  quiet (OrderIdRoute.create_notifications e u data existingOrder order).
Proof.
  unfold OrderIdRoute.create_notifications, OrderIdRoute.when, OrderIdRoute.notify.
  be_quiet.
Qed.

Lemma quiet_lead_updated e u currentUser updateData existingLead lead :
  quiet (LeadIdRoute.create_notifications e u currentUser updateData existingLead lead).
Proof.
  unfold LeadIdRoute.create_notifications, LeadIdRoute.when, LeadIdRoute.notify.
  be_quiet.
Qed.

(** What a quiet step leaves behind. *)
Lemma quiet_Ok {A} (m : M A) s (o : outcome A) s1 :
  quiet m -> m s = (o, s1) ->
  (exists a, o = Ok a) /\ users s1 = users s /\ leads s1 = leads s
  /\ orders s1 = orders s /\ payments s1 = payments s
  /\ rateLimitMap s1 = rateLimitMap s.
Proof.
  intros Hq E. destruct (Hq s) as (a & s' & E' & F).
  rewrite E in E'. injection E' as -> ->.
  split; [eauto|]. by apply forget_logs_fields.
Qed.

(** The primitive steps. *)
Lemma rateLimit_Ok e ip s (o : outcome bool) s1 :
  rateLimit e ip s = (o, s1) ->
  o = Ok (RateLimit.rateLimit (now e) ip RateLimit.default_limit
            RateLimit.default_windowMs (rateLimitMap s)).1
  /\ users s1 = users s /\ leads s1 = leads s /\ orders s1 = orders s
  /\ payments s1 = payments s.
Proof.
  unfold rateLimit. destruct (RateLimit.rateLimit _ _ _ _ _) as [b m].
  by injection 1 as <- <-.
Qed.

Lemma gets_Ok {A} (f : Store -> A) s (o : outcome A) s1 :
  gets f s = (o, s1) -> o = Ok (f s) /\ s1 = s.
Proof. unfold gets. by injection 1 as <- <-. Qed.

Lemma req_json_Ok req s b s1 :
  req_json req s = (Ok b, s1) -> b = body req /\ s1 = s.
Proof.
  unfold req_json. destruct (body req); [discriminate| |]; by injection 1 as <- <-.
Qed.

Lemma parse_Ok schema b s d s1 :
  Zod.parse schema b s = (Ok d, s1) -> Zod.safeParse schema b = Some d /\ s1 = s.
Proof.
  unfold Zod.parse. destruct (Zod.safeParse schema b); [|discriminate].
  by injection 1 as <- <-.
Qed.

Lemma order_create_Ok e data s row s1 :
  Prisma.order_create e data s = (Ok row, s1) ->
  rejects e (OrderCreate data) = false
  /\ row = <["id" := JStr (newId e (OrderCreate data))]> data
  /\ s1 = set_orders (fun l => l ++ [row]) s.
Proof.
  unfold Prisma.order_create, Prisma.guarded.
  destruct (rejects e _); [discriminate|].
  unfold bind, modify, ret. by injection 1 as <- <-.
Qed.

Lemma payment_create_Ok e data s row s1 :
  Prisma.payment_create e data s = (Ok row, s1) ->
  rejects e (PaymentCreate data) = false
  /\ row = <["id" := JStr (newId e (PaymentCreate data))]> data
  /\ s1 = set_payments (fun l => l ++ [row]) s.
Proof.
  unfold Prisma.payment_create, Prisma.guarded.
  destruct (rejects e _); [discriminate|].
  unfold bind, modify, ret. by injection 1 as <- <-.
Qed.

Lemma lead_update_Ok e id data s row s1 :
  Prisma.lead_update e id data s = (Ok row, s1) ->
  exists r, find (Prisma.has_id id) (leads s) = Some r
    /\ row = data ∪ r
    /\ s1 = set_leads (map (Prisma.update_row id data)) s.
Proof.
  unfold Prisma.lead_update, Prisma.guarded.
  destruct (rejects e _); [discriminate|].
  unfold bind, Prisma.lead_findUnique, gets, modify, ret, throw.
  destruct (find _ _) as [r|]; [|discriminate].
  injection 1 as <- <-. by exists r.
Qed.

Lemma order_update_Ok e id data s row s1 :
  Prisma.order_update e id data s = (Ok row, s1) ->
  exists r, find (Prisma.has_id id) (orders s) = Some r
    /\ row = data ∪ r
    /\ s1 = set_orders (map (Prisma.update_row id data)) s.
Proof.
  unfold Prisma.order_update, Prisma.guarded.
  destruct (rejects e _); [discriminate|].
  unfold bind, Prisma.order_findUnique, gets, modify, ret, throw.
  destruct (find _ _) as [r|]; [|discriminate].
  injection 1 as <- <-. by exists r.
Qed.

(** The order-number loop reads only: its answer, when it gives one, is
    a drawn candidate that no stored order carries. *)
Lemma fresh_orderNumber_spec ds s (o : outcome string) s1 :
  OrdersRoute.fresh_orderNumber ds s = (o, s1) ->
  s1 = s
  /\ (forall err, o <> Throw err)
  /\ (forall n, o = Ok n ->
        Forall (fun r : Row => r !! "orderNumber" <> Some (JStr n)) (orders s)
        /\ exists t r, (t, r) ∈ ds /\ n = OrdersRoute.generateOrderNumber t r).
Proof.
  revert o s1. induction ds as [|[t r] ds IH]; intros o s1; simpl.
  - injection 1 as <- <-. split; [done|]. split; intros; discriminate.
  - unfold bind, Prisma.order_findUnique_orderNumber, gets.
    destruct (find _ (orders s)) as [hit|] eqn:Hfind.
    + intros E. destruct (IH _ _ E) as (-> & Hno & Hok).
      split; [done|]. split; [done|].
      intros n Hn. destruct (Hok n Hn) as (Hfresh & t' & r' & Hin & ->).
      split; [done|]. exists t', r'. split; [by right|done].
    + injection 1 as <- <-. split; [done|]. split; [done|].
      intros n [= <-]. split.
      * apply Forall_forall. intros row Hrow.
        apply list_elem_of_In in Hrow.
        pose proof (find_none _ _ Hfind row Hrow) as Hf. simpl in Hf.
        by apply bool_decide_eq_false in Hf.
      * exists t, r. split; [by left|done].
Qed.

(** The loop comes back as soon as one draw is free. *)
Lemma fresh_orderNumber_returns ds s :
  Exists (fun d => Forall (fun r : Row =>
             r !! "orderNumber" <> Some (JStr (OrdersRoute.generateOrderNumber d.1 d.2)))
            (orders s)) ds ->
  exists n, OrdersRoute.fresh_orderNumber ds s = (Ok n, s).
Proof.
  induction 1 as [[t r] ds Hfree|[t r] ds _ IH]; simpl in *.
  - unfold bind, Prisma.order_findUnique_orderNumber, gets.
    destruct (find _ (orders s)) as [hit|] eqn:Hfind; [|by eexists].
    apply find_some in Hfind as [Hin Hhit]. apply list_elem_of_In in Hin.
    apply bool_decide_eq_true in Hhit.
    rewrite Forall_forall in Hfree. by destruct (Hfree hit Hin).
  - unfold bind, Prisma.order_findUnique_orderNumber, gets.
    destruct (find _ (orders s)) as [hit|]; [exact IH|by eexists].
Qed.

(** ** Converting a lead into an order *)

Lemma has_id_union id (data r : Row) :
  data !! "id" = None -> Prisma.has_id id (data ∪ r) = Prisma.has_id id r.
Proof.
  intros Hd. unfold Prisma.has_id. by rewrite lookup_union_r.
Qed.

Lemma find_update_row id (data : Row) (l : list Row) r :
  data !! "id" = None ->
  find (Prisma.has_id id) l = Some r ->
  find (Prisma.has_id id) (map (Prisma.update_row id data) l) = Some (data ∪ r).
Proof.
  intros Hd. induction l as [|x l IH]; [done|]. simpl.
  change (Prisma.update_row id data x)
    with (if Prisma.has_id id x then data ∪ x else x).
  destruct (Prisma.has_id id x) eqn:Hx.
  - intros [= ->]. by rewrite has_id_union, Hx.
  - rewrite Hx. exact IH.
Qed.

(** What a 201 from the order route means for the request and the
    store. *)
Lemma order_POST_created e req s resp s' :
  OrdersRoute.POST e req s = (Ok resp, s') -> status resp = 201 ->
  exists u data lead orderNumber assignedTo,
    authenticated req = Some u
    /\ Zod.safeParse OrdersRoute.orderSchema (body req) = Some data
    /\ find (Prisma.has_id (template (col data "leadId"))) (leads s) = Some lead
    /\ Forall (fun r : Row => r !! "orderNumber" <> Some (JStr orderNumber)) (orders s)
    /\ (exists t r, (t, r) ∈ draws e
          /\ orderNumber = OrdersRoute.generateOrderNumber t r)
    /\ let order_data := OrdersRoute.order_data data orderNumber lead assignedTo u in
       let order := <["id" := JStr (newId e (OrderCreate order_data))]> order_data in
       let payment_data := OrdersRoute.initial_payment order data u in
       let payment := <["id" := JStr (newId e (PaymentCreate payment_data))]> payment_data in
       resp = {| status := 201; payload := RowJson order |}
       /\ orders s' = orders s ++ [order]
       /\ payments s'
          = payments s
            ++ (if num_gt (Number (col data "receivedAmount")) (Some Num.zero)
                then [payment] else [])
       /\ leads s'
          = map (Prisma.update_row (template (col data "leadId"))
                   {["status" := JStr "CONVERTED"]}) (leads s)
       /\ users s' = users s.
Proof.
  intros Hrun H201. unfold OrdersRoute.POST, try_catch in Hrun.
  destruct (OrdersRoute.POST_body e req s) as [[r|err|] s0] eqn:Hbody;
    [injection Hrun as -> -> | | discriminate].
  2:{ destruct err; injection Hrun as <- <-; discriminate. }
  unfold OrdersRoute.POST_body in Hbody.
  destruct (authenticated req) as [u|] eqn:Hauth;
    [|injection Hbody as <- <-; discriminate].
  apply bind_Ok in Hbody as (allowed & s1 & Hrl & Hbody).
  apply rateLimit_Ok in Hrl as (_ & Hu1 & Hl1 & Ho1 & Hp1).
  destruct allowed; simpl in Hbody; [|injection Hbody as <- <-; discriminate].
  apply bind_Ok in Hbody as (b & s2 & Hjson & Hbody).
  apply req_json_Ok in Hjson as [-> ->].
  apply bind_Ok in Hbody as (data & s2 & Hparse & Hbody).
  apply parse_Ok in Hparse as [Hparse ->].
  apply bind_Ok in Hbody as (lead & s2 & Hlead & Hbody).
  apply gets_Ok in Hlead as [[= ->] ->].
  destruct (find _ (leads s1)) as [lead|] eqn:Hfind;
    [|injection Hbody as <- <-; discriminate].
  apply bind_Ok in Hbody as (orderNumber & s2 & Hnum & Hbody).
  apply fresh_orderNumber_spec in Hnum as (-> & _ & Hfresh).
  destruct (Hfresh _ eq_refl) as [Hfree Hdrawn]. clear Hfresh.
  apply bind_Ok in Hbody as (order & s2 & Hcreate & Hbody).
  apply order_create_Ok in Hcreate as (_ & Horder & ->).
  apply bind_Ok in Hbody as (x & s3 & Hpay & Hbody).
  apply bind_Ok in Hbody as (x' & s4 & Hupd & Hbody).
  apply lead_update_Ok in Hupd as (lead' & Hfind' & _ & ->).
  apply bind_Ok in Hbody as (x'' & s5 & Haudit & Hbody).
  apply (quiet_Ok _ _ _ _ (quiet_createAuditLog _ _ _ _ _ _ _ _ _)) in Haudit
    as (_ & Hu5 & Hl5 & Ho5 & Hp5 & _).
  apply bind_Ok in Hbody as (x''' & s6 & Hnote & Hbody).
  apply (quiet_Ok _ _ _ _ (quiet_order_created _ _ _ _ _ _)) in Hnote
    as (_ & Hu6 & Hl6 & Ho6 & Hp6 & _).
  injection Hbody as <- <-.
  eexists u, data, lead, orderNumber, _.
  split; [done|]. split; [done|]. split; [by rewrite <- Hl1|].
  split; [by rewrite <- Ho1|]. split; [done|].
  cbv zeta. rewrite <- Horder.
  split; [done|].
  assert (Hs3 : orders s3 = orders s1 ++ [order] /\ leads s3 = leads s1
                /\ users s3 = users s1
                /\ payments s3 = payments s1
                     ++ (if num_gt (Number (col data "receivedAmount")) (Some Num.zero)
                         then [<["id" := JStr (newId e (PaymentCreate
                                 (OrdersRoute.initial_payment order data u)))]>
                                 (OrdersRoute.initial_payment order data u)]
                         else [])).
  { destruct (num_gt _ _).
    - apply bind_Ok in Hpay as (p & s3' & Hp & Hret).
      apply payment_create_Ok in Hp as (_ & -> & ->).
      injection Hret as _ <-. by simpl.
    - injection Hpay as _ <-. simpl. by rewrite app_nil_r. }
  destruct Hs3 as (Ho3 & Hl3 & Hu3 & Hp3).
  simpl in *.
  rewrite Ho6, Ho5, Ho3, Ho1. split; [done|].
  rewrite Hp6, Hp5, Hp3, Hp1. split; [done|].
  rewrite Hl6, Hl5, Hl3, Hl1. split; [done|].
  congruence.
Qed.

(** C1. The order route never compares the lead's assignee with the
    caller: employee F (e2) converts lead-1, which is assigned to
    employee E (e1), and gets a 201 with a new order, booked by and
    assigned to F, while the lead becomes CONVERTED. *)
Theorem order_POST_ignores_lead_assignee :
  let req := Scenario.request Scenario.employeeF (Scenario.conversion "lead-1" 2000) in
  let out := OrdersRoute.POST Scenario.env0 req Scenario.store0 in
  col Scenario.leadA "assignedTo" = JStr "e1"
  /\ su_role (Scenario.as_session Scenario.employeeF) = EMPLOYEE
  /\ su_id (Scenario.as_session Scenario.employeeF) = "e2"
  /\ status <$> Scenario.answer out = Some 201
  /\ length (orders out.2) = S (length (orders Scenario.store0))
  /\ (fun o => (col o "leadId", col o "assignedTo", col o "bookedBy"))
       <$> last (orders out.2)
     = Some (JStr "lead-1", JStr "e2", JStr "e2")
  /\ (fun l => col l "status") <$> leads out.2
     = [JStr "CONVERTED"; JStr "CONVERTED"].
Proof. vm_compute. repeat split; reflexivity. Qed.

(** ** What a schema lets through *)

Lemma parse_fields_spec (schema : list Zod.field) (input d : Row) :
  NoDup (map Zod.key schema) ->
  Zod.parse_fields schema input = Some d ->
  (forall f, f ∈ schema ->
     match input !! Zod.key f with
     | Some v => Zod.accepts f v = true /\ d !! Zod.key f = Some (Zod.transform f v)
     | None => Zod.optional f = true /\ d !! Zod.key f = None
     end)
  /\ (forall k, k ∉ map Zod.key schema -> d !! k = None).
Proof.
  revert d. induction schema as [|f rest IH]; intros d Hnd Hparse.
  - injection Hparse as <-. split; [intros f Hf; inversion Hf | done].
  - apply NoDup_cons in Hnd as [Hfresh Hnd]. simpl in Hparse.
    destruct (input !! Zod.key f) as [v|] eqn:Hin.
    + destruct (Zod.accepts f v) eqn:Hacc; [|discriminate].
      destruct (Zod.parse_fields rest input) as [d'|] eqn:Hrest; [|discriminate].
      injection Hparse as <-. destruct (IH d' Hnd eq_refl) as [IH1 IH2].
      split.
      * intros g Hg. apply elem_of_cons in Hg as [->|Hg].
        -- rewrite Hin. by rewrite lookup_insert_eq.
        -- assert (Zod.key f <> Zod.key g).
           { intros Heq. apply Hfresh. rewrite Heq. by apply list_elem_of_fmap_2. }
           rewrite lookup_insert_ne by done. by apply IH1.
      * intros k Hk. simpl in Hk. apply not_elem_of_cons in Hk as [Hne Hk].
        rewrite lookup_insert_ne by done. by apply IH2.
    + destruct (Zod.optional f) eqn:Hopt; [|discriminate].
      destruct (IH d Hnd Hparse) as [IH1 IH2].
      split.
      * intros g Hg. apply elem_of_cons in Hg as [->|Hg].
        -- rewrite Hin. split; [done|]. by apply IH2.
        -- by apply IH1.
      * intros k Hk. simpl in Hk. apply not_elem_of_cons in Hk as [Hne Hk].
        by apply IH2.
Qed.

Lemma orderSchema_keys : NoDup (map Zod.key OrdersRoute.orderSchema).
Proof. apply (bool_decide_unpack _). vm_compute. exact I. Qed.

(** A parsed conversion form names a lead and a non-negative amount,
    and has no [id] of its own. *)
Lemma orderSchema_parsed b data :
  Zod.safeParse OrdersRoute.orderSchema b = Some data ->
  (exists leadId, data !! "leadId" = Some (JStr leadId))
  /\ (exists received, data !! "receivedAmount" = Some (JNum received)
                        /\ Num.le Num.zero received)
  /\ data !! "id" = None.
Proof.
  destruct b as [| |input]; [discriminate|discriminate|].
  cbn [Zod.safeParse]. intros Hparse.
  destruct (parse_fields_spec _ _ _ orderSchema_keys Hparse) as [Hin Hout].
  clear Hparse. split; [|split].
  - specialize (Hin (Zod.required "leadId" Zod.string_min1) ltac:(left)).
    cbn [Zod.required Zod.key Zod.optional Zod.accepts Zod.transform] in Hin.
    destruct (input !! "leadId") as [v|]; destruct Hin as [Hacc Hd];
      [|discriminate Hacc].
    destruct v; try discriminate Hacc. eauto.
  - specialize (Hin (Zod.required "receivedAmount" Zod.number_min0)
                  ltac:(right; left)).
    cbn [Zod.required Zod.key Zod.optional Zod.accepts Zod.transform] in Hin.
    destruct (input !! "receivedAmount") as [v|]; destruct Hin as [Hacc Hd];
      [|discriminate Hacc].
    destruct v; try discriminate Hacc. eexists. split; [exact Hd|exact Hacc].
  - apply Hout. apply (bool_decide_unpack _). vm_compute. exact I.
Qed.

Lemma order_data_columns data orderNumber lead assignedTo u id :
  let order := <["id" := JStr id]>
                 (OrdersRoute.order_data data orderNumber lead assignedTo u) in
  order !! "id" = Some (JStr id)
  /\ order !! "leadId" = Some (col data "leadId")
  /\ order !! "status" = Some (JStr "PENDING")
  /\ order !! "patientName" = Some (col lead "name")
  /\ order !! "orderNumber" = Some (JStr orderNumber)
  /\ order !! "assignedTo" = Some assignedTo
  /\ order !! "bookedBy" = Some (JStr (su_id u)).
Proof. unfold OrdersRoute.order_data. repeat split; by simplify_map_eq. Qed.

Lemma initial_payment_columns order data u id :
  let payment := <["id" := JStr id]> (OrdersRoute.initial_payment order data u) in
  payment !! "orderId" = Some (col order "id")
  /\ payment !! "amount" = Some (col data "receivedAmount")
  /\ payment !! "paymentType" = Some (JStr "INITIAL")
  /\ payment !! "receivedBy" = Some (JStr (su_id u)).
Proof.
  unfold OrdersRoute.initial_payment, with_field.
  destruct (data !! "moneyOrderNumber"); repeat split; by simplify_map_eq.
Qed.

(** C5. After a conversion answered with 201 the order table has grown
    by exactly one order, which references the lead of the request, has
    status PENDING and the lead's name as patient name; the lead is
    CONVERTED; and the payment table has grown by exactly one INITIAL
    payment of the supplied amount for that order when the amount is
    positive, and not at all otherwise. *)
Theorem lead_conversion_postconditions e req s resp s' :
  OrdersRoute.POST e req s = (Ok resp, s') ->
  status resp = 201 ->
  exists (leadId : string) (received : Num.number) (data lead order : Row),
    Zod.safeParse OrdersRoute.orderSchema (body req) = Some data
    /\ data !! "leadId" = Some (JStr leadId)
    /\ data !! "receivedAmount" = Some (JNum received)
    /\ find (Prisma.has_id leadId) (leads s) = Some lead
    /\ payload resp = RowJson order
    /\ orders s' = orders s ++ [order]
    /\ order !! "leadId" = Some (JStr leadId)
    /\ order !! "status" = Some (JStr "PENDING")
    /\ order !! "patientName" = Some (col lead "name")
    /\ (exists lead', find (Prisma.has_id leadId) (leads s') = Some lead'
          /\ lead' !! "status" = Some (JStr "CONVERTED"))
    /\ (Num.lt Num.zero received <->
        exists payment, payments s' = payments s ++ [payment]
          /\ payment !! "paymentType" = Some (JStr "INITIAL")
          /\ payment !! "amount" = Some (JNum received)
          /\ payment !! "orderId" = order !! "id")
    /\ (Num.le received Num.zero <-> payments s' = payments s).
Proof.
  intros Hrun H201.
  destruct (order_POST_created _ _ _ _ _ Hrun H201)
    as (u & data & lead & orderNumber & assignedTo & _ & Hparse & Hlead & _ & _ & Hpost).
  cbv zeta in Hpost. destruct Hpost as (-> & Horders & Hpay & Hleads & _).
  destruct (orderSchema_parsed _ _ Hparse) as ((leadId & HleadId) & (received & Hrec & Hpos) & _).
  assert (Hcol : col data "leadId" = JStr leadId) by (unfold col; by rewrite HleadId).
  assert (Hamt : col data "receivedAmount" = JNum received)
    by (unfold col; by rewrite Hrec).
  rewrite Hcol in Hlead, Hleads. simpl in Hlead, Hleads.
  rewrite Hamt in Hpay. cbn [Number num_gt] in Hpay.
  set (od := OrdersRoute.order_data data orderNumber lead assignedTo u) in *.
  set (order := <["id" := JStr (newId e (OrderCreate od))]> od) in *.
  destruct (order_data_columns data orderNumber lead assignedTo u
              (newId e (OrderCreate od))) as (Hid & HoLead & HoStatus & HoName & _).
  fold od in Hid, HoLead, HoStatus, HoName. fold order in Hid, HoLead, HoStatus, HoName.
  exists leadId, received, data, lead, order.
  repeat (split; [done || (by rewrite <- Hcol)|]).
  split.
  { exists ({["status" := JStr "CONVERTED"]} ∪ lead). split.
    - rewrite Hleads. by apply find_update_row.
    - apply lookup_union_Some_l. by rewrite lookup_singleton_eq. }
  set (pd := OrdersRoute.initial_payment order data u) in *.
  destruct (initial_payment_columns order data u (newId e (PaymentCreate pd)))
    as (HpOrder & HpAmount & HpType & _).
  fold pd in HpOrder, HpAmount, HpType.
  unfold Num.lt, Num.le in *.
  destruct (Num.ltb Num.zero received) eqn:Hgt.
  - split; [split|split].
    + intros _. eexists. split; [exact Hpay|]. split; [done|].
      split; [by rewrite HpAmount, Hamt|].
      rewrite HpOrder. unfold col. by rewrite Hid.
    + done.
    + intros Hle. apply leb_not_ltb in Hle. congruence.
    + intros Heq. rewrite Heq in Hpay.
      apply (f_equal length) in Hpay. rewrite length_app in Hpay. simpl in Hpay. lia.
  - rewrite app_nil_r in Hpay. split; [split|split].
    + done.
    + intros (p & Hp & _). rewrite Hp in Hpay.
      apply (f_equal length) in Hpay. rewrite length_app in Hpay. simpl in Hpay. lia.
    + done.
    + intros _. by apply nonneg_not_positive.
Qed.

(** C6. Two orders created one after the other carry different order
    numbers, whatever the clock and the random generator produced: the
    second number is a drawn candidate that no order stored at that time
    carries, the first order included. *)
Theorem sequential_orders_have_distinct_numbers
  e1 req1 e2 req2 s0 resp1 s1 resp2 s2 :
  OrdersRoute.POST e1 req1 s0 = (Ok resp1, s1) -> status resp1 = 201 ->
  OrdersRoute.POST e2 req2 s1 = (Ok resp2, s2) -> status resp2 = 201 ->
  exists (order1 order2 : Row) (number1 number2 : string),
    orders s1 = orders s0 ++ [order1]
    /\ orders s2 = orders s0 ++ [order1; order2]
    /\ order1 !! "orderNumber" = Some (JStr number1)
    /\ order2 !! "orderNumber" = Some (JStr number2)
    /\ number1 <> number2
    /\ Forall (fun o : Row => o !! "orderNumber" <> Some (JStr number2)) (orders s1)
    /\ (exists t r, (t, r) ∈ draws e2
          /\ number2 = OrdersRoute.generateOrderNumber t r).
Proof.
  intros Hrun1 H1 Hrun2 H2.
  destruct (order_POST_created _ _ _ _ _ Hrun1 H1)
    as (u1 & d1 & l1 & n1 & a1 & _ & _ & _ & _ & _ & Hpost1).
  destruct (order_POST_created _ _ _ _ _ Hrun2 H2)
    as (u2 & d2 & l2 & n2 & a2 & _ & _ & _ & Hfree2 & Hdrawn2 & Hpost2).
  cbv zeta in Hpost1, Hpost2.
  destruct Hpost1 as (_ & Ho1 & _). destruct Hpost2 as (_ & Ho2 & _).
  set (od1 := OrdersRoute.order_data d1 n1 l1 a1 u1) in *.
  set (od2 := OrdersRoute.order_data d2 n2 l2 a2 u2) in *.
  destruct (order_data_columns d1 n1 l1 a1 u1 (newId e1 (OrderCreate od1)))
    as (_ & _ & _ & _ & Hn1 & _).
  destruct (order_data_columns d2 n2 l2 a2 u2 (newId e2 (OrderCreate od2)))
    as (_ & _ & _ & _ & Hn2 & _).
  fold od1 in Hn1. fold od2 in Hn2.
  eexists _, _, n1, n2.
  split; [exact Ho1|]. split; [by rewrite Ho2, Ho1, <- app_assoc|].
  split; [exact Hn1|]. split; [exact Hn2|].
  split; [|by split].
  intros ->. rewrite Ho1, Forall_app, Forall_singleton in Hfree2.
  destruct Hfree2 as [_ Hlast]. by apply Hlast.
Qed.

Lemma lead_conversion_postconditions_witness :
  let req := Scenario.request Scenario.employeeE (Scenario.conversion "lead-1" 2000) in
  let out := OrdersRoute.POST Scenario.env0 req Scenario.store0 in
  exists order payment : Row,
    orders out.2 = orders Scenario.store0 ++ [order]
    /\ order !! "status" = Some (JStr "PENDING")
    /\ payments out.2 = payments Scenario.store0 ++ [payment]
    /\ payment !! "amount" = Some (JNum (Num.of_Z 2000)).
Proof.
  intros req out.
  destruct (lead_conversion_postconditions Scenario.env0 req Scenario.store0
              (response_of out) out.2)
    as (leadId & received & data & lead & order & Hparse & _ & Hrec & _ & _
        & Horders & _ & Hstatus & _ & _ & Hpay & _).
  - vm_compute. reflexivity.
  - vm_compute. reflexivity.
  - assert (Hreceived : Num.of_Z 2000 = received).
    { assert (H : (d ← Zod.safeParse OrdersRoute.orderSchema (body req);
                   d !! "receivedAmount") = Some (JNum received))
        by (rewrite Hparse; exact Hrec).
      vm_compute in H. injection H as <-. vm_compute. reflexivity. }
    subst received.
    destruct (proj1 Hpay eq_refl) as (payment & Hpayments & _ & Hamount & _).
    exists order, payment. repeat split; assumption.
Defined.

Lemma sequential_orders_have_distinct_numbers_witness :
  let req := Scenario.request Scenario.employeeE (Scenario.conversion "lead-1" 2000) in
  let first := OrdersRoute.POST Scenario.env0 req Scenario.store0 in
  let second := OrdersRoute.POST Scenario.env0 req first.2 in
  exists (order1 order2 : Row) (number1 number2 : string),
    orders second.2 = orders Scenario.store0 ++ [order1; order2]
    /\ order1 !! "orderNumber" = Some (JStr number1)
    /\ order2 !! "orderNumber" = Some (JStr number2)
    /\ number1 <> number2.
Proof.
  intros req first second.
  destruct (sequential_orders_have_distinct_numbers
              Scenario.env0 req Scenario.env0 req Scenario.store0
              (response_of first) first.2 (response_of second) second.2)
    as (order1 & order2 & number1 & number2 & _ & Horders & Hn1 & Hn2 & Hne & _).
  - vm_compute. reflexivity.
  - vm_compute. reflexivity.
  - vm_compute. reflexivity.
  - vm_compute. reflexivity.
  - exists order1, order2, number1, number2. repeat split; assumption.
Defined.

(** The same clock value and the same random number twice: the second
    conversion finds its first two candidates taken and keeps the third. *)
Example same_millisecond_orders :
  let req := Scenario.request Scenario.employeeE (Scenario.conversion "lead-1" 2000) in
  let first := OrdersRoute.POST Scenario.env0 req Scenario.store0 in
  let second := OrdersRoute.POST Scenario.env0 req first.2 in
  (fun o => col o "orderNumber") <$> orders second.2
  = [JStr "G000001001"; JStr "G123456007"; JStr "G123457042"].
Proof. vm_compute. reflexivity. Qed.

Lemma hasPermission_unknown_user_witness :
  hasPermission "nobody" "leads" "update" Scenario.store0
  = (Ok false, Scenario.store0)
  /\ requirePermission "nobody" "leads" "update" Scenario.store0
     = (Throw (JsError "Insufficient permissions"), Scenario.store0).
Proof.
  apply (hasPermission_unknown_user "nobody" "leads" "update" Scenario.store0).
  repeat constructor; discriminate.
Defined.

(** C9. [createAuditLog] returns normally whatever the audit store does:
    a rejected write is caught and leaves the store as it was.  Run
    against an audit store that rejects every write, each handler that
    records an audit entry (order creation, order update, lead update,
    bulk assignment) gives the same response as against a working one
    and leaves the same store, the audit log apart. *)
Theorem audit_failure_is_swallowed (e : Env) (req : Request) (id : string)
  (s : Store) (userId : string) (action : AuditAction)
  (entityType entityId : string) (changes : option Changes)
  (description ipAddress userAgent : option string) :
  let entry :=
    {| al_userId := userId; al_action := action; al_entityType := entityType;
       al_entityId := entityId; al_changes := changes;
       al_description := description; al_ipAddress := ipAddress;
       al_userAgent := userAgent |} in
  createAuditLog e userId action entityType entityId changes description
    ipAddress userAgent s
  = (Ok tt, if rejects e (AuditLogCreate entry) then s
            else set_auditLogs (fun l => l ++ [entry]) s)
  /\ createAuditLog (audit_down e) userId action entityType entityId changes
       description ipAddress userAgent s = (Ok tt, s)
  /\ audit_blind (OrdersRoute.POST (audit_down e) req) (OrdersRoute.POST e req)
  /\ audit_blind (OrderIdRoute.PATCH (audit_down e) req id)
                 (OrderIdRoute.PATCH e req id)
  /\ audit_blind (LeadIdRoute.PATCH (audit_down e) req id)
                 (LeadIdRoute.PATCH e req id)
  /\ audit_blind (BulkAssignRoute.POST (audit_down e) req)
                 (BulkAssignRoute.POST e req).
Proof.
  intros entry. split; [apply createAuditLog_returns|].
  split; [by rewrite createAuditLog_returns|].
  split; [apply blind_orders_POST|]. split; [apply blind_order_PATCH|].
  split; [apply blind_lead_PATCH | apply blind_bulk_POST].
Qed.

(** A conversion with the audit store down: still a 201, the order is
    stored, nothing reaches the audit log. *)
Example conversion_with_audit_store_down :
  let req := Scenario.request Scenario.employeeE (Scenario.conversion "lead-1" 2000) in
  let out := OrdersRoute.POST (audit_down Scenario.env0) req Scenario.store0 in
  status <$> Scenario.answer out = Some 201
  /\ length (orders out.2) = 2%nat
  /\ auditLogs out.2 = [].
Proof. vm_compute. repeat split; reflexivity. Qed.

(** ** Who a lead is assigned to *)

Lemma keeps_ret {A} (a : A) : keeps_assignees (ret a).
Proof. by intros s. Qed.

Lemma keeps_throw {A} err : keeps_assignees (@throw A err).
Proof. by intros s. Qed.

Lemma keeps_bind {A B} (m : M A) (k : A -> M B) :
  keeps_assignees m -> (forall a, keeps_assignees (k a)) ->
  keeps_assignees (bind m k).
Proof.
  intros Hm Hk s. unfold bind. specialize (Hm s).
  destruct (m s) as [[a|err|] s1]; simpl in *; [|done|done].
  by rewrite Hk.
Qed.

Lemma keeps_try_catch {A} (m : M A) (h : Error -> M A) :
  keeps_assignees m -> (forall err, keeps_assignees (h err)) ->
  keeps_assignees (try_catch m h).
Proof.
  intros Hm Hh s. unfold try_catch. specialize (Hm s).
  destruct (m s) as [[a|err|] s1]; simpl in *; [done| |done].
  by rewrite Hh.
Qed.

Lemma keeps_gets {A} (f : Store -> A) : keeps_assignees (gets f).
Proof. by intros s. Qed.

Lemma keeps_quiet {A} (m : M A) : quiet m -> keeps_assignees m.
Proof.
  intros Hq s. destruct (Hq s) as (a & s' & -> & F). simpl.
  apply forget_logs_fields in F as (_ & -> & _). done.
Qed.

Lemma keeps_rateLimit e ip : keeps_assignees (rateLimit e ip).
Proof.
  intros s. unfold rateLimit. by destruct (RateLimit.rateLimit _ _ _ _ _).
Qed.

Lemma keeps_req_json req : keeps_assignees (req_json req).
Proof. intros s. unfold req_json. by destruct (body req). Qed.

Lemma assignees_update_row id (data : Row) (l : list Row) :
  data !! "assignedTo" = None ->
  assignees (map (Prisma.update_row id data) l) = assignees l.
Proof.
  intros Hd. unfold assignees. rewrite <- list_fmap_compose.
  apply list_fmap_ext. intros _ r _. simpl. unfold Prisma.update_row.
  destruct (Prisma.has_id id r); [|done]. by rewrite lookup_union_r.
Qed.

Lemma keeps_lead_update e id (data : Row) :
  data !! "assignedTo" = None -> keeps_assignees (Prisma.lead_update e id data).
Proof.
  intros Hd s. unfold Prisma.lead_update, Prisma.guarded.
  destruct (rejects e _); [done|].
  unfold bind, Prisma.lead_findUnique, gets, modify, ret, throw.
  destruct (find _ _); [|done]. simpl. by apply assignees_update_row.
Qed.

(** No block of [updateData] writes a key other than its own. *)
Lemma addField_other body k tr (d : Row) k' :
  k <> k' -> LeadIdRoute.addField body k tr d !! k' = d !! k'.
Proof.
  intros Hne. unfold LeadIdRoute.addField.
  destruct (body !! k) as [v|]; [|done]. destruct (tr v) as [tv|]; [|done].
  case_bool_decide; by rewrite lookup_insert_ne.
Qed.

Lemma addFields_other body keys (d : Row) k' :
  k' ∉ keys -> LeadIdRoute.addFields body keys d !! k' = d !! k'.
Proof.
  unfold LeadIdRoute.addFields. revert d.
  induction keys as [|k keys IH]; intros d Hk; [done|]. simpl.
  apply not_elem_of_cons in Hk as [Hne Hk].
  rewrite IH by done. by apply addField_other.
Qed.

Lemma addId_other e body k (d : Row) k' :
  k <> k' -> LeadIdRoute.addId e body k d !! k' = d !! k'.
Proof.
  intros Hne. unfold LeadIdRoute.addId.
  destruct (body !! k) as [v|]; [|done].
  case_bool_decide; [by rewrite lookup_insert_ne|].
  destruct (parseInt e _); by rewrite lookup_insert_ne.
Qed.

Lemma copyField_other body k (d : Row) k' :
  k <> k' -> LeadIdRoute.copyField body k d !! k' = d !! k'.
Proof.
  intros Hne. unfold LeadIdRoute.copyField.
  destruct (body !! k); [by rewrite lookup_insert_ne|done].
Qed.

(** [updateData.assignedTo] is set only from [body.assignedTo]. *)
Lemma build_updateData_assignedTo e (body : Row) :
  LeadIdRoute.build_updateData e body !! "assignedTo" = body !! "assignedTo".
Proof.
  unfold LeadIdRoute.build_updateData. cbv zeta.
  unfold LeadIdRoute.copyField at 1.
  destruct (body !! "assignedTo") as [v|] eqn:Hv; [by rewrite lookup_insert_eq|].
  rewrite addField_other by done.
  rewrite !copyField_other by done.
  rewrite addFields_other by (by apply (bool_decide_unpack _)).
  rewrite !addId_other by done.
  rewrite addFields_other by (by apply (bool_decide_unpack _)).
  rewrite addField_other by done.
  rewrite addFields_other by (by apply (bool_decide_unpack _)).
  rewrite addField_other by done.
  rewrite addFields_other by (by apply (bool_decide_unpack _)).
  apply lookup_empty.
Qed.

Ltac keep_step :=
  first
    [ apply keeps_ret
    | apply keeps_throw
    | apply keeps_req_json
    | apply keeps_rateLimit
    | apply keeps_gets
    | apply keeps_quiet; first
        [ apply quiet_createAuditLog | apply quiet_lead_updated ]
    | apply keeps_try_catch; [|intros ?]
    | apply keeps_bind; [|intros ?]
    | match goal with
      | |- keeps_assignees (match ?x with _ => _ end) => destruct x
      end ].

(** C8. A lead update sent with an EMPLOYEE session leaves the assignee
    of every lead as it was, whether or not the body names [assignedTo]
    and whatever the handler answers. *)
Theorem employee_lead_PATCH_keeps_assignee (e : Env) (req : Request)
  (id : string) (s : Store) (u : SessionUser) :
  session req = Some u ->
  su_role u = EMPLOYEE ->
  assignees (leads (LeadIdRoute.PATCH e req id s).2) = assignees (leads s).
Proof.
  intros Hsession Hrole. revert s.
  change (keeps_assignees (LeadIdRoute.PATCH e req id)).
  unfold LeadIdRoute.PATCH, LeadIdRoute.PATCH_body, json.
  assert (Hauth : authenticated req = None \/ authenticated req = Some u).
  { unfold authenticated. rewrite Hsession. destruct (String.eqb _ _); auto. }
  destruct Hauth as [-> | ->]; repeat keep_step.
  apply keeps_lead_update. rewrite build_updateData_assignedTo.
  case_bool_decide; [simpl|done].
  case_bool_decide as Hin; [apply lookup_delete_eq|].
  by apply eq_None_not_Some.
Qed.

Lemma employee_lead_PATCH_keeps_assignee_witness :
  let req := Scenario.request Scenario.employeeE
               (Obj {[ "notes" := JStr "call back"; "assignedTo" := JStr "e2" ]}) in
  assignees (leads (LeadIdRoute.PATCH Scenario.env0 req "lead-1" Scenario.store0).2)
  = assignees (leads Scenario.store0).
Proof.
  intros req.
  apply (employee_lead_PATCH_keeps_assignee Scenario.env0 req "lead-1"
           Scenario.store0 (Scenario.as_session Scenario.employeeE)).
  - reflexivity.
  - reflexivity.
Defined.

(** Employee E sends notes together with a new assignee for her own
    lead: the notes are stored, the assignee stays E. *)
Example employee_update_changes_other_fields :
  let req := Scenario.request Scenario.employeeE
               (Obj {[ "notes" := JStr "call back"; "assignedTo" := JStr "e2" ]}) in
  let out := LeadIdRoute.PATCH Scenario.env0 req "lead-1" Scenario.store0 in
  status <$> Scenario.answer out = Some 200
  /\ (fun l => (col l "notes", col l "assignedTo")) <$> leads out.2
     = [(JStr "call back", JStr "e1"); (JNull, JStr "e1")].
Proof. vm_compute. split; reflexivity. Qed.

(** The same body sent by an admin does reassign the lead. *)
Example admin_update_reassigns :
  let req := Scenario.request Scenario.admin
               (Obj {[ "notes" := JStr "call back"; "assignedTo" := JStr "e2" ]}) in
  let out := LeadIdRoute.PATCH Scenario.env0 req "lead-1" Scenario.store0 in
  assignees (leads out.2) = [Some (JStr "e2"); Some (JStr "e1")].
Proof. vm_compute. reflexivity. Qed.

(** ** Updating an order *)

(** What a 200 from the order update means for the request and the
    store. *)
Lemma order_PATCH_updated e req id s resp s' :
  OrderIdRoute.PATCH e req id s = (Ok resp, s') -> status resp = 200 ->
  exists u data existingOrder,
    authenticated req = Some u
    /\ Zod.safeParse (OrderIdRoute.orderUpdateSchema e) (body req) = Some data
    /\ find (Prisma.has_id id) (orders s) = Some existingOrder
    /\ let updateData := OrderIdRoute.handle_dispatch e u data existingOrder in
       let payment_data := OrderIdRoute.payment_data id u data existingOrder in
       let payment := <["id" := JStr (newId e (PaymentCreate payment_data))]> payment_data in
       resp = {| status := 200; payload := RowJson (updateData ∪ existingOrder) |}
       /\ orders s' = map (Prisma.update_row id updateData) (orders s)
       /\ payments s'
          = payments s
            ++ (if OrderIdRoute.payment_increase data existingOrder
                then [payment] else [])
       /\ leads s' = leads s.
Proof.
  intros Hrun H200. unfold OrderIdRoute.PATCH, try_catch in Hrun.
  destruct (OrderIdRoute.PATCH_body e req id s) as [[r|err|] s0] eqn:Hbody;
    [injection Hrun as -> -> | | discriminate].
  2:{ destruct err; injection Hrun as <- <-; discriminate. }
  unfold OrderIdRoute.PATCH_body in Hbody.
  destruct (authenticated req) as [u|] eqn:Hauth;
    [|injection Hbody as <- <-; discriminate].
  apply bind_Ok in Hbody as (allowed & s1 & Hrl & Hbody).
  apply rateLimit_Ok in Hrl as (_ & Hu1 & Hl1 & Ho1 & Hp1).
  destruct allowed; simpl in Hbody; [|injection Hbody as <- <-; discriminate].
  apply bind_Ok in Hbody as (existing & s2 & Hfind & Hbody).
  apply gets_Ok in Hfind as [[= ->] ->].
  destruct (find _ (orders s1)) as [existingOrder|] eqn:Hfind;
    [|injection Hbody as <- <-; discriminate].
  destruct (_ && _); [injection Hbody as <- <-; discriminate|].
  apply bind_Ok in Hbody as (b & s2 & Hjson & Hbody).
  apply req_json_Ok in Hjson as [-> ->].
  apply bind_Ok in Hbody as (data & s2 & Hparse & Hbody).
  apply parse_Ok in Hparse as [Hparse ->].
  apply bind_Ok in Hbody as (x & s3 & Hpay & Hbody).
  apply bind_Ok in Hbody as (order & s4 & Hupd & Hbody).
  assert (Hs3 : orders s3 = orders s1 /\ leads s3 = leads s1
                /\ payments s3 = payments s1
                     ++ (if OrderIdRoute.payment_increase data existingOrder
                         then [<["id" := JStr (newId e (PaymentCreate
                                 (OrderIdRoute.payment_data id u data existingOrder)))]>
                                 (OrderIdRoute.payment_data id u data existingOrder)]
                         else [])).
  { unfold OrderIdRoute.when in Hpay.
    destruct (OrderIdRoute.payment_increase data existingOrder).
    - apply bind_Ok in Hpay as (p & s3' & Hp & Hret).
      apply payment_create_Ok in Hp as (_ & -> & ->).
      injection Hret as _ <-. by simpl.
    - injection Hpay as _ <-. by rewrite app_nil_r. }
  destruct Hs3 as (Ho3 & Hl3 & Hp3).
  apply order_update_Ok in Hupd as (existing' & Hfind' & -> & ->).
  rewrite Ho3, Hfind in Hfind'. injection Hfind' as <-.
  apply bind_Ok in Hbody as (x' & s5 & Haudit & Hbody).
  apply (quiet_Ok _ _ _ _ (quiet_createAuditLog _ _ _ _ _ _ _ _ _)) in Haudit
    as (_ & Hu5 & Hl5 & Ho5 & Hp5 & _).
  apply bind_Ok in Hbody as (x'' & s6 & Hnote & Hbody).
  apply (quiet_Ok _ _ _ _ (quiet_order_updated _ _ _ _ _)) in Hnote
    as (_ & Hu6 & Hl6 & Ho6 & Hp6 & _).
  injection Hbody as <- <-.
  exists u, data, existingOrder.
  split; [done|]. split; [done|]. split; [by rewrite <- Ho1|].
  cbv zeta. simpl in *.
  split; [done|].
  rewrite Ho6, Ho5, Ho3, Ho1. split; [done|].
  rewrite Hp6, Hp5, Hp3, Hp1. split; [done|].
  congruence.
Qed.

Lemma orderUpdateSchema_keys e : NoDup (map Zod.key (OrderIdRoute.orderUpdateSchema e)).
Proof. apply (bool_decide_unpack _). vm_compute. exact I. Qed.

(** A parsed update names a non-negative amount or none, and no [id]. *)
Lemma orderUpdateSchema_parsed e b data :
  Zod.safeParse (OrderIdRoute.orderUpdateSchema e) b = Some data ->
  (data !! "receivedAmount" = None
   \/ exists n, data !! "receivedAmount" = Some (JNum n) /\ Num.le Num.zero n)
  /\ data !! "id" = None.
Proof.
  destruct b as [| |input]; [discriminate|discriminate|].
  cbn [Zod.safeParse]. intros Hparse.
  destruct (parse_fields_spec _ _ _ (orderUpdateSchema_keys e) Hparse) as [Hin Hout].
  clear Hparse. split.
  - specialize (Hin (Zod.opt "receivedAmount" Zod.number_min0)
                  ltac:(do 5 right; left)).
    cbn [Zod.opt Zod.key Zod.optional Zod.accepts Zod.transform] in Hin.
    destruct (input !! "receivedAmount") as [v|]; destruct Hin as [Hacc Hd].
    + destruct v; try discriminate Hacc. right. eexists.
      split; [exact Hd|exact Hacc].
    + by left.
  - apply Hout. apply (bool_decide_unpack _). vm_compute. exact I.
Qed.

Lemma handle_dispatch_other e u (data existingOrder : Row) k :
  k <> "dispatchedBy" -> k <> "dispatchDate" ->
  OrderIdRoute.handle_dispatch e u data existingOrder !! k = data !! k.
Proof.
  intros H1 H2. unfold OrderIdRoute.handle_dispatch.
  destruct (_ && _); [|done]. cbv zeta.
  destruct (negb _); by rewrite ?lookup_insert_ne.
Qed.

Lemma payment_data_columns id u (data existingOrder : Row) pid :
  let payment := <["id" := JStr pid]>
                   (OrderIdRoute.payment_data id u data existingOrder) in
  payment !! "orderId" = Some (JStr id)
  /\ payment !! "amount" = Some (OrderIdRoute.additionalAmount data existingOrder)
  /\ payment !! "paymentType"
     = Some (if num_gt (Number (col existingOrder "receivedAmount")) (Some Num.zero)
             then JStr "PARTIAL" else JStr "INITIAL")
  /\ payment !! "receivedBy" = Some (JStr (su_id u)).
Proof. unfold OrderIdRoute.payment_data. repeat split; by simplify_map_eq. Qed.

(** C2, as the handler has it.  After an update answered with 200 the
    order's receivedAmount is the amount the body supplied, or the
    previous one when the body supplied none; so it has not gone down
    whenever the supplied amount is at least the stored one.  A strict
    increase appends exactly one payment for the order, whose amount is
    the difference as the engine computes it, [after - before] on
    doubles, typed INITIAL when the previous amount was zero and
    PARTIAL otherwise; without a strict increase no payment is
    appended. *)
Theorem order_PATCH_receivedAmount e req id s resp s' existing
  (before : Num.number) :
  OrderIdRoute.PATCH e req id s = (Ok resp, s') ->
  status resp = 200 ->
  find (Prisma.has_id id) (orders s) = Some existing ->
  existing !! "receivedAmount" = Some (JNum before) ->
  Num.le Num.zero before ->
  exists (data updated : Row) (after : Num.number),
    Zod.safeParse (OrderIdRoute.orderUpdateSchema e) (body req) = Some data
    /\ payload resp = RowJson updated
    /\ find (Prisma.has_id id) (orders s') = Some updated
    /\ updated !! "receivedAmount" = Some (JNum after)
    /\ after = match data !! "receivedAmount" with
               | Some (JNum supplied) => supplied
               | _ => before
               end
    /\ Num.le Num.zero after
    /\ (Num.lt before after ->
        exists payment, payments s' = payments s ++ [payment]
          /\ payment !! "orderId" = Some (JStr id)
          /\ payment !! "amount" = Some (JNum (Num.sub after before))
          /\ payment !! "paymentType"
             = Some (JStr (if Num.isZero before then "INITIAL" else "PARTIAL")))
    /\ (Num.le after before -> payments s' = payments s).
Proof.
  intros Hrun H200 Hfind Hbefore Hpos.
  destruct (order_PATCH_updated _ _ _ _ _ _ Hrun H200)
    as (u & data & existing' & _ & Hparse & Hfind' & Hpost).
  rewrite Hfind in Hfind'. injection Hfind' as <-.
  cbv zeta in Hpost. destruct Hpost as (-> & Horders & Hpay & _).
  destruct (orderUpdateSchema_parsed _ _ _ Hparse) as [Hamount Hid].
  set (updateData := OrderIdRoute.handle_dispatch e u data existing) in *.
  assert (HuId : updateData !! "id" = None)
    by (unfold updateData; by rewrite handle_dispatch_other).
  assert (HuAmt : updateData !! "receivedAmount" = data !! "receivedAmount")
    by (unfold updateData; by rewrite handle_dispatch_other).
  assert (Hcol : col existing "receivedAmount" = JNum before)
    by (unfold col; by rewrite Hbefore).
  set (pd := OrderIdRoute.payment_data id u data existing) in *.
  destruct (payment_data_columns id u data existing (newId e (PaymentCreate pd)))
    as (HpOrder & HpAmount & HpType & _).
  fold pd in HpOrder, HpAmount, HpType.
  unfold OrderIdRoute.payment_increase, OrderIdRoute.additionalAmount in *.
  rewrite Hcol in *. cbn [Number num_gt default] in HpType, HpAmount, Hpay.
  unfold Num.lt, Num.le in *.
  rewrite (nonneg_positive _ Hpos) in HpType.
  exists data, (updateData ∪ existing).
  destruct Hamount as [Hnone | (n & Hsome & Hn)].
  - exists before. rewrite Hnone in *.
    cbn [OrderIdRoute.truthy_field andb] in Hpay. rewrite app_nil_r in Hpay.
    split; [done|]. split; [done|].
    split; [rewrite Horders; by apply find_update_row|].
    split; [by rewrite lookup_union_r by congruence|].
    split; [done|]. split; [done|]. split; [|done].
    intros Hlt. by rewrite ltb_irrefl in Hlt.
  - exists n. rewrite Hsome in *.
    assert (Hcoln : col data "receivedAmount" = JNum n)
      by (unfold col; by rewrite Hsome).
    rewrite Hcoln in *.
    cbn [OrderIdRoute.truthy_field truthy Number num_gt default] in Hpay, HpAmount.
    split; [done|]. split; [done|].
    split; [rewrite Horders; by apply find_update_row|].
    split; [apply lookup_union_Some_l; congruence|].
    split; [done|]. split; [done|]. split.
    + intros Hlt.
      rewrite Hlt, (above_nonneg_truthy _ _ Hpos Hlt) in Hpay.
      cbn [negb andb] in Hpay. eexists. split; [exact Hpay|].
      split; [done|]. split; [done|].
      rewrite HpType. by destruct (Num.isZero before).
    + intros Hle. rewrite (leb_not_ltb _ _ Hle), andb_false_r in Hpay.
      by rewrite app_nil_r in Hpay.
Qed.

Lemma order_PATCH_receivedAmount_witness :
  let req := Scenario.request Scenario.employeeE
               (Obj {[ "receivedAmount" := JNum (Num.of_Z 3500) ]}) in
  let out := OrderIdRoute.PATCH Scenario.env0 req "order-1" Scenario.store0 in
  exists payment : Row,
    payments out.2 = payments Scenario.store0 ++ [payment]
    /\ payment !! "amount" = Some (JNum (Num.of_Z 1500))
    /\ payment !! "paymentType" = Some (JStr "PARTIAL").
Proof.
  intros req out.
  destruct (order_PATCH_receivedAmount Scenario.env0 req "order-1" Scenario.store0
              (response_of out) out.2 Scenario.orderB (Num.of_Z 2000))
    as (data & updated & after & Hparse & _ & _ & _ & Hafter & _ & Hup & _).
  - apply returned_eq. vm_compute. reflexivity.
  - vm_compute. reflexivity.
  - apply (bool_decide_unpack _). vm_compute. exact I.
  - vm_compute. reflexivity.
  - vm_compute. reflexivity.
  - assert (H : after
                = match (d ← Zod.safeParse
                               (OrderIdRoute.orderUpdateSchema Scenario.env0) (body req);
                         d !! "receivedAmount") with
                  | Some (JNum supplied) => supplied
                  | _ => Num.of_Z 2000
                  end)
      by (rewrite Hparse; exact Hafter).
    clear Hafter.
    assert (Hafter : after = Num.of_Z 3500) by (rewrite H; vm_compute; reflexivity).
    clear H. subst after.
    destruct (Hup eq_refl) as (payment & Hpayments & _ & Hamount & Htype).
    exists payment. split; [exact Hpayments|]. split; [exact Hamount|exact Htype].
Defined.

(** An update may lower the amount: employee E sets receivedAmount of
    her order from 2000 to 1000, the handler answers 200, stores 1000
    and records no payment. *)
Lemma order_PATCH_lowers_receivedAmount :
  let req := Scenario.request Scenario.employeeE
               (Obj {[ "receivedAmount" := JNum (Num.of_Z 1000) ]}) in
  let out := OrderIdRoute.PATCH Scenario.env0 req "order-1" Scenario.store0 in
  exists before after : Num.number,
    status <$> Scenario.answer out = Some 200
    /\ (fun o => o !! "receivedAmount")
         <$> find (Prisma.has_id "order-1") (orders Scenario.store0)
       = Some (Some (JNum before))
    /\ (fun o => o !! "receivedAmount")
         <$> find (Prisma.has_id "order-1") (orders out.2)
       = Some (Some (JNum after))
    /\ Num.lt after before
    /\ Num.toString before = "2000"
    /\ Num.toString after = "1000"
    /\ payments out.2 = payments Scenario.store0.
Proof.
  intros req out. exists (Num.of_Z 2000), (Num.of_Z 1000).
  split; [vm_compute; reflexivity|]. split; [vm_compute; reflexivity|].
  split; [vm_compute; reflexivity|]. split; [vm_compute; reflexivity|].
  split; [vm_compute; reflexivity|]. split; [vm_compute; reflexivity|].
  apply (bool_decide_unpack _). vm_compute. exact I.
Qed.

(** An increase between amounts with cents, from 1000.10 to 1500.30:
    the payment recorded is of 500.19999999999993, the difference of
    the two doubles, as the handler computes it. *)
Example order_PATCH_amounts_with_cents :
  let stored := JNum (Num.decimal 100010 2) in
  let s := set_orders (map (Prisma.update_row "order-1"
                              {[ "receivedAmount" := stored ]})) Scenario.store0 in
  let req := Scenario.request Scenario.employeeE
               (Obj {[ "receivedAmount" := JNum (Num.decimal 150030 2) ]}) in
  let out := OrderIdRoute.PATCH Scenario.env0 req "order-1" s in
  status <$> Scenario.answer out = Some 200
  /\ (fun p => template (col p "amount")) <$> last (payments out.2)
     = Some "500.19999999999993"
  /\ (fun o => template (col o "receivedAmount"))
       <$> find (Prisma.has_id "order-1") (orders out.2)
     = Some "1500.3".
Proof. vm_compute. repeat split; reflexivity. Qed.

(** ** Bulk assignment *)

Lemma hasPermission_reads (userId module action : string) (s : Store) :
  (hasPermission userId module action s).2 = s.
Proof.
  unfold hasPermission, bind, Prisma.user_findUnique, gets.
  destruct (find _ _) as [usr|]; [|done]. by destruct (bool_decide _).
Qed.

Lemma hasPermission_users (userId module action : string) (s1 s2 : Store) :
  users s1 = users s2 ->
  (hasPermission userId module action s1).1 = (hasPermission userId module action s2).1.
Proof.
  intros Hu. unfold hasPermission, bind, Prisma.user_findUnique, gets. rewrite Hu.
  destruct (find _ _) as [usr|]; [|done]. by destruct (bool_decide _).
Qed.

(** A user whose database role is ADMIN holds every permission. *)
Lemma hasPermission_admin (userId module action : string) (s : Store) usr :
  find (fun u => String.eqb (user_id u) userId) (users s) = Some usr ->
  user_role usr = ADMIN ->
  hasPermission userId module action s = (Ok true, s).
Proof.
  intros Hfind Hrole. unfold hasPermission, bind, Prisma.user_findUnique, gets.
  rewrite Hfind. by rewrite bool_decide_eq_true_2.
Qed.

(** C4, as the handler has it.  Bulk assignment is gated on the
    (leads, update) permission: when [hasPermission] answers false for
    the caller, the request is answered 403 Forbidden (429 when the rate
    limiter turns it away first) and no lead is changed. *)
Theorem bulk_assign_requires_leads_update (e : Env) (req : Request)
  (s : Store) (u : SessionUser) :
  authenticated req = Some u ->
  (hasPermission (su_id u) "leads" "update" s).1 = Ok false ->
  let out := BulkAssignRoute.POST e req s in
  let allowed :=
    (RateLimit.rateLimit (now e) (client_ip req) RateLimit.default_limit
       RateLimit.default_windowMs (rateLimitMap s)).1 in
  leads out.2 = leads s
  /\ out.1 = Ok (if allowed
                 then {| status := 403; payload := ErrorMessage "Forbidden" |}
                 else {| status := 429;
                         payload := ErrorMessage "Too many requests" |}).
Proof.
  intros Hauth Hdenied out allowed.
  assert (Hrun : out = (Ok (if allowed
                 then {| status := 403; payload := ErrorMessage "Forbidden" |}
                 else {| status := 429;
                         payload := ErrorMessage "Too many requests" |}),
                        (rateLimit e (client_ip req) s).2)).
  { subst out allowed.
    unfold BulkAssignRoute.POST, BulkAssignRoute.POST_body, try_catch.
    rewrite Hauth. unfold bind at 1.
    destruct (rateLimit e (client_ip req) s) as [o s1] eqn:Hrl.
    pose proof (rateLimit_Ok _ _ _ _ _ Hrl) as (-> & Hu1 & _).
    destruct (RateLimit.rateLimit _ _ _ _ _).1; simpl; [|done].
    unfold bind at 1. unfold requirePermission, bind at 1.
    pose proof (hasPermission_users (su_id u) "leads" "update" s1 s Hu1) as Hsame.
    pose proof (hasPermission_reads (su_id u) "leads" "update" s1) as Hread.
    destruct (hasPermission (su_id u) "leads" "update" s1) as [o s2].
    simpl in Hsame, Hread. subst s2. by rewrite Hsame, Hdenied. }
  rewrite Hrun. simpl. split; [|done].
  destruct (rateLimit e (client_ip req) s) as [o s1] eqn:Hrl.
  by apply rateLimit_Ok in Hrl as (_ & _ & Hl1 & _).
Qed.

Lemma bulk_assign_requires_leads_update_witness :
  let req := Scenario.request Scenario.employeeE
               (Obj {[ "leadIds" := JStrings ["lead-1"; "lead-2"];
                       "assignedTo" := JStr "e2" ]}) in
  let out := BulkAssignRoute.POST Scenario.env0 req Scenario.store0 in
  leads out.2 = leads Scenario.store0
  /\ status <$> Scenario.answer out = Some 403.
Proof.
  intros req out.
  destruct (bulk_assign_requires_leads_update Scenario.env0 req Scenario.store0
              (Scenario.as_session Scenario.employeeE)) as [Hleads Hout].
  - reflexivity.
  - vm_compute. reflexivity.
  - split; [exact Hleads|]. unfold Scenario.answer.
    change (status <$> match out.1 with Ok resp => Some resp | _ => None end = Some 403).
    subst out. rewrite Hout. reflexivity.
Defined.

(** An employee whose assigned role grants (leads, update) passes the
    gate: the coordinator, whose role is EMPLOYEE, reassigns both leads
    from e1 to e2 and gets a 200. *)
Lemma employee_with_permission_bulk_assigns :
  let req := Scenario.request Scenario.coordinator
               (Obj {[ "leadIds" := JStrings ["lead-1"; "lead-2"];
                       "assignedTo" := JStr "e2" ]}) in
  let out := BulkAssignRoute.POST Scenario.env0 req Scenario.store0 in
  su_role (Scenario.as_session Scenario.coordinator) = EMPLOYEE
  /\ user_role Scenario.coordinator <> ADMIN
  /\ Scenario.answer out = Some {| status := 200; payload := SuccessCount 2 |}
  /\ assignees (leads Scenario.store0) = [Some (JStr "e1"); Some (JStr "e1")]
  /\ assignees (leads out.2) = [Some (JStr "e2"); Some (JStr "e2")].
Proof.
  vm_compute. repeat split; try reflexivity. discriminate.
Qed.

(** ** Listing leads *)

Lemma window_subset skip take (l : list Row) x :
  x ∈ LeadListing.window skip take l -> x ∈ l.
Proof.
  unfold LeadListing.window. case_bool_decide; intros Hx.
  - by apply subseteq_take, subseteq_drop in Hx.
  - apply list_elem_of_In, in_rev, list_elem_of_In in Hx.
    apply subseteq_take, subseteq_drop in Hx.
    by apply list_elem_of_In, in_rev, list_elem_of_In in Hx.
Qed.

Lemma newest_first_subset (l : list Row) x :
  x ∈ LeadListing.newest_first l -> x ∈ l.
Proof.
  unfold LeadListing.newest_first. intros Hx.
  by rewrite merge_sort_Permutation in Hx.
Qed.

(** Every row of a listing satisfies the [where] object of the request. *)
Lemma listing_satisfies unfiltered e req s resp s' data page limit total pages :
  LeadListing.GET_with unfiltered e req s = (Ok resp, s') ->
  payload resp = Listing data page limit total pages ->
  exists w : LeadWhere,
    w_status w = match present (searchParams_get (query req) "status") with
                 | Some st => Some (StatusIs st)
                 | None => unfiltered
                 end
    /\ Forall (fun l => LeadListing.satisfies e w l = true) data
    /\ Forall (fun l => l ∈ leads s) data.
Proof.
  intros Hrun Hpayload. unfold LeadListing.GET_with, try_catch in Hrun.
  destruct (LeadListing.GET_body unfiltered e req s) as [[r|err|] s0] eqn:Hbody;
    [injection Hrun as -> -> | | discriminate].
  2:{ injection Hrun as <- <-. discriminate. }
  unfold LeadListing.GET_body in Hbody.
  destruct (authenticated req) as [u|];
    [|injection Hbody as <- <-; discriminate].
  apply bind_Ok in Hbody as (allowed & s1 & Hrl & Hbody).
  apply rateLimit_Ok in Hrl as (_ & _ & Hl1 & _).
  destruct allowed; simpl in Hbody; [|injection Hbody as <- <-; discriminate].
  apply bind_Ok in Hbody as (found & s2 & Hfind & Hbody).
  apply bind_Ok in Hbody as (n & s3 & _ & Hbody).
  injection Hbody as <- <-. simpl in Hpayload. injection Hpayload as -> _ _ _ _.
  unfold LeadListing.findMany, Prisma.guarded in Hfind.
  destruct (rejects e _); [discriminate|].
  destruct (match parseInt e _ with Some _ => _ | None => _ end) as [sk|];
    [|discriminate].
  destruct (parseInt e (or_else _ "20")) as [tk|]; [|discriminate].
  case_bool_decide; [discriminate|].
  apply gets_Ok in Hfind as [[= ->] _].
  eexists. split; cycle 1.
  - split; apply Forall_forall; intros x Hx;
      apply window_subset, newest_first_subset in Hx;
      apply list_elem_of_In, filter_In in Hx as [Hin Hsat];
      [exact Hsat | rewrite <- Hl1; by apply list_elem_of_In].
  - reflexivity.
Qed.

Lemma satisfies_status e w l f :
  w_status w = Some f -> LeadListing.satisfies e w l = true ->
  LeadListing.status_matches f l = true.
Proof.
  intros Hw Hs. unfold LeadListing.satisfies in Hs. rewrite Hw in Hs. simpl in Hs.
  repeat (apply andb_prop in Hs as [Hs ?]). done.
Qed.

(** C3. Without [status=CONVERTED] in the query, no CONVERTED lead is
    listed: a listing of [app/api/leads/route.ts] contains CONVERTED
    leads only when that status is asked for.  The default clause
    [where.status = { not: 'CONVERTED' }] does it when the request names
    no status, the clause [where.status = status] when it names one. *)
Theorem leads_GET_hides_converted e req s resp s' data page limit total pages :
  LeadsRoute.GET e req s = (Ok resp, s') ->
  payload resp = Listing data page limit total pages ->
  searchParams_get (query req) "status" <> Some "CONVERTED" ->
  Forall (fun l : Row => l !! "status" <> Some (JStr "CONVERTED")) data.
Proof.
  intros Hrun Hpayload Hquery.
  destruct (listing_satisfies _ _ _ _ _ _ _ _ _ _ _ Hrun Hpayload)
    as (w & Hw & Hsat & _).
  eapply Forall_impl; [exact Hsat|]. intros l Hl. simpl in Hl.
  destruct (present _) as [st|] eqn:Hst.
  - pose proof (satisfies_status _ _ _ _ Hw Hl) as Hm. simpl in Hm.
    apply bool_decide_eq_true in Hm. rewrite Hm. intros [= ->].
    apply Hquery. unfold present in Hst.
    destruct (searchParams_get _ _) as [q|]; [|discriminate].
    destruct (String.eqb q EmptyString); [discriminate|]. by injection Hst as ->.
  - pose proof (satisfies_status _ _ _ _ Hw Hl) as Hm. simpl in Hm.
    by apply bool_decide_eq_true in Hm.
Qed.

Lemma leads_GET_hides_converted_witness :
  let req := Scenario.request Scenario.admin NotObject in
  let out := LeadsRoute.GET Scenario.env0 req Scenario.store0 in
  exists data : list Row,
    payload (response_of out) = Listing data (Some 1) (Some 20) 1 (Some 1)
    /\ (fun l => col l "id") <$> data = [JStr "lead-1"]
    /\ Forall (fun l : Row => l !! "status" <> Some (JStr "CONVERTED")) data.
Proof.
  intros req out. exists [Scenario.leadA].
  split; [vm_compute; reflexivity|]. split; [vm_compute; reflexivity|].
  apply (leads_GET_hides_converted Scenario.env0 req Scenario.store0
           (response_of out) out.2 [Scenario.leadA]
           (Some 1) (Some 20) 1%nat (Some 1)).
  - apply returned_eq. vm_compute. reflexivity.
  - vm_compute. reflexivity.
  - vm_compute. discriminate.
Defined.

(** When the status is asked for, the listing holds leads of that
    status only; so CONVERTED leads are there to be had. *)
Lemma leads_GET_lists_the_status_asked_for e req s resp s' st
  data page limit total pages :
  LeadsRoute.GET e req s = (Ok resp, s') ->
  payload resp = Listing data page limit total pages ->
  present (searchParams_get (query req) "status") = Some st ->
  Forall (fun l : Row => l !! "status" = Some (JStr st)) data.
Proof.
  intros Hrun Hpayload Hquery.
  destruct (listing_satisfies _ _ _ _ _ _ _ _ _ _ _ Hrun Hpayload)
    as (w & Hw & Hsat & _).
  rewrite Hquery in Hw.
  eapply Forall_impl; [exact Hsat|]. intros l Hl. simpl in Hl.
  pose proof (satisfies_status _ _ _ _ Hw Hl) as Hm. simpl in Hm.
  by apply bool_decide_eq_true in Hm.
Qed.

(** The earlier revision of the route put no status clause into [where]
    when the request named no status: there an admin's listing without
    query parameters returned lead-2, whose status is CONVERTED, which
    the current revision leaves out. *)
Example earlier_revision_listed_converted :
  let req := Scenario.request Scenario.admin NotObject in
  let listed (r : outcome Response * Store) :=
    match payload <$> Scenario.answer r with
    | Some (Listing data _ _ _ _) =>
        (fun l => (col l "id", col l "status")) <$> data
    | _ => []
    end in
  query req = []
  /\ status <$> Scenario.answer (LeadsRouteEarlier.GET Scenario.env0 req Scenario.store0)
     = Some 200
  /\ listed (LeadsRouteEarlier.GET Scenario.env0 req Scenario.store0)
     = [(JStr "lead-2", JStr "CONVERTED"); (JStr "lead-1", JStr "NEW")]
  /\ listed (LeadsRoute.GET Scenario.env0 req Scenario.store0)
     = [(JStr "lead-1", JStr "NEW")].
Proof. vm_compute. repeat split; reflexivity. Qed.

(** * Further properties of the code *)

(** ** The rate limiter: sweep, isolation, bound *)

Lemma cleanup_lookup now (m : gmap string RateLimit.record) ip :
  RateLimit.cleanup now m !! ip
  = match m !! ip with
    | Some r => if bool_decide (now > RateLimit.resetTime r) then None else Some r
    | None => None
    end.
Proof.
  unfold RateLimit.cleanup. rewrite map_lookup_filter.
  destruct (m !! ip) as [r|]; [|done]. simpl.
  case_bool_decide; [by rewrite option_guard_False by tauto|].
  by rewrite option_guard_True.
Qed.

(** X1. The periodic sweep is invisible to callers: for a request at or
    after the time of the sweep, [rateLimit] gives the same answer on the
    swept map as on the unswept one and leaves the same record for the
    client. *)
Theorem cleanup_is_transparent (now now' : Z) (ip : string) (limit windowMs : Z)
  (m : gmap string RateLimit.record) :
  now <= now' ->
  (RateLimit.rateLimit now' ip limit windowMs (RateLimit.cleanup now m)).1
  = (RateLimit.rateLimit now' ip limit windowMs m).1
  /\ (RateLimit.rateLimit now' ip limit windowMs (RateLimit.cleanup now m)).2 !! ip
     = (RateLimit.rateLimit now' ip limit windowMs m).2 !! ip.
Proof.
  intros Hle. unfold RateLimit.rateLimit. rewrite cleanup_lookup.
  destruct (m !! ip) as [r|] eqn:Hm.
  - case_bool_decide as Hexp.
    + rewrite (bool_decide_eq_true_2 (now' > RateLimit.resetTime r)) by lia.
      simpl. by rewrite !lookup_insert_eq.
    + case_bool_decide; [simpl; by rewrite !lookup_insert_eq|].
      case_bool_decide; simpl.
      * split; [done|]. by rewrite cleanup_lookup, Hm, bool_decide_eq_false_2.
      * by rewrite !lookup_insert_eq.
  - simpl. by rewrite !lookup_insert_eq.
Qed.

Lemma cleanup_is_transparent_witness :
  let m : gmap string RateLimit.record :=
    {[ "10.0.0.1" := {| RateLimit.count := 100; RateLimit.resetTime := 500 |} ]} in
  (RateLimit.rateLimit 700 "10.0.0.1" 100 1000 (RateLimit.cleanup 600 m)).1
  = (RateLimit.rateLimit 700 "10.0.0.1" 100 1000 m).1
  /\ (RateLimit.rateLimit 700 "10.0.0.1" 100 1000 (RateLimit.cleanup 600 m)).2
       !! "10.0.0.1"
     = (RateLimit.rateLimit 700 "10.0.0.1" 100 1000 m).2 !! "10.0.0.1".
Proof.
  intros m. apply (cleanup_is_transparent 600 700 "10.0.0.1" 100 1000 m). lia.
Defined.

(** X2. Clients are counted apart: a request of one client leaves the
    record of every other client as it was. *)
Theorem rateLimit_other_clients (now : Z) (ip ip' : string) (limit windowMs : Z)
  (m : gmap string RateLimit.record) :
  ip <> ip' ->
  (RateLimit.rateLimit now ip limit windowMs m).2 !! ip' = m !! ip'.
Proof.
  intros Hne. unfold RateLimit.rateLimit.
  destruct (m !! ip) as [r|]; [|simpl; by rewrite lookup_insert_ne].
  repeat case_bool_decide; simpl; by rewrite ?lookup_insert_ne.
Qed.

Lemma rateLimit_other_clients_witness :
  let m : gmap string RateLimit.record :=
    {[ "10.0.0.2" := {| RateLimit.count := 99; RateLimit.resetTime := 500 |} ]} in
  (RateLimit.rateLimit 100 "10.0.0.1" 100 1000 m).2 !! "10.0.0.2" = m !! "10.0.0.2".
Proof.
  intros m. apply (rateLimit_other_clients 100 "10.0.0.1" "10.0.0.2" 100 1000 m).
  discriminate.
Defined.

(** X3. With a limit of at least 1, the counter of a client stays
    between 1 and the limit: if every stored record is, so is every
    record after a request, and an answer of false leaves the map
    untouched. *)
Theorem rateLimit_count_bounded (now : Z) (ip : string) (limit windowMs : Z)
  (m : gmap string RateLimit.record) :
  1 <= limit ->
  map_Forall (fun _ r => 1 <= RateLimit.count r <= limit) m ->
  map_Forall (fun _ r => 1 <= RateLimit.count r <= limit)
    (RateLimit.rateLimit now ip limit windowMs m).2
  /\ ((RateLimit.rateLimit now ip limit windowMs m).1 = false ->
      (RateLimit.rateLimit now ip limit windowMs m).2 = m).
Proof.
  intros Hlimit Hm. unfold RateLimit.rateLimit.
  destruct (m !! ip) as [r|] eqn:Hr.
  - pose proof (Hm _ _ Hr) as Hcount. simpl in Hcount.
    repeat case_bool_decide; simpl; (split; [|done]);
      try (apply map_Forall_insert_2; [simpl; lia|done]); done.
  - simpl. split; [|done]. apply map_Forall_insert_2; [simpl; lia|done].
Qed.

Lemma rateLimit_count_bounded_witness :
  let m : gmap string RateLimit.record :=
    {[ "10.0.0.1" := {| RateLimit.count := 2; RateLimit.resetTime := 500 |} ]} in
  map_Forall (fun _ r => 1 <= RateLimit.count r <= 2)
    (RateLimit.rateLimit 100 "10.0.0.1" 2 1000 m).2
  /\ ((RateLimit.rateLimit 100 "10.0.0.1" 2 1000 m).1 = false ->
      (RateLimit.rateLimit 100 "10.0.0.1" 2 1000 m).2 = m).
Proof.
  intros m. apply (rateLimit_count_bounded 100 "10.0.0.1" 2 1000 m).
  - lia.
  - apply map_Forall_singleton. simpl. lia.
Defined.

(** ** The permission checker on a known user *)

(** X4. For a user that exists, [hasPermission] answers true exactly
    when the user's role is ADMIN or one of the assigned roles carries a
    permission whose module and action both equal the ones asked for;
    [requirePermission] returns in that case and throws 'Insufficient
    permissions' otherwise.  Neither touches the store. *)
Theorem hasPermission_decides (userId module action : string) (s : Store) (usr : User) :
  find (fun u => String.eqb (user_id u) userId) (users s) = Some usr ->
  let granted : Prop :=
    user_role usr = ADMIN
    \/ exists ra p, ra ∈ roleAssignments usr /\ p ∈ permissions ra
         /\ perm_module p = module /\ perm_action p = action in
  exists b : bool,
    (b = true <-> granted)
    /\ hasPermission userId module action s = (Ok b, s)
    /\ requirePermission userId module action s
       = (if b then Ok tt else Throw (JsError "Insufficient permissions"), s).
Proof.
  intros Hfind granted.
  set (b := bool_decide (user_role usr = ADMIN)
            || existsb (fun ra =>
                 existsb (fun rp =>
                    String.eqb (perm_module rp) module
                    && String.eqb (perm_action rp) action)
                   (permissions ra))
                 (roleAssignments usr)).
  assert (Hhas : hasPermission userId module action s = (Ok b, s)).
  { unfold hasPermission, bind, Prisma.user_findUnique, gets. rewrite Hfind.
    subst b. by destruct (bool_decide (user_role usr = ADMIN)). }
  exists b. split; [|split; [exact Hhas|]].
  - subst b granted. rewrite orb_true_iff, bool_decide_eq_true, existsb_exists.
    split; (intros [Hadmin|Hrole]; [by left|right]).
    + destruct Hrole as (ra & Hra & Hp). apply existsb_exists in Hp as (p & Hp & Heq).
      apply andb_prop in Heq as [Hm Ha].
      apply String.eqb_eq in Hm, Ha.
      exists ra, p. by rewrite <- !list_elem_of_In in *.
    + destruct Hrole as (ra & p & Hra & Hp & Hm & Ha).
      exists ra. split; [by apply list_elem_of_In|].
      apply existsb_exists. exists p. split; [by apply list_elem_of_In|].
      apply andb_true_intro. split; by apply String.eqb_eq.
  - unfold requirePermission, bind. rewrite Hhas. by destruct b.
Qed.

Lemma hasPermission_decides_witness :
  exists b : bool,
    (b = true <->
       (user_role Scenario.coordinator = ADMIN
        \/ exists ra p, ra ∈ roleAssignments Scenario.coordinator
             /\ p ∈ permissions ra
             /\ perm_module p = "leads" /\ perm_action p = "delete"))
    /\ hasPermission "e3" "leads" "delete" Scenario.store0 = (Ok b, Scenario.store0)
    /\ requirePermission "e3" "leads" "delete" Scenario.store0
       = (if b then Ok tt else Throw (JsError "Insufficient permissions"),
          Scenario.store0).
Proof.
  apply (hasPermission_decides "e3" "leads" "delete" Scenario.store0
           Scenario.coordinator).
  reflexivity.
Defined.

(** The coordinator may update leads but not delete them: the pair is
    matched as a whole. *)
Example coordinator_permissions :
  (hasPermission "e3" "leads" "update" Scenario.store0).1 = Ok true
  /\ (hasPermission "e3" "leads" "delete" Scenario.store0).1 = Ok false
  /\ (hasPermission "e3" "users" "update" Scenario.store0).1 = Ok false.
Proof. vm_compute. repeat split; reflexivity. Qed.

(** ** Which answers can have written to the database *)

Lemma bind_Throw {A B} (m : M A) (k : A -> M B) s err s' :
  bind m k s = (Throw err, s') ->
  m s = (Throw err, s')
  \/ exists a s1, m s = (Ok a, s1) /\ k a s1 = (Throw err, s').
Proof.
  unfold bind. destruct (m s) as [[a|err'|] s1]; [eauto | | discriminate].
  injection 1 as -> ->. by left.
Qed.

Lemma database_fields s1 s2 :
  database s1 = database s2 <->
  users s1 = users s2 /\ leads s1 = leads s2 /\ orders s1 = orders s2
  /\ payments s1 = payments s2 /\ auditLogs s1 = auditLogs s2
  /\ notifications s1 = notifications s2.
Proof.
  unfold database, set_rateLimitMap. split.
  - by injection 1 as -> -> -> -> -> ->.
  - intros (-> & -> & -> & -> & -> & ->). done.
Qed.

Lemma rateLimit_database e ip s (o : outcome bool) s1 :
  rateLimit e ip s = (o, s1) -> (exists b, o = Ok b) /\ database s1 = database s.
Proof.
  unfold rateLimit. destruct (RateLimit.rateLimit _ _ _ _ _) as [b m].
  injection 1 as <- <-. split; [eauto|done].
Qed.

Lemma quiet_never_throws {A} (m : M A) s err s1 :
  quiet m -> m s <> (Throw err, s1).
Proof.
  intros Hq E. destruct (Hq s) as (a & s' & E' & _). congruence.
Qed.

Lemma guarded_Throw {A} e c (m : M A) s err s' :
  Prisma.guarded e c m s = (Throw err, s') ->
  (rejects e c = true /\ err = PrismaError /\ s' = s)
  \/ (rejects e c = false /\ m s = (Throw err, s')).
Proof.
  unfold Prisma.guarded. destruct (rejects e c); [|by right].
  injection 1 as <- <-. by left.
Qed.

Lemma order_create_Throw e data s err s' :
  Prisma.order_create e data s = (Throw err, s') ->
  rejects e (OrderCreate data) = true /\ err = PrismaError /\ s' = s.
Proof.
  intros H. apply guarded_Throw in H as [H|[_ H]]; [done|discriminate].
Qed.

Lemma payment_create_Throw e data s err s' :
  Prisma.payment_create e data s = (Throw err, s') ->
  rejects e (PaymentCreate data) = true /\ err = PrismaError /\ s' = s.
Proof.
  intros H. apply guarded_Throw in H as [H|[_ H]]; [done|discriminate].
Qed.

Lemma lead_update_Throw e id data s err s' :
  Prisma.lead_update e id data s = (Throw err, s') ->
  err = PrismaError /\ s' = s.
Proof.
  intros H. apply guarded_Throw in H as [(_ & -> & ->)|[_ H]]; [done|].
  unfold bind, Prisma.lead_findUnique, gets, modify, throw in H.
  destruct (find _ _); [discriminate|]. by injection H as <- <-.
Qed.

Lemma order_update_Throw e id data s err s' :
  Prisma.order_update e id data s = (Throw err, s') ->
  err = PrismaError /\ s' = s.
Proof.
  intros H. apply guarded_Throw in H as [(_ & -> & ->)|[_ H]]; [done|].
  unfold bind, Prisma.order_findUnique, gets, modify, throw in H.
  destruct (find _ _); [discriminate|]. by injection H as <- <-.
Qed.

Lemma lead_updateMany_Throw e ids data s err s' :
  Prisma.lead_updateMany e ids data s = (Throw err, s') ->
  err = PrismaError /\ s' = s.
Proof.
  intros H. apply guarded_Throw in H as [(_ & -> & ->)|[_ H]]; [done|].
  discriminate.
Qed.

Lemma parse_Throw schema b s err s' :
  Zod.parse schema b s = (Throw err, s') ->
  err = ZodError /\ s' = s /\ Zod.safeParse schema b = None.
Proof.
  unfold Zod.parse. destruct (Zod.safeParse schema b); [discriminate|].
  by injection 1 as <- <-.
Qed.

Lemma req_json_Throw req s err s' :
  req_json req s = (Throw err, s') -> err = SyntaxError /\ s' = s.
Proof.
  unfold req_json. destruct (body req); [|discriminate|discriminate].
  by injection 1 as <- <-.
Qed.

(** X5. The order route writes to the database only on the way to a 201
    or a 500: after any other answer (400, 401, 404, 429) every table
    is as it was, and after a 401 so is the rate-limit map. *)
Theorem order_POST_rejections_write_nothing e req s resp s' :
  OrdersRoute.POST e req s = (Ok resp, s') ->
  status resp <> 201 ->
  status resp <> 500 ->
  database s' = database s /\ (status resp = 401 -> s' = s).
Proof.
  intros Hrun H201 H500. unfold OrdersRoute.POST, try_catch in Hrun.
  destruct (OrdersRoute.POST_body e req s) as [[r|err|] s0] eqn:Hbody;
    [injection Hrun as -> -> | | discriminate].
  - unfold OrdersRoute.POST_body in Hbody.
    destruct (authenticated req) as [u|];
      [|injection Hbody as <- <-; by split].
    apply bind_Ok in Hbody as (allowed & s1 & Hrl & Hbody).
    apply rateLimit_database in Hrl as (_ & Hdb).
    destruct allowed; simpl in Hbody;
      [|injection Hbody as <- <-; split; [done|discriminate]].
    apply bind_Ok in Hbody as (b & s2 & Hjson & Hbody).
    apply req_json_Ok in Hjson as [-> ->].
    apply bind_Ok in Hbody as (data & s2 & Hparse & Hbody).
    apply parse_Ok in Hparse as [Hparse ->].
    apply bind_Ok in Hbody as (lead & s2 & Hlead & Hbody).
    apply gets_Ok in Hlead as [[= ->] ->].
    destruct (find _ (leads s1)) as [lead|];
      [|injection Hbody as <- <-; split; [done|discriminate]].
    apply bind_Ok in Hbody as (? & ? & _ & Hbody).
    apply bind_Ok in Hbody as (? & ? & _ & Hbody).
    apply bind_Ok in Hbody as (? & ? & _ & Hbody).
    apply bind_Ok in Hbody as (? & ? & _ & Hbody).
    apply bind_Ok in Hbody as (? & ? & _ & Hbody).
    apply bind_Ok in Hbody as (? & ? & _ & Hbody).
    injection Hbody as <- <-. done.
  - assert (err = ZodError) as ->
      by (destruct err; injection Hrun as <- _; done).
    injection Hrun as <- <-. split; [|discriminate].
    unfold OrdersRoute.POST_body in Hbody.
    destruct (authenticated req) as [u|]; [|discriminate].
    apply bind_Throw in Hbody as [Hrl|(allowed & s1 & Hrl & Hbody)];
      [by apply rateLimit_database in Hrl as [[? ?] _]|].
    apply rateLimit_database in Hrl as (_ & Hdb).
    destruct allowed; simpl in Hbody; [|discriminate].
    apply bind_Throw in Hbody as [Hjson|(b & s2 & Hjson & Hbody)];
      [by apply req_json_Throw in Hjson as [? _]|].
    apply req_json_Ok in Hjson as [-> ->].
    apply bind_Throw in Hbody as [Hparse|(data & s2 & Hparse & Hbody)];
      [by apply parse_Throw in Hparse as (_ & -> & _)|].
    apply parse_Ok in Hparse as [Hparse ->].
    apply bind_Throw in Hbody as [Hlead|(lead & s2 & Hlead & Hbody)];
      [by apply gets_Ok in Hlead as [? _]|].
    apply gets_Ok in Hlead as [[= ->] ->].
    destruct (find _ (leads s1)) as [lead|]; [|discriminate].
    apply bind_Throw in Hbody as [Hnum|(n & s2 & Hnum & Hbody)];
      [by apply fresh_orderNumber_spec in Hnum as (_ & Hno & _); destruct (Hno ZodError)|].
    apply bind_Throw in Hbody as [Hc|(order & s3 & Hc & Hbody)];
      [by apply order_create_Throw in Hc as (_ & ? & _)|].
    apply bind_Throw in Hbody as [Hp|(x & s4 & Hp & Hbody)].
    { destruct (num_gt _ _); [|discriminate].
      apply bind_Throw in Hp as [Hp|(? & ? & _ & ?)]; [|discriminate].
      by apply payment_create_Throw in Hp as (_ & ? & _). }
    apply bind_Throw in Hbody as [Hu|(x' & s5 & Hu & Hbody)];
      [by apply lead_update_Throw in Hu as [? _]|].
    apply bind_Throw in Hbody as [Ha|(x'' & s6 & Ha & Hbody)];
      [by apply (quiet_never_throws _ _ _ _ (quiet_createAuditLog _ _ _ _ _ _ _ _ _)) in Ha|].
    apply bind_Throw in Hbody as [Hn|(x''' & s7 & Hn & Hbody)];
      [by apply (quiet_never_throws _ _ _ _ (quiet_order_created _ _ _ _ _ _)) in Hn|].
    discriminate.
Qed.

Lemma order_POST_rejections_write_nothing_witness :
  let req := Scenario.request Scenario.employeeE (Scenario.conversion "lead-9" 2000) in
  let out := OrdersRoute.POST Scenario.env0 req Scenario.store0 in
  database out.2 = database Scenario.store0
  /\ (status (response_of out) = 401 -> out.2 = Scenario.store0).
Proof.
  intros req out.
  apply (order_POST_rejections_write_nothing Scenario.env0 req Scenario.store0
           (response_of out) out.2).
  - vm_compute. reflexivity.
  - vm_compute. discriminate.
  - vm_compute. discriminate.
Defined.

(** X6. The order update writes to the database only on the way to a
    200 or a 500: after a 400, 401, 403, 404 or 429 every table is as it
    was, and after a 401 so is the rate-limit map. *)
Theorem order_PATCH_rejections_write_nothing e req id s resp s' :
  OrderIdRoute.PATCH e req id s = (Ok resp, s') ->
  status resp <> 200 ->
  status resp <> 500 ->
  database s' = database s /\ (status resp = 401 -> s' = s).
Proof.
  intros Hrun H200 H500. unfold OrderIdRoute.PATCH, try_catch in Hrun.
  destruct (OrderIdRoute.PATCH_body e req id s) as [[r|err|] s0] eqn:Hbody;
    [injection Hrun as -> -> | | discriminate].
  - unfold OrderIdRoute.PATCH_body in Hbody.
    destruct (authenticated req) as [u|];
      [|injection Hbody as <- <-; by split].
    apply bind_Ok in Hbody as (allowed & s1 & Hrl & Hbody).
    apply rateLimit_database in Hrl as (_ & Hdb).
    destruct allowed; simpl in Hbody;
      [|injection Hbody as <- <-; split; [done|discriminate]].
    apply bind_Ok in Hbody as (existing & s2 & Hfind & Hbody).
    apply gets_Ok in Hfind as [[= ->] ->].
    destruct (find _ (orders s1)) as [existingOrder|];
      [|injection Hbody as <- <-; split; [done|discriminate]].
    destruct (_ && _);
      [injection Hbody as <- <-; split; [done|discriminate]|].
    apply bind_Ok in Hbody as (? & ? & _ & Hbody).
    apply bind_Ok in Hbody as (? & ? & _ & Hbody).
    apply bind_Ok in Hbody as (? & ? & _ & Hbody).
    apply bind_Ok in Hbody as (? & ? & _ & Hbody).
    apply bind_Ok in Hbody as (? & ? & _ & Hbody).
    apply bind_Ok in Hbody as (? & ? & _ & Hbody).
    injection Hbody as <- <-. done.
  - assert (err = ZodError) as ->
      by (destruct err; injection Hrun as <- _; done).
    injection Hrun as <- <-. split; [|discriminate].
    unfold OrderIdRoute.PATCH_body in Hbody.
    destruct (authenticated req) as [u|]; [|discriminate].
    apply bind_Throw in Hbody as [Hrl|(allowed & s1 & Hrl & Hbody)];
      [by apply rateLimit_database in Hrl as [[? ?] _]|].
    apply rateLimit_database in Hrl as (_ & Hdb).
    destruct allowed; simpl in Hbody; [|discriminate].
    apply bind_Throw in Hbody as [Hfind|(existing & s2 & Hfind & Hbody)];
      [by apply gets_Ok in Hfind as [? _]|].
    apply gets_Ok in Hfind as [[= ->] ->].
    destruct (find _ (orders s1)) as [existingOrder|]; [|discriminate].
    destruct (_ && _); [discriminate|].
    apply bind_Throw in Hbody as [Hjson|(b & s2 & Hjson & Hbody)];
      [by apply req_json_Throw in Hjson as [? _]|].
    apply req_json_Ok in Hjson as [-> ->].
    apply bind_Throw in Hbody as [Hparse|(data & s2 & Hparse & Hbody)];
      [by apply parse_Throw in Hparse as (_ & -> & _)|].
    apply parse_Ok in Hparse as [Hparse ->].
    apply bind_Throw in Hbody as [Hp|(x & s4 & Hp & Hbody)].
    { unfold OrderIdRoute.when in Hp.
      destruct (OrderIdRoute.payment_increase _ _); [|discriminate].
      apply bind_Throw in Hp as [Hp|(? & ? & _ & ?)]; [|discriminate].
      by apply payment_create_Throw in Hp as (_ & ? & _). }
    apply bind_Throw in Hbody as [Hu|(x' & s5 & Hu & Hbody)];
      [by apply order_update_Throw in Hu as [? _]|].
    apply bind_Throw in Hbody as [Ha|(x'' & s6 & Ha & Hbody)];
      [by apply (quiet_never_throws _ _ _ _ (quiet_createAuditLog _ _ _ _ _ _ _ _ _)) in Ha|].
    apply bind_Throw in Hbody as [Hn|(x''' & s7 & Hn & Hbody)];
      [by apply (quiet_never_throws _ _ _ _ (quiet_order_updated _ _ _ _ _)) in Hn|].
    discriminate.
Qed.

Lemma order_PATCH_rejections_write_nothing_witness :
  let req := Scenario.request Scenario.employeeF (Obj {[ "notes" := JStr "mine now" ]}) in
  let out := OrderIdRoute.PATCH Scenario.env0 req "order-1" Scenario.store0 in
  status (response_of out) = 403
  /\ database out.2 = database Scenario.store0.
Proof.
  intros req out. split; [vm_compute; reflexivity|].
  apply (order_PATCH_rejections_write_nothing Scenario.env0 req "order-1"
           Scenario.store0 (response_of out) out.2).
  - vm_compute. reflexivity.
  - vm_compute. discriminate.
  - vm_compute. discriminate.
Defined.


(** ** Bulk assignment, when it goes through *)

(** The catch clause [error.message === 'Insufficient permissions'],
    as a test on the message. *)
Lemma insufficient_match {T} (a c : T) (msg : string) :
  match msg with
  | "Insufficient permissions" => a
  | _ => c
  end
  = if String.eqb msg "Insufficient permissions" then a else c.
Proof.
  repeat (destruct msg as [|[b0 b1 b2 b3 b4 b5 b6 b7] msg]; [reflexivity|];
          destruct b0; try reflexivity; destruct b1; try reflexivity;
          destruct b2; try reflexivity; destruct b3; try reflexivity;
          destruct b4; try reflexivity; destruct b5; try reflexivity;
          destruct b6; try reflexivity; destruct b7; try reflexivity).
Qed.

Lemma bulkAssignSchema_parsed b data :
  Zod.safeParse BulkAssignRoute.bulkAssignSchema b = Some data ->
  exists fields ids target,
    b = Obj fields
    /\ fields !! "leadIds" = Some (JStrings ids)
    /\ fields !! "assignedTo" = Some (JStr target)
    /\ target <> EmptyString
    /\ BulkAssignRoute.leadIds_of data = ids
    /\ template (col data "assignedTo") = target.
Proof.
  destruct b as [| |fields]; [discriminate|discriminate|]. simpl.
  destruct (fields !! "leadIds") as [[| | | | |ids|]|] eqn:Hids; try discriminate.
  simpl. destruct (fields !! "assignedTo") as [[| | |target| | |]|] eqn:Ht;
    try discriminate.
  simpl. destruct (String.eqb_spec target EmptyString) as [|Hne]; [discriminate|].
  simpl. injection 1 as <-. exists fields, ids, target.
  repeat split; try done.
Qed.

(** The audit entries of a loop over lead ids: one per id, in order, the
    rejected ones missing. *)
Lemma for_each_audit e (mk : string -> AuditLog) (ids : list string) s :
  for_each ids (fun leadId =>
    createAuditLog e (al_userId (mk leadId)) (al_action (mk leadId))
      (al_entityType (mk leadId)) (al_entityId (mk leadId))
      (al_changes (mk leadId)) (al_description (mk leadId))
      (al_ipAddress (mk leadId)) (al_userAgent (mk leadId))) s
  = (Ok tt,
     set_auditLogs (fun l =>
       l ++ List.filter (fun a => negb (rejects e (AuditLogCreate a))) (map mk ids)) s).
Proof.
  revert s. induction ids as [|i ids IH]; intros s.
  - simpl. unfold ret. f_equal. destruct s; unfold set_auditLogs; simpl.
    by rewrite app_nil_r.
  - cbn [for_each]. unfold bind. rewrite createAuditLog_returns.
    assert (Hmk : {| al_userId := al_userId (mk i); al_action := al_action (mk i);
                     al_entityType := al_entityType (mk i);
                     al_entityId := al_entityId (mk i);
                     al_changes := al_changes (mk i);
                     al_description := al_description (mk i);
                     al_ipAddress := al_ipAddress (mk i);
                     al_userAgent := al_userAgent (mk i) |} = mk i)
      by (by destruct (mk i)).
    rewrite Hmk. rewrite IH. f_equal. simpl.
    destruct (rejects e (AuditLogCreate (mk i))); simpl; [done|].
    destruct s; unfold set_auditLogs; simpl. by rewrite <- app_assoc.
Qed.

(** X8. A bulk assignment answered with 200 was sent by a caller holding
    (leads, update) and names an existing user.  Every lead whose id is
    in [leadIds] is then assigned to that user and every other lead is
    untouched; the answer counts the leads that matched; and the audit
    log has received one ASSIGN entry per requested id, in the order of
    the request, whether or not a lead carries that id (entries the
    audit store rejected are missing). *)
Theorem bulk_assign_effect e req s resp s' :
  BulkAssignRoute.POST e req s = (Ok resp, s') ->
  status resp = 200 ->
  exists (u : SessionUser) (fields : Row) (ids : list string) (target : string)
         (targetUser : User),
    authenticated req = Some u
    /\ (hasPermission (su_id u) "leads" "update" s).1 = Ok true
    /\ body req = Obj fields
    /\ fields !! "leadIds" = Some (JStrings ids)
    /\ fields !! "assignedTo" = Some (JStr target)
    /\ find (fun usr => String.eqb (user_id usr) target) (users s) = Some targetUser
    /\ leads s'
       = map (fun r : Row =>
                if Prisma.in_ids ids r then <["assignedTo" := JStr target]> r else r)
             (leads s)
    /\ payload resp
       = SuccessCount (length (List.filter (Prisma.in_ids ids) (leads s)))
    /\ auditLogs s'
       = auditLogs s
         ++ List.filter (fun a => negb (rejects e (AuditLogCreate a)))
              (map (fun leadId =>
                 {| al_userId := su_id u; al_action := ASSIGN;
                    al_entityType := "Lead"; al_entityId := leadId;
                    al_changes :=
                      Some (ChangesData {["assignedTo" := JStr target]});
                    al_description :=
                      Some ("Bulk assigned lead to " +:+ user_name targetUser);
                    al_ipAddress := Some (client_ip req);
                    al_userAgent := or_undefined (userAgent req) |}) ids)
    /\ users s' = users s /\ orders s' = orders s /\ payments s' = payments s
    /\ notifications s' = notifications s.
Proof.
  intros Hrun H200. unfold BulkAssignRoute.POST, try_catch in Hrun.
  destruct (BulkAssignRoute.POST_body e req s) as [[r|err|] s0] eqn:Hbody;
    [injection Hrun as -> -> | | discriminate].
  2:{ destruct err as [| | |msg]; try (injection Hrun as <- <-; discriminate).
      rewrite insufficient_match in Hrun.
      destruct (String.eqb msg "Insufficient permissions");
        injection Hrun as <- <-; discriminate. }
  unfold BulkAssignRoute.POST_body in Hbody.
  destruct (authenticated req) as [u|] eqn:Hauth;
    [|injection Hbody as <- <-; discriminate].
  apply bind_Ok in Hbody as (allowed & s1 & Hrl & Hbody).
  apply rateLimit_database in Hrl as (_ & Hdb).
  apply database_fields in Hdb as (Hu1 & Hl1 & Ho1 & Hp1 & Ha1 & Hn1).
  destruct allowed; simpl in Hbody; [|injection Hbody as <- <-; discriminate].
  apply bind_Ok in Hbody as (x & s2 & Hperm & Hbody).
  assert (Hgranted : (hasPermission (su_id u) "leads" "update" s).1 = Ok true
                     /\ s2 = s1).
  { unfold requirePermission, bind in Hperm.
    pose proof (hasPermission_users (su_id u) "leads" "update" s1 s Hu1) as Hsame.
    pose proof (hasPermission_reads (su_id u) "leads" "update" s1) as Hread.
    destruct (hasPermission (su_id u) "leads" "update" s1) as [[b|err|] s3];
      simpl in *; try discriminate.
    subst s3. destruct b; simpl in Hperm; [|discriminate].
    injection Hperm as _ <-. by rewrite <- Hsame. }
  destruct Hgranted as [Hgranted ->].
  apply bind_Ok in Hbody as (b & s2 & Hjson & Hbody).
  apply req_json_Ok in Hjson as [-> ->].
  apply bind_Ok in Hbody as (data & s2 & Hparse & Hbody).
  apply parse_Ok in Hparse as [Hparse ->].
  destruct (bulkAssignSchema_parsed _ _ Hparse)
    as (fields & ids & target & Hfields & Hids & Htarget & _ & Hids' & Htarget').
  rewrite Hids', Htarget' in Hbody.
  apply bind_Ok in Hbody as (found & s2 & Hfind & Hbody).
  apply gets_Ok in Hfind as [[= ->] ->].
  destruct (find _ (users s1)) as [targetUser|] eqn:Huser;
    [|injection Hbody as <- <-; discriminate].
  apply bind_Ok in Hbody as (n & s2 & Hmany & Hbody).
  unfold Prisma.lead_updateMany, Prisma.guarded in Hmany.
  destruct (rejects e _); [discriminate|].
  unfold bind, gets, modify, ret in Hmany. injection Hmany as <- <-.
  apply bind_Ok in Hbody as (x' & s3 & Haudit & Hbody).
  match type of Haudit with
  | for_each _ _ ?st = _ =>
      pose proof (for_each_audit e (fun leadId =>
             {| al_userId := su_id u; al_action := ASSIGN;
                al_entityType := "Lead"; al_entityId := leadId;
                al_changes := Some (ChangesData {["assignedTo" := JStr target]});
                al_description :=
                  Some ("Bulk assigned lead to " +:+ user_name targetUser);
                al_ipAddress := Some (client_ip req);
                al_userAgent := or_undefined (userAgent req) |}) ids st) as Hfe
  end.
  cbn [al_userId al_action al_entityType al_entityId al_changes al_description
       al_ipAddress al_userAgent] in Hfe.
  rewrite Hfe in Haudit. clear Hfe.
  injection Haudit as _ <-. injection Hbody as <- <-.
  exists u, fields, ids, target, targetUser. simpl.
  rewrite <- Hu1, <- Hl1, <- Ho1, <- Hp1, <- Ha1, <- Hn1.
  repeat (split; [done|]).
  split; [|done].
  apply map_ext. intros r. destruct (Prisma.in_ids ids r); [|done].
  by rewrite insert_union_singleton_l.
Qed.

Lemma bulk_assign_effect_witness :
  let req := Scenario.request Scenario.coordinator
               (Obj {[ "leadIds" := JStrings ["lead-2"; "lead-7"];
                       "assignedTo" := JStr "e2" ]}) in
  let out := BulkAssignRoute.POST Scenario.env0 req Scenario.store0 in
  payload (response_of out) = SuccessCount 1
  /\ length (auditLogs out.2) = 2%nat.
Proof.
  intros req out.
  destruct (bulk_assign_effect Scenario.env0 req Scenario.store0
              (response_of out) out.2)
    as (u & fields & ids & target & targetUser & _ & _ & Hbody & Hids & _ & _ & _
        & Hpayload & Haudit & _).
  - vm_compute. reflexivity.
  - vm_compute. reflexivity.
  - injection Hbody as <-. vm_compute in Hids. injection Hids as <-.
    split; [rewrite Hpayload; vm_compute; reflexivity|].
    rewrite Haudit. vm_compute. reflexivity.
Defined.

Lemma requirePermission_Throw userId module action s err s' :
  requirePermission userId module action s = (Throw err, s') ->
  err = JsError "Insufficient permissions" /\ s' = s.
Proof.
  unfold requirePermission, bind.
  pose proof (hasPermission_reads userId module action s) as Hread.
  destruct (hasPermission userId module action s) as [[b|e0|] s1] eqn:Hhas;
    simpl in Hread; subst s1.
  - destruct b; simpl; [discriminate|]. by injection 1 as <- <-.
  - exfalso. unfold hasPermission, bind, Prisma.user_findUnique, gets in Hhas.
    destruct (find _ _); [destruct (bool_decide _)|]; discriminate.
  - discriminate.
Qed.

(** X9. Bulk assignment is all or nothing: whatever the answer is, if it
    is not 200 the database is as it was (the only write that can fail,
    [updateMany], fails as a whole, and the audit entries written after
    it cannot fail the request). *)
Theorem bulk_assign_all_or_nothing e req s resp s' :
  BulkAssignRoute.POST e req s = (Ok resp, s') ->
  status resp <> 200 ->
  database s' = database s.
Proof.
  intros Hrun H200. unfold BulkAssignRoute.POST, try_catch in Hrun.
  destruct (BulkAssignRoute.POST_body e req s) as [[r|err|] s0] eqn:Hbody;
    [injection Hrun as -> -> | | discriminate].
  - unfold BulkAssignRoute.POST_body in Hbody.
    destruct (authenticated req) as [u|]; [|by injection Hbody as <- <-].
    apply bind_Ok in Hbody as (allowed & s1 & Hrl & Hbody).
    apply rateLimit_database in Hrl as (_ & Hdb).
    destruct allowed; simpl in Hbody; [|by injection Hbody as <- <-].
    apply bind_Ok in Hbody as (x & s2 & Hperm & Hbody).
    assert (s2 = s1) as ->.
    { unfold requirePermission, bind in Hperm.
      pose proof (hasPermission_reads (su_id u) "leads" "update" s1) as Hread.
      destruct (hasPermission _ _ _ s1) as [[b| |] s3]; simpl in *;
        try discriminate.
      destruct b; simpl in Hperm; [|discriminate]. injection Hperm as _ <-. done. }
    apply bind_Ok in Hbody as (b & s2 & Hjson & Hbody).
    apply req_json_Ok in Hjson as [-> ->].
    apply bind_Ok in Hbody as (data & s2 & Hparse & Hbody).
    apply parse_Ok in Hparse as [Hparse ->].
    apply bind_Ok in Hbody as (found & s2 & Hfind & Hbody).
    apply gets_Ok in Hfind as [[= ->] ->].
    destruct (find _ (users s1)); [|by injection Hbody as <- <-].
    apply bind_Ok in Hbody as (? & ? & _ & Hbody).
    apply bind_Ok in Hbody as (? & ? & _ & Hbody).
    injection Hbody as <- <-. done.
  - assert (s' = s0) as ->.
    { destruct err as [| | |msg]; try (by injection Hrun as _ <-).
      rewrite insufficient_match in Hrun.
      destruct (String.eqb msg "Insufficient permissions");
        by injection Hrun as _ <-. }
    clear Hrun.
    unfold BulkAssignRoute.POST_body in Hbody.
    destruct (authenticated req) as [u|]; [|discriminate].
    apply bind_Throw in Hbody as [Hrl|(allowed & s1 & Hrl & Hbody)];
      [by apply rateLimit_database in Hrl as [[? ?] _]|].
    apply rateLimit_database in Hrl as (_ & Hdb).
    destruct allowed; simpl in Hbody; [|discriminate].
    apply bind_Throw in Hbody as [Hperm|(x & s2 & Hperm & Hbody)];
      [by apply requirePermission_Throw in Hperm as [_ ->]|].
    assert (s2 = s1) as ->.
    { unfold requirePermission, bind in Hperm.
      pose proof (hasPermission_reads (su_id u) "leads" "update" s1) as Hread.
      destruct (hasPermission _ _ _ s1) as [[b| |] s3]; simpl in *;
        try discriminate.
      destruct b; simpl in Hperm; [|discriminate]. injection Hperm as _ <-. done. }
    apply bind_Throw in Hbody as [Hjson|(b & s2 & Hjson & Hbody)];
      [by apply req_json_Throw in Hjson as [_ ->]|].
    apply req_json_Ok in Hjson as [-> ->].
    apply bind_Throw in Hbody as [Hparse|(data & s2 & Hparse & Hbody)];
      [by apply parse_Throw in Hparse as (_ & -> & _)|].
    apply parse_Ok in Hparse as [Hparse ->].
    apply bind_Throw in Hbody as [Hfind|(found & s2 & Hfind & Hbody)];
      [by apply gets_Ok in Hfind as [? _]|].
    apply gets_Ok in Hfind as [[= ->] ->].
    destruct (find _ (users s1)); [|discriminate].
    apply bind_Throw in Hbody as [Hmany|(n & s2 & Hmany & Hbody)];
      [by apply lead_updateMany_Throw in Hmany as [_ ->]|].
    apply bind_Throw in Hbody as [Ha|(? & ? & _ & ?)]; [|discriminate].
    exfalso. revert Ha. apply quiet_never_throws.
    apply quiet_for_each. intros ?. apply quiet_createAuditLog.
Qed.

Lemma bulk_assign_all_or_nothing_witness :
  let req := Scenario.request Scenario.admin
               (Obj {[ "leadIds" := JStrings ["lead-1"];
                       "assignedTo" := JStr "nobody" ]}) in
  let out := BulkAssignRoute.POST Scenario.env0 req Scenario.store0 in
  status (response_of out) = 404
  /\ database out.2 = database Scenario.store0.
Proof.
  intros req out. split; [vm_compute; reflexivity|].
  apply (bulk_assign_all_or_nothing Scenario.env0 req Scenario.store0
           (response_of out) out.2).
  - vm_compute. reflexivity.
  - vm_compute. discriminate.
Defined.



(** ** What a 500 can leave behind *)





(** ** Side effects are best effort *)

Lemma forget_logs_intro s1 s2 :
  users s1 = users s2 -> leads s1 = leads s2 -> orders s1 = orders s2 ->
  payments s1 = payments s2 -> rateLimitMap s1 = rateLimitMap s2 ->
  forget_logs s1 = forget_logs s2.
Proof.
  intros. unfold forget_logs, set_notifications, set_auditLogs. simpl. by f_equal.
Qed.

Ltac logs_store :=
  let s1 := fresh "s" in let s2 := fresh "s" in let H := fresh "H" in
  intros s1 s2 H; apply forget_logs_fields in H;
  destruct H as (?Hu & ?Hl & ?Ho & ?Hp & ?Hr);
  try (apply forget_logs_intro); simpl; congruence.

Lemma lblind_ret {A} (a : A) : logs_blind (ret a) (ret a).
Proof. intros s1 s2 H. by split. Qed.

Lemma lblind_throw {A} (err : Error) : logs_blind (@throw A err) (throw err).
Proof. intros s1 s2 H. by split. Qed.

Lemma lblind_bind {A B} (m1 m2 : M A) (k1 k2 : A -> M B) :
  logs_blind m1 m2 -> (forall a, logs_blind (k1 a) (k2 a)) ->
  logs_blind (bind m1 k1) (bind m2 k2).
Proof.
  intros Hm Hk s1 s2 H. unfold bind.
  destruct (Hm s1 s2 H) as [Hout Hst].
  destruct (m1 s1) as [o1 t1], (m2 s2) as [o2 t2]. simpl in *. subst o2.
  destruct o1; [by apply Hk | by split | by split].
Qed.

Lemma lblind_try_catch {A} (m1 m2 : M A) (h1 h2 : Error -> M A) :
  logs_blind m1 m2 -> (forall err, logs_blind (h1 err) (h2 err)) ->
  logs_blind (try_catch m1 h1) (try_catch m2 h2).
Proof.
  intros Hm Hh s1 s2 H. unfold try_catch.
  destruct (Hm s1 s2 H) as [Hout Hst].
  destruct (m1 s1) as [o1 t1], (m2 s2) as [o2 t2]. simpl in *. subst o2.
  destruct o1; [by split | by apply Hh | by split].
Qed.

(** Two quiet steps are interchangeable. *)
Lemma lblind_quiet (m1 m2 : M unit) : quiet m1 -> quiet m2 -> logs_blind m1 m2.
Proof.
  intros H1 H2 s1 s2 H.
  destruct (H1 s1) as ([] & t1 & -> & F1), (H2 s2) as ([] & t2 & -> & F2).
  simpl. split; [done|congruence].
Qed.

Lemma lblind_gets {A} (f : Store -> A) :
  (forall s1 s2, forget_logs s1 = forget_logs s2 -> f s1 = f s2) ->
  logs_blind (gets f) (gets f).
Proof. intros Hf s1 s2 H. unfold gets. simpl. split; [f_equal; by apply Hf|done]. Qed.

Lemma lblind_modify (f : Store -> Store) :
  (forall s1 s2, forget_logs s1 = forget_logs s2 ->
     forget_logs (f s1) = forget_logs (f s2)) ->
  logs_blind (modify f) (modify f).
Proof. intros Hf s1 s2 H. unfold modify. simpl. split; [done|by apply Hf]. Qed.

Lemma lblind_guarded {A} e1 e2 c (m1 m2 : M A) :
  rejects e1 c = rejects e2 c -> logs_blind m1 m2 ->
  logs_blind (Prisma.guarded e1 c m1) (Prisma.guarded e2 c m2).
Proof.
  intros Hc Hm. unfold Prisma.guarded. rewrite Hc.
  destruct (rejects e2 c); [apply lblind_throw | exact Hm].
Qed.

Lemma lblind_user_findUnique id :
  logs_blind (Prisma.user_findUnique id) (Prisma.user_findUnique id).
Proof. apply lblind_gets. logs_store. Qed.

Lemma lblind_lead_findUnique id :
  logs_blind (Prisma.lead_findUnique id) (Prisma.lead_findUnique id).
Proof. apply lblind_gets. logs_store. Qed.

Lemma lblind_order_findUnique id :
  logs_blind (Prisma.order_findUnique id) (Prisma.order_findUnique id).
Proof. apply lblind_gets. logs_store. Qed.

Lemma lblind_lead_update e1 e2 id data :
  rejects e1 (LeadUpdate id data) = rejects e2 (LeadUpdate id data) ->
  logs_blind (Prisma.lead_update e1 id data) (Prisma.lead_update e2 id data).
Proof.
  intros Hc. apply lblind_guarded; [done|].
  apply lblind_bind; [apply lblind_lead_findUnique|]. intros [r|]; [|apply lblind_throw].
  apply lblind_bind; [|intros _; apply lblind_ret].
  apply lblind_modify. logs_store.
Qed.

Lemma lblind_lead_updateMany e1 e2 ids data :
  rejects e1 (LeadUpdateMany ids data) = rejects e2 (LeadUpdateMany ids data) ->
  logs_blind (Prisma.lead_updateMany e1 ids data) (Prisma.lead_updateMany e2 ids data).
Proof.
  intros Hc. apply lblind_guarded; [done|].
  apply lblind_bind; [apply lblind_gets; logs_store|]. intros n.
  apply lblind_bind; [|intros _; apply lblind_ret].
  apply lblind_modify. logs_store.
Qed.

Lemma lblind_order_create e1 e2 data :
  rejects e1 (OrderCreate data) = rejects e2 (OrderCreate data) ->
  newId e1 (OrderCreate data) = newId e2 (OrderCreate data) ->
  logs_blind (Prisma.order_create e1 data) (Prisma.order_create e2 data).
Proof.
  intros Hc Hid. unfold Prisma.order_create. rewrite Hid.
  apply lblind_guarded; [done|].
  apply lblind_bind; [|intros _; apply lblind_ret].
  apply lblind_modify. logs_store.
Qed.

Lemma lblind_order_update e1 e2 id data :
  rejects e1 (OrderUpdate id data) = rejects e2 (OrderUpdate id data) ->
  logs_blind (Prisma.order_update e1 id data) (Prisma.order_update e2 id data).
Proof.
  intros Hc. apply lblind_guarded; [done|].
  apply lblind_bind; [apply lblind_order_findUnique|]. intros [r|]; [|apply lblind_throw].
  apply lblind_bind; [|intros _; apply lblind_ret].
  apply lblind_modify. logs_store.
Qed.

Lemma lblind_payment_create e1 e2 data :
  rejects e1 (PaymentCreate data) = rejects e2 (PaymentCreate data) ->
  newId e1 (PaymentCreate data) = newId e2 (PaymentCreate data) ->
  logs_blind (Prisma.payment_create e1 data) (Prisma.payment_create e2 data).
Proof.
  intros Hc Hid. unfold Prisma.payment_create. rewrite Hid.
  apply lblind_guarded; [done|].
  apply lblind_bind; [|intros _; apply lblind_ret].
  apply lblind_modify. logs_store.
Qed.

Lemma lblind_rateLimit e1 e2 ip :
  now e1 = now e2 -> logs_blind (rateLimit e1 ip) (rateLimit e2 ip).
Proof.
  intros Hnow s1 s2 H. unfold rateLimit. rewrite Hnow.
  apply forget_logs_fields in H as (Hu & Hl & Ho & Hp & Hr). rewrite Hr.
  destruct (RateLimit.rateLimit _ _ _ _ _) as [b m]. simpl.
  split; [done|]. apply forget_logs_intro; simpl; congruence.
Qed.

Lemma lblind_req_json req : logs_blind (req_json req) (req_json req).
Proof. unfold req_json. destruct (body req); (apply lblind_throw || apply lblind_ret). Qed.

Lemma lblind_parse schema b : logs_blind (Zod.parse schema b) (Zod.parse schema b).
Proof.
  unfold Zod.parse. destruct (Zod.safeParse schema b); (apply lblind_throw || apply lblind_ret).
Qed.

Lemma lblind_fresh_orderNumber ds :
  logs_blind (OrdersRoute.fresh_orderNumber ds) (OrdersRoute.fresh_orderNumber ds).
Proof.
  induction ds as [|[t r] ds IH]; simpl.
  - intros s1 s2 H. by split.
  - apply lblind_bind; [apply lblind_gets; logs_store|].
    intros [o|]; [exact IH | apply lblind_ret].
Qed.

Lemma lblind_requirePermission u m a :
  logs_blind (requirePermission u m a) (requirePermission u m a).
Proof.
  unfold requirePermission, hasPermission.
  apply lblind_bind.
  - apply lblind_bind; [apply lblind_user_findUnique|].
    intros [usr|]; [|apply lblind_ret].
    destruct (bool_decide _); apply lblind_ret.
  - intros b. destruct (negb b); (apply lblind_throw || apply lblind_ret).
Qed.

Ltac lblind_step :=
  first
    [ apply lblind_ret
    | apply lblind_throw
    | apply lblind_req_json
    | apply lblind_parse
    | apply lblind_requirePermission
    | apply lblind_fresh_orderNumber
    | apply lblind_user_findUnique
    | apply lblind_lead_findUnique
    | apply lblind_order_findUnique
    | apply lblind_rateLimit; reflexivity
    | apply lblind_order_create; reflexivity
    | apply lblind_order_update; reflexivity
    | apply lblind_payment_create; reflexivity
    | apply lblind_lead_update; reflexivity
    | apply lblind_lead_updateMany; reflexivity
    | apply lblind_quiet; first
        [ apply quiet_createAuditLog
        | apply quiet_order_created
        | apply quiet_order_updated
        | apply quiet_lead_updated
        | apply quiet_for_each; intros ?; apply quiet_createAuditLog ]
    | apply lblind_try_catch; [|intros ?]
    | apply lblind_bind; [|intros ?]
    | match goal with
      | |- logs_blind (match ?x with _ => _ end) _ => destruct x
      end ].

(** X12. Audit entries and notifications are best effort in every
    handler that produces them: run against a database whose audit log
    and inboxes reject every write, order creation, order update, lead
    update and bulk assignment give the same response as against a
    working one and leave the same users, leads, orders, payments and
    rate-limit map. *)
Theorem side_effects_are_best_effort (e : Env) (req : Request) (id : string) :
  logs_blind (OrdersRoute.POST (Faults.logs_down e) req) (OrdersRoute.POST e req)
  /\ logs_blind (OrderIdRoute.PATCH (Faults.logs_down e) req id)
                (OrderIdRoute.PATCH e req id)
  /\ logs_blind (LeadIdRoute.PATCH (Faults.logs_down e) req id)
                (LeadIdRoute.PATCH e req id)
  /\ logs_blind (BulkAssignRoute.POST (Faults.logs_down e) req)
                (BulkAssignRoute.POST e req).
Proof.
  split; [|split; [|split]].
  - unfold OrdersRoute.POST, OrdersRoute.POST_body. repeat lblind_step.
  - unfold OrderIdRoute.PATCH, OrderIdRoute.PATCH_body, OrderIdRoute.when.
    repeat lblind_step.
  - unfold LeadIdRoute.PATCH, LeadIdRoute.PATCH_body.
    change (LeadIdRoute.build_updateData (Faults.logs_down e))
      with (LeadIdRoute.build_updateData e).
    change (LeadIdRoute.leadSchema (Faults.logs_down e)) with (LeadIdRoute.leadSchema e).
    repeat lblind_step.
  - unfold BulkAssignRoute.POST, BulkAssignRoute.POST_body. repeat lblind_step.
Qed.

(** An order update whose notifications all fail: still a 200, the
    amount is stored, the payment recorded, no inbox written. *)
Example update_with_inboxes_down :
  let req := Scenario.request Scenario.admin
               (Obj {[ "receivedAmount" := JNum (Num.of_Z 3500);
                       "status" := JStr "DISPATCHED" ]}) in
  let out := OrderIdRoute.PATCH (Faults.logs_down Scenario.env0) req "order-1"
               Scenario.store0 in
  status (response_of out) = 200
  /\ length (payments out.2) = 2%nat
  /\ notifications out.2 = []
  /\ length (notifications
       (OrderIdRoute.PATCH Scenario.env0 req "order-1" Scenario.store0).2) = 3%nat.
Proof. vm_compute. repeat split; reflexivity. Qed.

(** ** What each handler leaves alone *)

Section Frame.

Context {B : Type} (f : Store -> B).

Lemma keeps_f_ret {A} (a : A) : keeps f (ret a).
Proof. by intros s. Qed.

Lemma keeps_f_throw {A} err : keeps f (@throw A err).
Proof. by intros s. Qed.

Lemma keeps_f_gets {A} (g : Store -> A) : keeps f (gets g).
Proof. by intros s. Qed.

Lemma keeps_f_modify (g : Store -> Store) :
  (forall s, f (g s) = f s) -> keeps f (modify g).
Proof. intros Hg s. apply Hg. Qed.

Lemma keeps_f_bind {A C} (m : M A) (k : A -> M C) :
  keeps f m -> (forall a, keeps f (k a)) -> keeps f (bind m k).
Proof.
  intros Hm Hk s. unfold bind. specialize (Hm s).
  destruct (m s) as [[a|err|] s1]; simpl in *; [|done|done].
  by rewrite Hk.
Qed.

Lemma keeps_f_try_catch {A} (m : M A) (h : Error -> M A) :
  keeps f m -> (forall err, keeps f (h err)) -> keeps f (try_catch m h).
Proof.
  intros Hm Hh s. unfold try_catch. specialize (Hm s).
  destruct (m s) as [[a|err|] s1]; simpl in *; [done| |done].
  by rewrite Hh.
Qed.

Lemma keeps_f_for_each {A} (xs : list A) (g : A -> M unit) :
  (forall x, keeps f (g x)) -> keeps f (for_each xs g).
Proof.
  intros Hg. induction xs as [|x xs IH]; simpl.
  - apply keeps_f_ret.
  - apply keeps_f_bind; [apply Hg | intros _; exact IH].
Qed.

Lemma keeps_f_guarded {A} e c (m : M A) : keeps f m -> keeps f (Prisma.guarded e c m).
Proof.
  intros Hm. unfold Prisma.guarded. destruct (rejects e c); [apply keeps_f_throw|done].
Qed.

Lemma keeps_f_req_json req : keeps f (req_json req).
Proof. intros s. unfold req_json. by destruct (body req). Qed.

Lemma keeps_f_parse schema b : keeps f (Zod.parse schema b).
Proof. intros s. unfold Zod.parse. by destruct (Zod.safeParse schema b). Qed.

Lemma keeps_f_requirePermission u m a : keeps f (requirePermission u m a).
Proof.
  intros s. unfold requirePermission, bind.
  pose proof (hasPermission_reads u m a s) as Hread.
  destruct (hasPermission u m a s) as [[b| |] s1]; simpl in *; subst; try done.
  by destruct b.
Qed.

Lemma keeps_f_fresh_orderNumber ds : keeps f (OrdersRoute.fresh_orderNumber ds).
Proof.
  intros s. destruct (OrdersRoute.fresh_orderNumber ds s) as [o s1] eqn:E.
  by apply fresh_orderNumber_spec in E as (-> & _).
Qed.

Hypothesis f_rateLimitMap : forall g s, f (set_rateLimitMap g s) = f s.

Lemma keeps_f_rateLimit e ip : keeps f (rateLimit e ip).
Proof.
  intros s. unfold rateLimit. destruct (RateLimit.rateLimit _ _ _ _ _). simpl.
  apply f_rateLimitMap.
Qed.

Hypothesis f_auditLogs : forall g s, f (set_auditLogs g s) = f s.

Lemma keeps_f_createAuditLog e userId action entityType entityId changes
  description ipAddress userAgent :
  keeps f (createAuditLog e userId action entityType entityId changes
             description ipAddress userAgent).
Proof.
  intros s. rewrite createAuditLog_returns. simpl.
  destruct (rejects e _); [done|apply f_auditLogs].
Qed.

End Frame.

Lemma keeps_createNotification {B} (f : Store -> B) e n :
  (forall g s, f (set_notifications g s) = f s) ->
  keeps f (createNotification e n).
Proof.
  intros Hf s. unfold createNotification, try_catch, bind,
    Prisma.notification_create, Prisma.guarded, modify, ret, throw.
  destruct (rejects e _); simpl; [done|apply Hf].
Qed.

Lemma keeps_lead_update_f {B} (f : Store -> B) e id data :
  (forall g s, f (set_leads g s) = f s) -> keeps f (Prisma.lead_update e id data).
Proof.
  intros Hf. apply keeps_f_guarded. apply keeps_f_bind; [apply keeps_f_gets|].
  intros [r|]; [|apply keeps_f_throw].
  apply keeps_f_bind; [by apply keeps_f_modify|intros _; apply keeps_f_ret].
Qed.

Lemma keeps_lead_updateMany_f {B} (f : Store -> B) e ids data :
  (forall g s, f (set_leads g s) = f s) -> keeps f (Prisma.lead_updateMany e ids data).
Proof.
  intros Hf. apply keeps_f_guarded. apply keeps_f_bind; [apply keeps_f_gets|].
  intros n. apply keeps_f_bind; [by apply keeps_f_modify|intros _; apply keeps_f_ret].
Qed.

Lemma keeps_order_create_f {B} (f : Store -> B) e data :
  (forall g s, f (set_orders g s) = f s) -> keeps f (Prisma.order_create e data).
Proof.
  intros Hf. apply keeps_f_guarded.
  apply keeps_f_bind; [by apply keeps_f_modify|intros _; apply keeps_f_ret].
Qed.

Lemma keeps_order_update_f {B} (f : Store -> B) e id data :
  (forall g s, f (set_orders g s) = f s) -> keeps f (Prisma.order_update e id data).
Proof.
  intros Hf. apply keeps_f_guarded. apply keeps_f_bind; [apply keeps_f_gets|].
  intros [r|]; [|apply keeps_f_throw].
  apply keeps_f_bind; [by apply keeps_f_modify|intros _; apply keeps_f_ret].
Qed.

Lemma keeps_payment_create_f {B} (f : Store -> B) e data :
  (forall g s, f (set_payments g s) = f s) -> keeps f (Prisma.payment_create e data).
Proof.
  intros Hf. apply keeps_f_guarded.
  apply keeps_f_bind; [by apply keeps_f_modify|intros _; apply keeps_f_ret].
Qed.

Ltac frame_step :=
  first
    [ apply keeps_f_ret
    | apply keeps_f_throw
    | apply keeps_f_req_json
    | apply keeps_f_parse
    | apply keeps_f_requirePermission
    | apply keeps_f_fresh_orderNumber
    | apply keeps_f_gets
    | apply keeps_f_rateLimit; reflexivity
    | apply keeps_f_createAuditLog; reflexivity
    | apply keeps_createNotification; reflexivity
    | apply keeps_lead_update_f; reflexivity
    | apply keeps_lead_updateMany_f; reflexivity
    | apply keeps_order_create_f; reflexivity
    | apply keeps_order_update_f; reflexivity
    | apply keeps_payment_create_f; reflexivity
    | apply keeps_f_for_each; intros ?
    | apply keeps_f_try_catch; [|intros ?]
    | apply keeps_f_bind; [|intros ?]
    | match goal with
      | |- keeps _ (match ?x with _ => _ end) => destruct x
      end ].

Ltac frame := repeat frame_step.

(** X13. What the write handlers never touch, whatever they answer: none
    of them changes the user table; the order update changes no lead;
    the lead update and the bulk assignment change no order and no
    payment; the bulk assignment sends no notification; and the lead
    listing changes nothing in the database. *)
Theorem handlers_frame (e : Env) (req : Request) (id : string) (s : Store) :
  users (OrdersRoute.POST e req s).2 = users s
  /\ (users (OrderIdRoute.PATCH e req id s).2 = users s
      /\ leads (OrderIdRoute.PATCH e req id s).2 = leads s)
  /\ (users (LeadIdRoute.PATCH e req id s).2 = users s
      /\ orders (LeadIdRoute.PATCH e req id s).2 = orders s
      /\ payments (LeadIdRoute.PATCH e req id s).2 = payments s)
  /\ (users (BulkAssignRoute.POST e req s).2 = users s
      /\ orders (BulkAssignRoute.POST e req s).2 = orders s
      /\ payments (BulkAssignRoute.POST e req s).2 = payments s
      /\ notifications (BulkAssignRoute.POST e req s).2 = notifications s)
  /\ database (LeadsRouteEarlier.GET e req s).2 = database s
  /\ database (LeadsRoute.GET e req s).2 = database s.
Proof.
  assert (Horder : forall B (f : Store -> B),
            (forall g s, f (set_rateLimitMap g s) = f s) ->
            (forall g s, f (set_auditLogs g s) = f s) ->
            (forall g s, f (set_notifications g s) = f s) ->
            (forall g s, f (set_orders g s) = f s) ->
            (forall g s, f (set_payments g s) = f s) ->
            keeps f (OrderIdRoute.PATCH e req id)).
  { intros B f H1 H2 H3 H4 H5.
    unfold OrderIdRoute.PATCH, OrderIdRoute.PATCH_body,
      OrderIdRoute.create_notifications, OrderIdRoute.when, OrderIdRoute.notify, json.
    repeat first
      [ apply keeps_f_rateLimit; exact H1
      | apply keeps_f_createAuditLog; exact H2
      | apply keeps_createNotification; exact H3
      | apply keeps_order_update_f; exact H4
      | apply keeps_payment_create_f; exact H5
      | frame_step ]. }
  assert (Hlead : forall B (f : Store -> B),
            (forall g s, f (set_rateLimitMap g s) = f s) ->
            (forall g s, f (set_auditLogs g s) = f s) ->
            (forall g s, f (set_notifications g s) = f s) ->
            (forall g s, f (set_leads g s) = f s) ->
            keeps f (LeadIdRoute.PATCH e req id)).
  { intros B f H1 H2 H3 H4.
    unfold LeadIdRoute.PATCH, LeadIdRoute.PATCH_body,
      LeadIdRoute.create_notifications, LeadIdRoute.when, LeadIdRoute.notify, json.
    repeat first
      [ apply keeps_f_rateLimit; exact H1
      | apply keeps_f_createAuditLog; exact H2
      | apply keeps_createNotification; exact H3
      | apply keeps_lead_update_f; exact H4
      | frame_step ]. }
  assert (Hbulk : forall B (f : Store -> B),
            (forall g s, f (set_rateLimitMap g s) = f s) ->
            (forall g s, f (set_auditLogs g s) = f s) ->
            (forall g s, f (set_leads g s) = f s) ->
            keeps f (BulkAssignRoute.POST e req)).
  { intros B f H1 H2 H3.
    unfold BulkAssignRoute.POST, BulkAssignRoute.POST_body, json.
    repeat first
      [ apply keeps_f_rateLimit; exact H1
      | apply keeps_f_createAuditLog; exact H2
      | apply keeps_lead_updateMany_f; exact H3
      | frame_step ]. }
  assert (Hlist : forall unfiltered,
            keeps database (LeadListing.GET_with unfiltered e req)).
  { intros unfiltered.
    unfold LeadListing.GET_with, LeadListing.GET_body, LeadListing.findMany,
      LeadListing.count, json.
    repeat first [ apply keeps_f_guarded | frame_step ]. }
  split; [|split; [|split; [|split; [|split]]]].
  - revert s. change (keeps users (OrdersRoute.POST e req)).
    unfold OrdersRoute.POST, OrdersRoute.POST_body,
      OrdersRoute.create_notifications, json.
    frame.
  - split; apply Horder; reflexivity.
  - repeat split; apply Hlead; reflexivity.
  - repeat split; apply Hbulk; reflexivity.
  - apply (Hlist None).
  - apply (Hlist (Some (StatusNot "CONVERTED"))).
Qed.

(** ** More on the lead listing *)

(** What a listing answer is made of. *)
Lemma leads_GET_listed unfiltered e req s resp s' data page limit total pages :
  LeadListing.GET_with unfiltered e req s = (Ok resp, s') ->
  payload resp = Listing data page limit total pages ->
  exists (u : SessionUser) (w : LeadWhere) (p l : Z),
    authenticated req = Some u
    /\ w_assignedTo w
       = (if bool_decide (su_role u = EMPLOYEE) then Some (su_id u) else None)
    /\ page = Some p /\ limit = Some l /\ 0 <= (p - 1) * l
    /\ data = LeadListing.window ((p - 1) * l) l
                (LeadListing.newest_first
                   (List.filter (LeadListing.satisfies e w) (leads s)))
    /\ total = length (List.filter (LeadListing.satisfies e w) (leads s))
    /\ pages = LeadListing.totalPages total (Some l)
    /\ database s' = database s.
Proof.
  intros Hrun Hpayload. unfold LeadListing.GET_with, try_catch in Hrun.
  destruct (LeadListing.GET_body unfiltered e req s) as [[r|err|] s0] eqn:Hbody;
    [injection Hrun as -> -> | | discriminate].
  2:{ injection Hrun as <- <-. discriminate. }
  unfold LeadListing.GET_body in Hbody.
  destruct (authenticated req) as [u|];
    [|injection Hbody as <- <-; discriminate].
  apply bind_Ok in Hbody as (allowed & s1 & Hrl & Hbody).
  pose proof Hrl as Hdb. apply rateLimit_database in Hdb as (_ & Hdb).
  apply rateLimit_Ok in Hrl as (_ & _ & Hl1 & _).
  destruct allowed; simpl in Hbody; [|injection Hbody as <- <-; discriminate].
  apply bind_Ok in Hbody as (found & s2 & Hfind & Hbody).
  apply bind_Ok in Hbody as (n & s3 & Hcount & Hbody).
  injection Hbody as <- <-. simpl in Hpayload.
  injection Hpayload as -> <- <- -> <-.
  unfold LeadListing.findMany, Prisma.guarded in Hfind.
  destruct (rejects e _); [discriminate|].
  destruct (parseInt e (or_else _ "1")) as [p|]; [|discriminate].
  destruct (parseInt e (or_else _ "20")) as [l|]; [|discriminate].
  cbv beta iota in Hfind.
  destruct (bool_decide_reflect ((p - 1) * l < 0)) as [|Hskip]; [discriminate|].
  apply gets_Ok in Hfind as [[= ->] ->].
  apply gets_Ok in Hcount as [[= ->] ->].
  eexists u, _, p, l. rewrite Hl1.
  split; [done|]. split; cycle 1.
  { split; [done|]. split; [done|]. split; [lia|]. split; [reflexivity|].
    split; [reflexivity|]. split; [reflexivity|exact Hdb]. }
  reflexivity.
Qed.



#[local] Instance newer_or_same_total : Total LeadListing.newer_or_same.
Proof. intros a b. unfold LeadListing.newer_or_same. lia. Qed.

#[local] Instance newer_or_same_trans : Transitive LeadListing.newer_or_same.
Proof. intros a b c. unfold LeadListing.newer_or_same. lia. Qed.



Lemma filter_length_mono {A} (f g : A -> bool) (l : list A) :
  (forall x, f x = true -> g x = true) ->
  (length (List.filter f l) <= length (List.filter g l))%nat.
Proof.
  intros Hfg. induction l as [|x l IH]; simpl; [lia|].
  destruct (f x) eqn:Hf.
  - rewrite (Hfg _ Hf). simpl. lia.
  - destruct (g x); simpl; lia.
Qed.

(** X14. Data isolation of the listing: whatever the query asks for, a
    listing answered to an EMPLOYEE holds only stored leads assigned to
    the caller, and the total it reports counts no other lead. *)
Theorem employee_listing_is_own_leads unfiltered e req s resp s' u
  data page limit total pages :
  LeadListing.GET_with unfiltered e req s = (Ok resp, s') ->
  payload resp = Listing data page limit total pages ->
  authenticated req = Some u ->
  su_role u = EMPLOYEE ->
  Forall (fun l : Row => l ∈ leads s /\ l !! "assignedTo" = Some (JStr (su_id u))) data
  /\ (total <= length (List.filter
                 (fun l : Row => bool_decide (l !! "assignedTo" = Some (JStr (su_id u))))
                 (leads s)))%nat.
Proof.
  intros Hrun Hpayload Hauth Hrole.
  destruct (leads_GET_listed _ _ _ _ _ _ _ _ _ _ _ Hrun Hpayload)
    as (u' & w & p & l & Hauth' & Hw & _ & _ & _ & -> & -> & _ & _).
  rewrite Hauth in Hauth'. injection Hauth' as <-.
  rewrite bool_decide_eq_true_2 in Hw by done.
  assert (Hown : forall r, LeadListing.satisfies e w r = true ->
                   bool_decide (r !! "assignedTo" = Some (JStr (su_id u))) = true).
  { intros r Hr. unfold LeadListing.satisfies in Hr. rewrite Hw in Hr.
    simpl in Hr. repeat (apply andb_prop in Hr as [Hr _]). exact Hr. }
  split.
  - apply Forall_forall. intros x Hx.
    apply window_subset, newest_first_subset in Hx.
    apply list_elem_of_In, filter_In in Hx as [Hin Hsat].
    split; [by apply list_elem_of_In|].
    exact (bool_decide_eq_true_1 _ (Hown _ Hsat)).
  - by apply filter_length_mono.
Qed.

Lemma employee_listing_is_own_leads_witness :
  let req := Scenario.request Scenario.employeeE NotObject in
  let out := LeadsRouteEarlier.GET Scenario.env0 req Scenario.store0 in
  exists data,
    payload (response_of out) = Listing data (Some 1) (Some 20) 2 (Some 1)
    /\ Forall (fun l : Row => l ∈ leads Scenario.store0
                 /\ l !! "assignedTo" = Some (JStr "e1")) data.
Proof.
  intros req out. exists [Scenario.leadB; Scenario.leadA].
  split; [vm_compute; reflexivity|].
  refine (proj1 (employee_listing_is_own_leads None Scenario.env0 req Scenario.store0
                   (response_of out) out.2 (Scenario.as_session Scenario.employeeE)
                   [Scenario.leadB; Scenario.leadA]
                   (Some 1) (Some 20) 2%nat (Some 1) _ _ _ _)).
  - apply returned_eq. vm_compute. reflexivity.
  - vm_compute. reflexivity.
  - vm_compute. reflexivity.
  - reflexivity.
Defined.






(** ** Who an order is booked by and assigned to *)

(** The order a 201 reports, with the assignee the handler chose. *)
Lemma order_POST_assignee e req s resp s' :
  OrdersRoute.POST e req s = (Ok resp, s') -> status resp = 201 ->
  exists u data lead orderNumber,
    authenticated req = Some u
    /\ Zod.safeParse OrdersRoute.orderSchema (body req) = Some data
    /\ let raw := match body req with Obj r => r | _ => ∅ end in
       let assignedTo :=
         if bool_decide (su_role u = ADMIN)
         then js_or (raw !! "assignedTo") (JStr (su_id u))
         else JStr (su_id u) in
       let order_data := OrdersRoute.order_data data orderNumber lead assignedTo u in
       let order := <["id" := JStr (newId e (OrderCreate order_data))]> order_data in
       resp = {| status := 201; payload := RowJson order |}
       /\ orders s' = orders s ++ [order].
Proof.
  intros Hrun H201. unfold OrdersRoute.POST, try_catch in Hrun.
  destruct (OrdersRoute.POST_body e req s) as [[r|err|] s0] eqn:Hbody;
    [injection Hrun as -> -> | | discriminate].
  2:{ destruct err; injection Hrun as <- <-; discriminate. }
  unfold OrdersRoute.POST_body in Hbody.
  destruct (authenticated req) as [u|] eqn:Hauth;
    [|injection Hbody as <- <-; discriminate].
  apply bind_Ok in Hbody as (allowed & s1 & Hrl & Hbody).
  apply rateLimit_Ok in Hrl as (_ & _ & _ & Ho1 & _).
  destruct allowed; simpl in Hbody; [|injection Hbody as <- <-; discriminate].
  apply bind_Ok in Hbody as (b & s2 & Hjson & Hbody).
  apply req_json_Ok in Hjson as [-> ->].
  apply bind_Ok in Hbody as (data & s2 & Hparse & Hbody).
  apply parse_Ok in Hparse as [Hparse ->].
  apply bind_Ok in Hbody as (lead & s2 & Hlead & Hbody).
  apply gets_Ok in Hlead as [[= ->] ->].
  destruct (find _ (leads s1)) as [lead|];
    [|injection Hbody as <- <-; discriminate].
  apply bind_Ok in Hbody as (orderNumber & s2 & Hnum & Hbody).
  apply fresh_orderNumber_spec in Hnum as (-> & _ & _).
  apply bind_Ok in Hbody as (order & s2 & Hcreate & Hbody).
  apply order_create_Ok in Hcreate as (_ & Horder & ->).
  apply bind_Ok in Hbody as (x & s3 & Hpay & Hbody).
  apply bind_Ok in Hbody as (x' & s4 & Hupd & Hbody).
  apply lead_update_Ok in Hupd as (lead' & _ & _ & ->).
  apply bind_Ok in Hbody as (x'' & s5 & Haudit & Hbody).
  apply (quiet_Ok _ _ _ _ (quiet_createAuditLog _ _ _ _ _ _ _ _ _)) in Haudit
    as (_ & _ & _ & Ho5 & _).
  apply bind_Ok in Hbody as (x''' & s6 & Hnote & Hbody).
  apply (quiet_Ok _ _ _ _ (quiet_order_created _ _ _ _ _ _)) in Hnote
    as (_ & _ & _ & Ho6 & _).
  injection Hbody as <- <-.
  exists u, data, lead, orderNumber.
  split; [done|]. split; [done|]. cbv zeta. rewrite <- Horder.
  split; [done|].
  assert (Ho3 : orders s3 = orders s1 ++ [order]).
  { destruct (num_gt _ _).
    - apply bind_Ok in Hpay as (p & s3' & Hp & Hret).
      apply payment_create_Ok in Hp as (_ & _ & ->).
      injection Hret as _ <-. by simpl.
    - injection Hpay as _ <-. by simpl. }
  simpl in *. by rewrite Ho6, Ho5, Ho3, Ho1.
Qed.

(** X17. Who a new order belongs to: the order a 201 reports is booked
    by the caller; for an EMPLOYEE it is assigned to the caller whatever
    the body says, and for an ADMIN to [body.assignedTo] when that is
    truthy and to the caller otherwise. *)
Theorem order_POST_assignment e req s resp s' :
  OrdersRoute.POST e req s = (Ok resp, s') ->
  status resp = 201 ->
  exists (u : SessionUser) (order : Row),
    authenticated req = Some u
    /\ payload resp = RowJson order
    /\ orders s' = orders s ++ [order]
    /\ order !! "bookedBy" = Some (JStr (su_id u))
    /\ (su_role u = EMPLOYEE -> order !! "assignedTo" = Some (JStr (su_id u)))
    /\ (su_role u = ADMIN ->
        forall raw, body req = Obj raw ->
          order !! "assignedTo"
          = Some (js_or (raw !! "assignedTo") (JStr (su_id u)))).
Proof.
  intros Hrun H201.
  destruct (order_POST_assignee _ _ _ _ _ Hrun H201)
    as (u & data & lead & orderNumber & Hauth & _ & Hpost).
  cbv zeta in Hpost. destruct Hpost as [-> Horders].
  eexists u, _. split; [done|]. split; [reflexivity|]. split; [exact Horders|].
  unfold OrdersRoute.order_data.
  split; [by simplify_map_eq|]. split.
  - intros Hrole. rewrite bool_decide_eq_false_2 by (rewrite Hrole; discriminate).
    by simplify_map_eq.
  - intros Hrole raw Hraw. rewrite bool_decide_eq_true_2 by done.
    rewrite Hraw. by simplify_map_eq.
Qed.

Lemma order_POST_assignment_witness :
  let req := Scenario.request Scenario.employeeF
               (Scenario.conversion "lead-1" 2000) in
  let out := OrdersRoute.POST Scenario.env0 req Scenario.store0 in
  exists order : Row,
    payload (response_of out) = RowJson order
    /\ order !! "bookedBy" = Some (JStr "e2")
    /\ order !! "assignedTo" = Some (JStr "e2").
Proof.
  intros req out.
  destruct (order_POST_assignment Scenario.env0 req Scenario.store0
              (response_of out) out.2)
    as (u & order & Hauth & Hpayload & _ & Hbooked & Hemployee & _).
  - apply returned_eq. vm_compute. reflexivity.
  - vm_compute. reflexivity.
  - injection Hauth as <-. exists order.
    split; [exact Hpayload|]. split; [exact Hbooked|]. by apply Hemployee.
Defined.

(** ** The dispatch stamp *)

(** A parsed update carries a date under [dispatchDate] or nothing, and
    no [dispatchedBy]. *)
Lemma orderUpdateSchema_dispatch e b data :
  Zod.safeParse (OrderIdRoute.orderUpdateSchema e) b = Some data ->
  (data !! "dispatchDate" = None
   \/ exists t, data !! "dispatchDate" = Some (JDate t))
  /\ data !! "dispatchedBy" = None.
Proof.
  destruct b as [| |input]; [discriminate|discriminate|].
  cbn [Zod.safeParse]. intros Hparse.
  destruct (parse_fields_spec _ _ _ (orderUpdateSchema_keys e) Hparse) as [Hin Hout].
  clear Hparse. split.
  - specialize (Hin (Zod.opt_with "dispatchDate" Zod.string_ (OrderIdRoute.to_Date e))
                  ltac:(right; left)).
    cbn [Zod.opt_with Zod.key Zod.optional Zod.accepts Zod.transform] in Hin.
    destruct (input !! "dispatchDate") as [v|]; destruct Hin as [Hacc Hd].
    + destruct v; try discriminate Hacc. right. eexists. exact Hd.
    + by left.
  - apply Hout. apply (bool_decide_unpack _). vm_compute. exact I.
Qed.

(** X18. The dispatch stamp.  An update to DISPATCHED of an order that
    has no dispatcher yet stores the caller as [dispatchedBy] and, as
    [dispatchDate], the date of the body or else the current time.  Any
    other update leaves [dispatchedBy] as it was: no body can set it,
    and the first dispatcher stays. *)
Theorem order_PATCH_dispatch_stamp e req id s resp s' :
  OrderIdRoute.PATCH e req id s = (Ok resp, s') ->
  status resp = 200 ->
  exists (u : SessionUser) (data existing updated : Row),
    authenticated req = Some u
    /\ Zod.safeParse (OrderIdRoute.orderUpdateSchema e) (body req) = Some data
    /\ find (Prisma.has_id id) (orders s) = Some existing
    /\ payload resp = RowJson updated
    /\ find (Prisma.has_id id) (orders s') = Some updated
    /\ (data !! "status" = Some (JStr "DISPATCHED") ->
        truthy (col existing "dispatchedBy") = false ->
        updated !! "dispatchedBy" = Some (JStr (su_id u))
        /\ updated !! "dispatchDate"
           = Some (default (JDate (Some (later e))) (data !! "dispatchDate")))
    /\ (data !! "status" <> Some (JStr "DISPATCHED")
        \/ truthy (col existing "dispatchedBy") = true ->
        updated !! "dispatchedBy" = existing !! "dispatchedBy"
        /\ updated !! "dispatchDate" = (data ∪ existing) !! "dispatchDate").
Proof.
  intros Hrun H200.
  destruct (order_PATCH_updated _ _ _ _ _ _ Hrun H200)
    as (u & data & existing & Hauth & Hparse & Hfind & Hpost).
  cbv zeta in Hpost. destruct Hpost as (-> & Horders & _).
  destruct (orderUpdateSchema_parsed _ _ _ Hparse) as [_ Hid].
  destruct (orderUpdateSchema_dispatch _ _ _ Hparse) as [Hdate Hby].
  exists u, data, existing,
    (OrderIdRoute.handle_dispatch e u data existing ∪ existing).
  split; [done|]. split; [done|]. split; [done|]. split; [done|].
  split.
  { rewrite Horders. apply find_update_row; [|done].
    by rewrite handle_dispatch_other. }
  unfold OrderIdRoute.handle_dispatch. split.
  - intros Hstatus Hfresh.
    rewrite bool_decide_eq_true_2, Hfresh by done. cbn [negb andb].
    destruct Hdate as [Hnone | [t Hsome]].
    + rewrite lookup_insert_ne, Hnone by done. cbn [OrderIdRoute.truthy_field negb].
      split; apply lookup_union_Some_l; by simplify_map_eq.
    + rewrite lookup_insert_ne, Hsome by done.
      cbn [OrderIdRoute.truthy_field truthy negb].
      split; apply lookup_union_Some_l; by simplify_map_eq.
  - intros Hother.
    assert (bool_decide (data !! "status" = Some (JStr "DISPATCHED"))
            && negb (truthy (col existing "dispatchedBy")) = false) as ->.
    { destruct Hother as [Hne | ->].
      - by rewrite bool_decide_eq_false_2.
      - apply andb_false_r. }
    split; [by rewrite lookup_union_r|done].
Qed.

Lemma order_PATCH_dispatch_stamp_witness :
  let req := Scenario.request Scenario.employeeE
               (Obj {[ "status" := JStr "DISPATCHED" ]}) in
  let out := OrderIdRoute.PATCH Scenario.env0 req "order-1" Scenario.store0 in
  exists updated : Row,
    find (Prisma.has_id "order-1") (orders out.2) = Some updated
    /\ updated !! "dispatchedBy" = Some (JStr "e1")
    /\ updated !! "dispatchDate" = Some (JDate (Some 1700000000005)).
Proof.
  intros req out.
  destruct (order_PATCH_dispatch_stamp Scenario.env0 req "order-1" Scenario.store0
              (response_of out) out.2)
    as (u & data & existing & updated & Hauth & Hparse & Hfind & _ & Hstored
        & Hstamp & _).
  - apply returned_eq. vm_compute. reflexivity.
  - vm_compute. reflexivity.
  - injection Hauth as <-.
    remember (data !! "status") as st eqn:Hst.
    remember (data !! "dispatchDate") as date eqn:Hdate.
    remember (truthy (col existing "dispatchedBy")) as stamped eqn:Hstamped.
    assert (Hdata : (d ← Zod.safeParse (OrderIdRoute.orderUpdateSchema Scenario.env0)
                           (body req);
                     Some (d !! "status", d !! "dispatchDate"))
                    = Some (st, date))
      by (by rewrite Hparse, Hst, Hdate).
    vm_compute in Hdata. injection Hdata as <- <-.
    assert (Hold : (o ← find (Prisma.has_id "order-1") (orders Scenario.store0);
                    Some (truthy (col o "dispatchedBy")))
                   = Some stamped)
      by (by rewrite Hfind, Hstamped).
    vm_compute in Hold. injection Hold as <-.
    destruct (Hstamp eq_refl eq_refl) as [Hby Hwhen].
    exists updated. split; [exact Hstored|]. split; [exact Hby|exact Hwhen].
Defined.

(** ** Data isolation on updates *)

(** X19. Data isolation of the order update: an EMPLOYEE who asks to
    update an order assigned to someone else is always answered, with
    403 (or 429 when out of requests), and the database is as it was. *)
Theorem employee_order_PATCH_isolation e req id s u existing :
  authenticated req = Some u ->
  su_role u = EMPLOYEE ->
  find (Prisma.has_id id) (orders s) = Some existing ->
  col existing "assignedTo" <> JStr (su_id u) ->
  exists resp s',
    OrderIdRoute.PATCH e req id s = (Ok resp, s')
    /\ (resp = {| status := 403; payload := ErrorMessage "Forbidden" |}
        \/ resp = {| status := 429; payload := ErrorMessage "Too many requests" |})
    /\ database s' = database s.
Proof.
  intros Hauth Hrole Hfind Hother.
  unfold OrderIdRoute.PATCH, try_catch, OrderIdRoute.PATCH_body. rewrite Hauth.
  unfold bind at 1.
  destruct (rateLimit e (client_ip req) s) as [o s1] eqn:Hrl.
  pose proof Hrl as Hdb. apply rateLimit_database in Hdb as [_ Hdb].
  apply rateLimit_Ok in Hrl as (-> & _ & _ & Ho1 & _).
  destruct (RateLimit.rateLimit _ _ _ _ _).1; cbn [negb].
  - unfold bind, Prisma.order_findUnique, gets. rewrite Ho1, Hfind.
    rewrite !bool_decide_eq_true_2 by done. cbn [andb].
    eexists _, _. split; [reflexivity|]. split; [by left|done].
  - eexists _, _. split; [reflexivity|]. split; [by right|done].
Qed.

Lemma employee_order_PATCH_isolation_witness :
  let req := Scenario.request Scenario.employeeF
               (Obj {[ "status" := JStr "CANCELLED" ]}) in
  exists resp s',
    OrderIdRoute.PATCH Scenario.env0 req "order-1" Scenario.store0 = (Ok resp, s')
    /\ (resp = {| status := 403; payload := ErrorMessage "Forbidden" |}
        \/ resp = {| status := 429; payload := ErrorMessage "Too many requests" |})
    /\ database s' = database Scenario.store0.
Proof.
  intros req.
  apply (employee_order_PATCH_isolation Scenario.env0 req "order-1" Scenario.store0
           (Scenario.as_session Scenario.employeeF) Scenario.orderB).
  - reflexivity.
  - reflexivity.
  - apply (bool_decide_unpack _). vm_compute. exact I.
  - vm_compute. discriminate.
Defined.

(** X20. Data isolation of the lead update: an EMPLOYEE who asks to
    update a lead assigned to someone else is always answered, with 403
    (or 429 when out of requests), and the database is as it was. *)
Theorem employee_lead_PATCH_isolation e req id s u existing :
  authenticated req = Some u ->
  su_role u = EMPLOYEE ->
  find (Prisma.has_id id) (leads s) = Some existing ->
  col existing "assignedTo" <> JStr (su_id u) ->
  exists resp s',
    LeadIdRoute.PATCH e req id s = (Ok resp, s')
    /\ (resp = {| status := 403; payload := ErrorMessage "Forbidden" |}
        \/ resp = {| status := 429; payload := ErrorMessage "Too many requests" |})
    /\ database s' = database s.
Proof.
  intros Hauth Hrole Hfind Hother.
  unfold LeadIdRoute.PATCH, try_catch, LeadIdRoute.PATCH_body. rewrite Hauth.
  unfold bind at 1.
  destruct (rateLimit e (client_ip req) s) as [o s1] eqn:Hrl.
  pose proof Hrl as Hdb. apply rateLimit_database in Hdb as [_ Hdb].
  apply rateLimit_Ok in Hrl as (-> & _ & Hl1 & _).
  destruct (RateLimit.rateLimit _ _ _ _ _).1; cbn [negb].
  - unfold bind at 1. unfold Prisma.lead_findUnique, gets. rewrite Hl1, Hfind.
    rewrite !bool_decide_eq_true_2 by done. cbn [andb].
    eexists _, _. split; [reflexivity|]. split; [by left|done].
  - eexists _, _. split; [reflexivity|]. split; [by right|done].
Qed.

Lemma employee_lead_PATCH_isolation_witness :
  let req := Scenario.request Scenario.employeeF
               (Obj {[ "status" := JStr "LOST" ]}) in
  exists resp s',
    LeadIdRoute.PATCH Scenario.env0 req "lead-1" Scenario.store0 = (Ok resp, s')
    /\ (resp = {| status := 403; payload := ErrorMessage "Forbidden" |}
        \/ resp = {| status := 429; payload := ErrorMessage "Too many requests" |})
    /\ database s' = database Scenario.store0.
Proof.
  intros req.
  apply (employee_lead_PATCH_isolation Scenario.env0 req "lead-1" Scenario.store0
           (Scenario.as_session Scenario.employeeF) Scenario.leadA).
  - reflexivity.
  - reflexivity.
  - apply (bool_decide_unpack _). vm_compute. exact I.
  - vm_compute. discriminate.
Defined.

(** ** A client that has used up its window *)

(** X21. A client that has used up its window is turned away by every
    handler alike: while the window of its address is open and its
    counter has reached the limit of 100, order creation, order update,
    lead update, bulk assignment and the lead listing answer 429 and
    leave the whole store, the counter included, as it was. *)
Theorem exhausted_client_is_refused e req s u r :
  authenticated req = Some u ->
  rateLimitMap s !! client_ip req = Some r ->
  now e <= RateLimit.resetTime r ->
  RateLimit.default_limit <= RateLimit.count r ->
  let refused := (Ok {| status := 429; payload := ErrorMessage "Too many requests" |}, s) in
  OrdersRoute.POST e req s = refused
  /\ (forall id, OrderIdRoute.PATCH e req id s = refused)
  /\ (forall id, LeadIdRoute.PATCH e req id s = refused)
  /\ BulkAssignRoute.POST e req s = refused
  /\ LeadsRouteEarlier.GET e req s = refused
  /\ LeadsRoute.GET e req s = refused.
Proof.
  intros Hauth Hrec Hlive Hfull refused.
  assert (Hrl : rateLimit e (client_ip req) s = (Ok false, s)).
  { unfold rateLimit.
    rewrite (rateLimit_reached _ _ _ _ _ r Hrec Hlive Hfull).
    by destruct s. }
  repeat split; intros;
    unfold OrdersRoute.POST, OrderIdRoute.PATCH, LeadIdRoute.PATCH,
      BulkAssignRoute.POST, LeadsRouteEarlier.GET, LeadsRoute.GET,
      LeadListing.GET_with, try_catch,
      OrdersRoute.POST_body, OrderIdRoute.PATCH_body, LeadIdRoute.PATCH_body,
      BulkAssignRoute.POST_body, LeadListing.GET_body;
    rewrite Hauth; unfold bind at 1; by rewrite Hrl.
Qed.

Lemma exhausted_client_is_refused_witness :
  let s := set_rateLimitMap
             (fun _ => {[ "10.0.0.1" := {| RateLimit.count := 100;
                                           RateLimit.resetTime := 1700000000001 |} ]})
             Scenario.store0 in
  let req := Scenario.request Scenario.employeeE
               (Scenario.conversion "lead-1" 2000) in
  OrdersRoute.POST Scenario.env0 req s
  = (Ok {| status := 429; payload := ErrorMessage "Too many requests" |}, s).
Proof.
  intros s req.
  apply (exhausted_client_is_refused Scenario.env0 req s
           (Scenario.as_session Scenario.employeeE)
           {| RateLimit.count := 100; RateLimit.resetTime := 1700000000001 |}).
  - reflexivity.
  - vm_compute. reflexivity.
  - vm_compute. discriminate.
  - vm_compute. discriminate.
Defined.
